(** * Pocket money ledger: a shallow embedding of [money.py], [simple.py]
      and [pp.py], and the properties of the ledger specification.

    - Python values are embedded as the type [pyval] of the values that
      [json.load] produces; a dictionary, whose keys are strings, is a
      [gmap].  An operation that can raise returns a [result], an
      exception or a value.
    - A [str] is a [string] of bytes, its UTF-8 encoding: the order of
      strs by code point is the order of their bytes, and [startswith] is
      the prefix test on bytes.
    - Python's [float] is the binary64 float of Rocq ([PrimFloat.float]):
      its sums, differences and comparisons are those of IEEE 754, each sum
      rounded to the nearest float, with infinities and NaN.
    - What the library decides is a parameter of the development, which
      holds for every value of it: the float that [float] reads in a str
      ([float_of_str]), the value of a decimal digit outside ASCII
      ([decimal]), the date of the day ([clock]), and whether the data file
      can be opened for writing ([writable]).
    - The data file is described by what [os.path.exists], [open] and
      [json.load] make of it.
    - The actions are modelled twice: on the values the prompts return,
      with what they report, and at the console, on the lines typed, with
      what they print. *)

From Stdlib Require Import QArith Floats Ascii String.
From Stdlib Require Import Sorting.Sorted Sorting.Permutation.
From stdpp Require Import gmap strings list fin_maps.

Set Warnings "-register-all,-clear-no-such-hyp,-inexact-float".
Local Open Scope string_scope.

(** ** Python values, exceptions, results *)

Inductive pyval :=
| PNone
| PBool (b : bool)
| PInt (z : Z)
| PFloat (x : float)
| PStr (s : string)
| PList (l : list pyval)
| PDict (m : gmap string pyval).

Inductive exn :=
| TypeError
| ValueError
| KeyError
| AttributeError
| OSError
| JSONDecodeError
| UnicodeDecodeError
| OverflowError
| RecursionError.

Inductive result (A : Type) :=
| Ok (a : A)
| Raise (e : exn).
Arguments Ok {A} a.
Arguments Raise {A} e.

#[global] Instance exn_eq_dec : EqDecision exn.
Proof. solve_decision. Defined.

#[global] Instance result_ret : MRet result := @Ok.
#[global] Instance result_bind : MBind result := λ A B f m,
  match m with
  | Ok a => f a
  | Raise e => Raise e
  end.

(** [for x in l: s = body(s, x)], stopping at the first exception. *)
Fixpoint for_each {A S : Type} (body : S → A → result S) (l : list A) (s : S)
  : result S :=
  match l with
  | [] => Ok s
  | x :: l' => s' ← body s x; for_each body l' s'
  end.

(** [try: body  except (e1, e2, ...): handler] *)
Definition try_except {A : Type} (body : result A) (caught : list exn)
  (handler : result A) : result A :=
  match body with
  | Ok a => Ok a
  | Raise e => if bool_decide (e ∈ caught) then handler else Raise e
  end.

(** ** The Python operations the programs use *)

Module Py.

(** [v == s] for a string literal [s]: only a [str] equals a [str]. *)
Definition eq_str (v : pyval) (s : string) : bool :=
  match v with
  | PStr s' => String.eqb s' s
  | _ => false
  end.

Definition is_substring (needle s : string) : bool :=
  match String.index 0 needle s with
  | Some _ => true
  | None => false
  end.

(** [k in v] for a string [k]: key of a dict, element of a list,
    substring of a str; any other right operand is not iterable. *)
Definition contains (k : string) (v : pyval) : result bool :=
  match v with
  | PDict m => Ok (bool_decide (is_Some (m !! k)))
  | PList l => Ok (existsb (λ x, eq_str x k) l)
  | PStr s => Ok (is_substring k s)
  | _ => Raise TypeError
  end.

(** [v[k] = x] for a string [k]: only a dict accepts it. *)
Definition setitem (v : pyval) (k : string) (x : pyval) : result pyval :=
  match v with
  | PDict m => Ok (PDict (<[k := x]> m))
  | _ => Raise TypeError
  end.

(** [v[k]] for a string [k]. *)
Definition getitem (v : pyval) (k : string) : result pyval :=
  match v with
  | PDict m =>
      match m !! k with
      | Some x => Ok x
      | None => Raise KeyError
      end
  | _ => Raise TypeError
  end.

(** [v.get(k, dflt)]: a method of dicts only. *)
Definition get (v : pyval) (k : string) (dflt : pyval) : result pyval :=
  match v with
  | PDict m => Ok (default dflt (m !! k))
  | _ => Raise AttributeError
  end.

(** [v.append(x)]: a method of lists only. *)
Definition append (v : pyval) (x : pyval) : result pyval :=
  match v with
  | PList l => Ok (PList (l ++ [x]))
  | _ => Raise AttributeError
  end.

(** [bool(v)], the truth value tested by [if v] and [not v]. *)
Definition truthy (v : pyval) : bool :=
  match v with
  | PNone => false
  | PBool b => b
  | PInt z => negb (Z.eqb z 0)
  | PFloat x => negb (PrimFloat.eqb x 0)
  | PStr s => negb (String.eqb s "")
  | PList l => negb (bool_decide (l = []))
  | PDict m => negb (bool_decide (m = ∅))
  end.

Fixpoint chars (s : string) : list pyval :=
  match s with
  | EmptyString => []
  | String c s' => PStr (String c EmptyString) :: chars s'
  end.

(** [for x in v]: the elements of a list, the keys of a dict, the
    characters of a str. *)
Definition iter (v : pyval) : result (list pyval) :=
  match v with
  | PList l => Ok l
  | PDict m => Ok (PStr <$> (map_to_list m).*1)
  | PStr s => Ok (chars s)
  | _ => Raise TypeError
  end.

(** [f"{v:<12}"]: a format spec with a width is understood by strs and
    numbers, not by [None], lists and dicts. *)
Definition format_width (v : pyval) : result pyval :=
  match v with
  | PNone | PList _ | PDict _ => Raise TypeError
  | _ => Ok v
  end.

(** [v.startswith(p)]: a method of strs only. *)
Definition startswith (v : pyval) (p : string) : result bool :=
  match v with
  | PStr s => Ok (String.prefix p s)
  | _ => Raise AttributeError
  end.

Definition as_str (v : pyval) : result string :=
  match v with
  | PStr s => Ok s
  | _ => Raise TypeError
  end.

Fixpoint map_each {A B : Type} (f : A → result B) (l : list A)
  : result (list B) :=
  match l with
  | [] => Ok []
  | x :: l' => y ← f x; ys ← map_each f l'; Ok (y :: ys)
  end.

(** Insertion of [x] in front of the first element whose key is not
    below the key of [x]: the place a stable sort gives to an element that
    came before those of [l]. *)
Fixpoint insert_keyed {A : Type} (x : string * A) (l : list (string * A))
  : list (string * A) :=
  match l with
  | [] => [x]
  | y :: l' =>
      if String.ltb y.1 x.1 then y :: insert_keyed x l' else x :: y :: l'
  end.

Definition sort_keyed {A : Type} (l : list (string * A)) : list (string * A) :=
  foldr insert_keyed [] l.

(** [sorted(l, key=key)].  Python computes all keys first, then orders
    them with [<]; the sort is stable, so its result is that of any stable
    sort.  Keys are compared as strs (by code point, which is the order of
    their UTF-8 bytes); comparing a str with a value that is not a str
    raises TypeError.  Lists of at least two keys none of which is a str
    are reported as TypeError too, although Python orders numbers among
    themselves: no date of these programs is a number. *)
Definition sorted (key : pyval → result pyval) (l : list pyval)
  : result (list pyval) :=
  keys ← map_each key l;
  match l with
  | [] | [_] => Ok l
  | _ =>
      strs ← map_each as_str keys;
      Ok ((sort_keyed (zip strs l)).*2)
  end.

(** [float(z)] on an int: the nearest float, a tie going to the even one;
    OverflowError when [z] is beyond the largest float. *)
Definition float_of_int (z : Z) : result PrimFloat.float :=
  let x := SF2Prim (binary_normalize prec emax z 0 false) in
  if PrimFloat.is_infinity x then Raise OverflowError else Ok x.

Section Float.
(** [float(s)] on a str parses a numeral, [nan] and [inf] among them; the
    parser is the library's and is taken as given ([None]: ValueError). *)
Context (float_of_str : string → option PrimFloat.float).

(** [float(v)] *)
Definition float (v : pyval) : result PrimFloat.float :=
  match v with
  | PFloat x => Ok x
  | PInt z => float_of_int z
  | PBool b => Ok (if b then 1 else 0)%float
  | PStr s =>
      match float_of_str s with
      | Some x => Ok x
      | None => Raise ValueError
      end
  | _ => Raise TypeError
  end.
End Float.

End Py.

(** ** The data file

    The file is modelled by what [os.path.exists], [open] and [json.load]
    make of it; [json.dump] leaves a file that [json.load] reads back as
    the value written. *)

Inductive file :=
| Absent              (* there is no such file *)
| Unopenable          (* [open] raises OSError *)
| NotUtf8             (* reading raises UnicodeDecodeError *)
| NotJson             (* [json.load] raises JSONDecodeError *)
| Fails (e : exn)     (* [json.load] raises [e], as ValueError for a number of
                         too many digits, RecursionError for nesting too deep *)
| Json (v : pyval).   (* [json.load] returns [v] *)

Definition path_exists (f : file) : bool :=
  match f with
  | Absent => false
  | _ => true
  end.

(** [with open(DATA_FILE, "r", encoding="utf-8") as f: json.load(f)] *)
Definition json_load (f : file) : result pyval :=
  match f with
  | Absent | Unopenable => Raise OSError
  | NotUtf8 => Raise UnicodeDecodeError
  | NotJson => Raise JSONDecodeError
  | Fails e => Raise e
  | Json v => Ok v
  end.

(** [with open(DATA_FILE, "w", encoding="utf-8") as f: json.dump(data, f, indent=4)],
    when the file can be opened for writing.  When it cannot, [open]
    raises OSError before anything is written: the actions at the console
    ([MoneyConsole], [SimpleConsole]) open the file first. *)
Definition json_dump (data : pyval) : file := Json data.

(** The program state: the dictionary [data] that [main] passes to every
    action, and the data file. *)
Record world := World { data : pyval; disk : file }.

(** ** [datetime.strptime(s, "%Y-%m-%d")]

    The format is matched as the regular expression
    [(\d\d\d\d)-(1[0-2]|0[1-9]|[1-9])-(3[01]|[12]\d|0[1-9]|[1-9]| [1-9])]
    from the start of [s]; text left over, a year 0 or a day the month does
    not have raise ValueError.  A digit written out in the expression is
    an ASCII digit; [\d] is any decimal digit of Unicode. *)

Module Datetime.

(** The value of an ASCII digit. *)
Definition digit (c : ascii) : option nat :=
  let n := nat_of_ascii c in
  if ((48 <=? n) && (n <=? 57))%nat then Some (n - 48) else None.

(** A byte that continues a character of several bytes. *)
Definition continues (c : ascii) : bool :=
  let n := nat_of_ascii c in ((128 <=? n) && (n <? 192))%nat.

(** [k] bytes that continue a character, at the head of [s]. *)
Fixpoint continuation (k : nat) (s : string) : option (string * string) :=
  match k with
  | O => Some (EmptyString, s)
  | S k' =>
      match s with
      | String c rest =>
          if continues c then
            match continuation k' rest with
            | Some (cs, rest') => Some (String c cs, rest')
            | None => None
            end
          else None
      | EmptyString => None
      end
  end.

(** The number of bytes that follow the first byte [c] of a character
    outside ASCII. *)
Definition following (c : ascii) : option nat :=
  let n := nat_of_ascii c in
  if (n <? 192)%nat then None
  else if (n <? 224)%nat then Some 1
  else if (n <? 240)%nat then Some 2
  else if (n <? 248)%nat then Some 3
  else None.

Section Digits.
(** [decimal c] is the value of the character whose UTF-8 bytes are [c], a
    character outside ASCII, when it is a decimal digit
    ([unicodedata.decimal]); the table is the library's and is taken as
    given. *)
Context (decimal : string → option nat).

(** [\d]: one decimal digit at the head of [s], an ASCII digit or a
    character that [decimal] knows. *)
Definition decimal_digit (s : string) : option (nat * string) :=
  match s with
  | String c rest =>
      match digit c with
      | Some d => Some (d, rest)
      | None =>
          match following c with
          | Some k =>
              match continuation k rest with
              | Some (cs, rest') =>
                  match decimal (String c cs) with
                  | Some d => Some (d, rest')
                  | None => None
                  end
              | None => None
              end
          | None => None
          end
      end
  | EmptyString => None
  end.

(** [\d\d\d\d] *)
Definition parse_Y (s : string) : option (nat * string) :=
  match decimal_digit s with
  | Some (x, s1) =>
      match decimal_digit s1 with
      | Some (y, s2) =>
          match decimal_digit s2 with
          | Some (z, s3) =>
              match decimal_digit s3 with
              | Some (w, rest) => Some (1000 * x + 100 * y + 10 * z + w, rest)
              | None => None
              end
          | None => None
          end
      | None => None
      end
  | None => None
  end.

Definition parse_dash (s : string) : option string :=
  match s with
  | String "-"%char rest => Some rest
  | _ => None
  end.

(** One digit in [lo..hi] at the head of [s]. *)
Definition digit_in (lo hi : nat) (s : string) : option (nat * string) :=
  match s with
  | String c rest =>
      match digit c with
      | Some d => if ((lo <=? d) && (d <=? hi))%nat then Some (d, rest) else None
      | None => None
      end
  | EmptyString => None
  end.

(** Two digits, the first in [lo1..hi1] and the second in [lo2..hi2]. *)
Definition digits_in (lo1 hi1 lo2 hi2 : nat) (s : string)
  : option (nat * string) :=
  match digit_in lo1 hi1 s with
  | Some (d1, rest) =>
      match digit_in lo2 hi2 rest with
      | Some (d2, rest') => Some (10 * d1 + d2, rest')
      | None => None
      end
  | None => None
  end.

(** The first alternative that matches. *)
Definition orelse {A : Type} (a b : option A) : option A :=
  match a with
  | Some x => Some x
  | None => b
  end.

(** [1[0-2]|0[1-9]|[1-9]] *)
Definition parse_m (s : string) : option (nat * string) :=
  orelse (digits_in 1 1 0 2 s)
    (orelse (digits_in 0 0 1 9 s) (digit_in 1 9 s)).

(** [[12]\d] *)
Definition digit_then_decimal (lo hi : nat) (s : string)
  : option (nat * string) :=
  match digit_in lo hi s with
  | Some (d1, rest) =>
      match decimal_digit rest with
      | Some (d2, rest') => Some (10 * d1 + d2, rest')
      | None => None
      end
  | None => None
  end.

(** [3[01]|[12]\d|0[1-9]|[1-9]| [1-9]] *)
Definition parse_d (s : string) : option (nat * string) :=
  orelse (digits_in 3 3 0 1 s)
    (orelse (digit_then_decimal 1 2 s)
       (orelse (digits_in 0 0 1 9 s)
          (orelse (digit_in 1 9 s)
             match s with
             | String " "%char rest => digit_in 1 9 rest
             | _ => None
             end))).

Definition is_leap (y : nat) : bool :=
  ((y mod 4 =? 0) && (negb (y mod 100 =? 0) || (y mod 400 =? 0)))%nat.

Definition days_in_month (y m : nat) : nat :=
  match m with
  | 2 => if is_leap y then 29 else 28
  | 4 | 6 | 9 | 11 => 30
  | _ => 31
  end.

Definition strptime_Ymd (s : string) : result (nat * nat * nat) :=
  match parse_Y s with
  | Some (y, s1) =>
      match parse_dash s1 with
      | Some s2 =>
          match parse_m s2 with
          | Some (m, s3) =>
              match parse_dash s3 with
              | Some s4 =>
                  match parse_d s4 with
                  | Some (d, EmptyString) =>
                      if ((1 <=? y) && (d <=? days_in_month y m))%nat
                      then Ok (y, m, d)
                      else Raise ValueError
                  | _ => Raise ValueError
                  end
              | None => Raise ValueError
              end
          | None => Raise ValueError
          end
      | None => Raise ValueError
      end
  | None => Raise ValueError
  end.
End Digits.

End Datetime.


(** ** [money.py] *)

Module Money.

(** What the program prints, one constructor per kind of report. *)
Record row := Row {
  row_date : pyval;
  row_type : pyval;
  row_sign : string;
  row_amount : float;
  row_category : pyval;
  row_note : pyval
}.

Inductive message :=
| CorruptWarning                   (* Data file is corrupted or unreadable. Starting fresh. *)
| AmountMustBePositive             (* Amount must be positive. *)
| IncomeAdded (amount : float)         (* Income of ... added. *)
| ExpenseAdded (amount : float)        (* Expense of ... added. *)
| CurrentStartingBalance (b : float)   (* Current starting balance: ... *)
| StartingBalanceUpdated (b : float)   (* Starting balance updated to ... *)
| NoTransactionsYet                (* No transactions yet. *)
| History (rows : list row)        (* the table of Transaction History *)
| InvalidYearMonth                 (* Invalid year/month. *)
| Summary (year month : string) (income expense net : float) (count : nat)
| Details (rows : list row).       (* the table under Details: *)

Definition fresh : pyval :=
  PDict {[ "starting_balance" := PFloat 0; "transactions" := PList [] ]}.

Definition load_data (f : file) : result (pyval * list message) :=
  if negb (path_exists f) then Ok (fresh, [])
  else
    try_except
      (data ← json_load f;
       (* basic sanity checks *)
       has_sb ← Py.contains "starting_balance" data;
       data ← (if negb has_sb
               then Py.setitem data "starting_balance" (PFloat 0)
               else Ok data);
       has_tx ← Py.contains "transactions" data;
       data ← (if negb has_tx
               then Py.setitem data "transactions" (PList [])
               else Ok data);
       Ok (data, []))
      [JSONDecodeError; OSError]
      (Ok (fresh, [CorruptWarning])).

Definition save_data (data : pyval) : file := json_dump data.

Section Core.
Context (float_of_str : string → option float).
Context (decimal : string → option nat).

Definition calculate_balance (data : pyval) : result float :=
  sb ← Py.get data "starting_balance" (PFloat 0);
  balance ← Py.float float_of_str sb;
  txs ← Py.get data "transactions" (PList []);
  l ← Py.iter txs;
  for_each
    (λ balance t,
       a ← Py.get t "amount" (PFloat 0);
       amount ← Py.float float_of_str a;
       ty ← Py.get t "type" PNone;
       if Py.eq_str ty "IN" then Ok (balance + amount)%float
       else
         ty ← Py.get t "type" PNone;
         if Py.eq_str ty "OUT" then Ok (balance - amount)%float
         else Ok balance)
    l balance.

(** *** Menu actions

    The arguments are the values the prompts return: [input_float] and
    [input_date] loop until the text entered is a number, or a date. *)

Definition set_starting_balance (new_balance : float) (w : world)
  : result (world * list message) :=
  sb ← Py.get (data w) "starting_balance" (PFloat 0);
  current ← Py.float float_of_str sb;
  data' ← Py.setitem (data w) "starting_balance" (PFloat new_balance);
  Ok (World data' (save_data data'),
      [CurrentStartingBalance current; StartingBalanceUpdated new_balance]).

(** [data["transactions"].append(transaction)]: the list held by the
    dictionary is extended in place. *)
Definition append_transaction (data : pyval) (transaction : pyval)
  : result pyval :=
  txs ← Py.getitem data "transactions";
  txs' ← Py.append txs transaction;
  Py.setitem data "transactions" txs'.

Definition add_income (amount : float) (source date note : string) (w : world)
  : result (world * list message) :=
  if PrimFloat.leb amount 0 then Ok (w, [AmountMustBePositive])
  else
    let transaction := PDict {[
      "date" := PStr date;
      "type" := PStr "IN";
      "amount" := PFloat amount;
      "category" := PStr (if String.eqb source "" then "Pocket Money" else source);
      "note" := PStr note ]} in
    data' ← append_transaction (data w) transaction;
    Ok (World data' (save_data data'), [IncomeAdded amount]).

Definition add_expense (amount : float) (category date note : string) (w : world)
  : result (world * list message) :=
  if PrimFloat.leb amount 0 then Ok (w, [AmountMustBePositive])
  else
    let category := if String.eqb category "" then "Other" else category in
    let transaction := PDict {[
      "date" := PStr date;
      "type" := PStr "OUT";
      "amount" := PFloat amount;
      "category" := PStr category;
      "note" := PStr note ]} in
    data' ← append_transaction (data w) transaction;
    Ok (World data' (save_data data'), [ExpenseAdded amount]).

Definition date_key (x : pyval) : result pyval := Py.get x "date" (PStr "").

Definition history_row (t : pyval) : result row :=
  date ← Py.get t "date" (PStr "");
  ty ← Py.get t "type" PNone;
  let ttype := if Py.eq_str ty "IN" then "IN" else "OUT" in
  a ← Py.get t "amount" (PFloat 0);
  amount ← Py.float float_of_str a;
  category ← Py.get t "category" (PStr "");
  note ← Py.get t "note" (PStr "");
  let sign := if String.eqb ttype "IN" then "+" else "-" in
  date ← Py.format_width date;
  category ← Py.format_width category;
  Ok (Row date (PStr ttype) sign amount category note).

Definition list_transactions (w : world) : result (world * list message) :=
  transactions ← Py.get (data w) "transactions" (PList []);
  if negb (Py.truthy transactions) then Ok (w, [NoTransactionsYet])
  else
    l ← Py.iter transactions;
    (* Sort by date *)
    transactions_sorted ← Py.sorted date_key l;
    rows ← Py.map_each history_row transactions_sorted;
    Ok (w, [History rows]).

Definition ym_prefix (year month : string) : string :=
  if (String.length month =? 2)%nat then year ++ "-" ++ month
  else year ++ "-0" ++ month.

Definition summary_row (t : pyval) : result row :=
  date ← Py.get t "date" (PStr "");
  ttype ← Py.get t "type" PNone;
  a ← Py.get t "amount" (PFloat 0);
  amount ← Py.float float_of_str a;
  category ← Py.get t "category" (PStr "");
  note ← Py.get t "note" (PStr "");
  let sign := if Py.eq_str ttype "IN" then "+" else "-" in
  date ← Py.format_width date;
  ttype ← Py.format_width ttype;
  category ← Py.format_width category;
  Ok (Row date ttype sign amount category note).

(** The loop of [monthly_summary]: the state is
    [(income_total, expense_total, counted_transactions)]. *)
Definition summary_step (prefix : string) (acc : float * float * list pyval)
  (t : pyval) : result (float * float * list pyval) :=
  let '(income_total, expense_total, counted) := acc in
  date ← Py.get t "date" (PStr "");
  starts ← Py.startswith date prefix;
  if negb starts then Ok acc
  else
    a ← Py.get t "amount" (PFloat 0);
    amount ← Py.float float_of_str a;
    ty ← Py.get t "type" PNone;
    if Py.eq_str ty "IN"
    then Ok ((income_total + amount)%float, expense_total, (counted ++ [t])%list)
    else
      ty ← Py.get t "type" PNone;
      if Py.eq_str ty "OUT"
      then Ok (income_total, (expense_total + amount)%float, (counted ++ [t])%list)
      else Ok (income_total, expense_total, (counted ++ [t])%list).

(** [today_year] and [today_month] are [today.strftime("%Y")] and
    [today.strftime("%m")]; [year] and [month] are the stripped inputs. *)
Definition monthly_summary (today_year today_month year month : string)
  (w : world) : result (world * list message) :=
  let year := if String.eqb year "" then today_year else year in
  let month := if String.eqb month "" then today_month else month in
  (* Validate year, month *)
  valid ← try_except
    (_ ← Datetime.strptime_Ymd decimal (year ++ "-" ++ month ++ "-01");
     Ok true)
    [ValueError]
    (Ok false);
  if negb valid then Ok (w, [InvalidYearMonth])
  else
    let prefix := ym_prefix year month in
    txs ← Py.get (data w) "transactions" (PList []);
    l ← Py.iter txs;
    '(income_total, expense_total, counted) ←
      for_each (summary_step prefix) l (0%float, 0%float, []);
    let summary :=
      Summary year month income_total expense_total
        (income_total - expense_total)%float (length counted) in
    if negb (bool_decide (counted = [])) then
      details ← Py.sorted date_key counted;
      rows ← Py.map_each summary_row details;
      Ok (w, [summary; Details rows])
    else Ok (w, [summary]).

End Core.

(** *** Sequences of append operations

    The two appending actions as [main] dispatches them (options 2 and 3),
    and a run of the menu loop over a list of such requests. *)

Inductive request :=
| Income (amount : float) (source date note : string)
| Expense (amount : float) (category date note : string).

Definition request_amount (r : request) : float :=
  match r with
  | Income amount _ _ _ | Expense amount _ _ _ => amount
  end.

Definition append (r : request) (w : world) : result (world * list message) :=
  match r with
  | Income amount source date note => add_income amount source date note w
  | Expense amount category date note => add_expense amount category date note w
  end.

Fixpoint run (rs : list request) (w : world) : result world :=
  match rs with
  | [] => Ok w
  | r :: rs' => '(w', _) ← append r w; run rs' w'
  end.

End Money.

(** ** [simple.py] *)

Module Simple.

Inductive message :=
| CorruptWarning          (* Data file corrupted. Starting fresh. *)
| AmountMustBePositive    (* Amount must be positive. *)
| IncomeAdded             (* Income added. *)
| ExpenseAdded.           (* Expense added. *)

Definition fresh : pyval := PDict {[ "transactions" := PList [] ]}.

Definition load_data (f : file) : result (pyval * list message) :=
  if negb (path_exists f) then Ok (fresh, [])
  else
    try_except
      (data ← json_load f; Ok (data, []))
      [JSONDecodeError; OSError]
      (Ok (fresh, [CorruptWarning])).

Definition save_data (data : pyval) : file := json_dump data.

Section Core.
Context (float_of_str : string → option float).

Definition calc_balance (data : pyval) : result float :=
  txs ← Py.getitem data "transactions";
  l ← Py.iter txs;
  for_each
    (λ balance t,
       a ← Py.getitem t "amount";
       amt ← Py.float float_of_str a;
       ty ← Py.getitem t "type";
       if Py.eq_str ty "IN" then Ok (balance + amt)%float
       else Ok (balance - amt)%float)
    l 0%float.

Definition append_transaction (data : pyval) (transaction : pyval)
  : result pyval :=
  txs ← Py.getitem data "transactions";
  txs' ← Py.append txs transaction;
  Py.setitem data "transactions" txs'.

(** [now] is [datetime.now().strftime("%Y-%m-%d %H:%M")]. *)
Definition add_income (now : string) (amount : float) (note : string) (w : world)
  : result (world * list message) :=
  if PrimFloat.leb amount 0 then Ok (w, [AmountMustBePositive])
  else
    let note := if String.eqb note "" then "Income" else note in
    let transaction := PDict {[
      "date" := PStr now;
      "type" := PStr "IN";
      "amount" := PFloat amount;
      "note" := PStr note ]} in
    data' ← append_transaction (data w) transaction;
    Ok (World data' (save_data data'), [IncomeAdded]).

Definition add_expense (now : string) (amount : float) (note : string) (w : world)
  : result (world * list message) :=
  if PrimFloat.leb amount 0 then Ok (w, [AmountMustBePositive])
  else
    let note := if String.eqb note "" then "Expense" else note in
    let transaction := PDict {[
      "date" := PStr now;
      "type" := PStr "OUT";
      "amount" := PFloat amount;
      "note" := PStr note ]} in
    data' ← append_transaction (data w) transaction;
    Ok (World data' (save_data data'), [ExpenseAdded]).

End Core.

Inductive request :=
| Income (amount : float) (note : string)
| Expense (amount : float) (note : string).

Definition request_amount (r : request) : float :=
  match r with
  | Income amount _ | Expense amount _ => amount
  end.

(** Each request comes with the time [now] at which it is served. *)
Definition append (r : string * request) (w : world)
  : result (world * list message) :=
  match r with
  | (now, Income amount note) => add_income now amount note w
  | (now, Expense amount note) => add_expense now amount note w
  end.

Fixpoint run (rs : list (string * request)) (w : world) : result world :=
  match rs with
  | [] => Ok w
  | r :: rs' => '(w', _) ← append r w; run rs' w'
  end.

End Simple.

(** ** [pp.py] *)

Module Pp.

(** A [pandas.DataFrame]: its column labels and its rows, each row giving
    the cell of every column. *)
Record dataframe := DataFrame {
  columns : list string;
  records : list (gmap string pyval)
}.

Record session_state := SessionState {
  transactions : dataframe;
  starting_balance : float
}.

Inductive message :=
| LoadedSuccessfully      (* Transactions loaded successfully! *)
| MissingColumns          (* CSV does not have the required columns. *)
| ErrorReadingFile.       (* Error reading file: ... *)

Definition required_cols : gset string :=
  {[ "Date"; "Type"; "Amount"; "Category"; "Note" ]}.

(** The block under [if uploaded_file is not None].  [uploaded_file] is
    [None] when nothing was uploaded, and otherwise what
    [pd.read_csv(uploaded_file)] makes of the upload: a frame or an
    exception. *)
Definition on_uploaded_file (uploaded_file : option (result dataframe))
  (st : session_state) : session_state * list message :=
  match uploaded_file with
  | None => (st, [])
  | Some read_csv =>
      match read_csv with
      | Ok df_uploaded =>
          (* Basic validation *)
          if bool_decide (required_cols ⊆ list_to_set (columns df_uploaded))
          then (SessionState df_uploaded (starting_balance st),
                [LoadedSuccessfully])
          else (st, [MissingColumns])
      | Raise _ => (st, [ErrorReadingFile])
      end
  end.

Fixpoint insert_desc {A : Type} (x : Z * A) (l : list (Z * A))
  : list (Z * A) :=
  match l with
  | [] => [x]
  | y :: l' => if (x.1 <? y.1)%Z then y :: insert_desc x l' else x :: y :: l'
  end.

Section Display.
(** [pd.to_datetime] on one cell, as a point in time; the parser is the
    library's and is taken as given. *)
Context (to_datetime : pyval → result Z).

(** The table under All Transactions, shown when the frame is not empty:
    [df_display["Date"] = pd.to_datetime(df_display["Date"])] and
    [df_display.sort_values("Date", ascending=False)].  The order pandas
    gives to rows of equal date is not specified; here they keep their
    order.  The other columns are shown as the frame holds them. *)
Definition df_display (df : dataframe)
  : result (list (gmap string pyval)) :=
  dates ← Py.map_each
    (λ r, to_datetime (default PNone (r !! "Date"))) (records df);
  let converted :=
    zip_with (λ d r, <["Date" := PInt d]> r) dates (records df) in
  Ok ((foldr insert_desc [] (zip dates converted)).*2).
End Display.

(** The dates the entry form writes, [date.strftime("%Y-%m-%d")], as
    [pd.to_datetime] reads them: later dates are larger. *)
Definition iso_datetime (v : pyval) : result Z :=
  s ← Py.as_str v;
  '(y, m, d) ← Datetime.strptime_Ymd (λ _, None) s;
  Ok (Z.of_nat y * 10000 + Z.of_nat m * 100 + Z.of_nat d)%Z.

End Pp.

(** ** Vocabulary of the specification *)

(** The ledger with starting balance [sb] and transactions [txs], as
    [money.py] holds it. *)
Definition ledger (sb : float) (txs : list pyval) : pyval :=
  PDict {[ "starting_balance" := PFloat sb; "transactions" := PList txs ]}.

(** A dictionary has the shape of a ledger when it has both keys. *)
Definition ledger_shaped (v : pyval) : Prop :=
  ∃ m, v = PDict m ∧ is_Some (m !! "starting_balance")
       ∧ is_Some (m !! "transactions").

(** The transaction an append request adds to the ledger. *)
Definition transaction_of (r : Money.request) : pyval :=
  match r with
  | Money.Income amount source date note =>
      PDict {[ "date" := PStr date; "type" := PStr "IN";
               "amount" := PFloat amount;
               "category" := PStr (if String.eqb source "" then "Pocket Money" else source);
               "note" := PStr note ]}
  | Money.Expense amount category date note =>
      PDict {[ "date" := PStr date; "type" := PStr "OUT";
               "amount" := PFloat amount;
               "category" := PStr (if String.eqb category "" then "Other" else category);
               "note" := PStr note ]}
  end.

Definition simple_transaction_of (r : string * Simple.request) : pyval :=
  match r with
  | (now, Simple.Income amount note) =>
      PDict {[ "date" := PStr now; "type" := PStr "IN";
               "amount" := PFloat amount;
               "note" := PStr (if String.eqb note "" then "Income" else note) ]}
  | (now, Simple.Expense amount note) =>
      PDict {[ "date" := PStr now; "type" := PStr "OUT";
               "amount" := PFloat amount;
               "note" := PStr (if String.eqb note "" then "Expense" else note) ]}
  end.

(** What the specification expects of the balance once a request is
    served: the amount of an income added, that of an expense subtracted,
    in one sum or difference of floats. *)
Definition settle (balance : float) (r : Money.request) : float :=
  match r with
  | Money.Income amount _ _ _ => (balance + amount)%float
  | Money.Expense amount _ _ _ => (balance - amount)%float
  end.

Definition simple_settle (balance : float) (r : string * Simple.request)
  : float :=
  match r with
  | (_, Simple.Income amount _) => (balance + amount)%float
  | (_, Simple.Expense amount _) => (balance - amount)%float
  end.

(** The type of a transaction is [ty]. *)
Definition has_type (ty : string) (t : pyval) : bool :=
  match t with
  | PDict m =>
      match m !! "type" with
      | Some v => Py.eq_str v ty
      | None => false
      end
  | _ => false
  end.

(** The date of a transaction, empty when it has none. *)
Definition date_of (t : pyval) : string :=
  match t with
  | PDict m =>
      match m !! "date" with
      | Some (PStr s) => s
      | _ => ""
      end
  | _ => ""
  end.

Definition in_month (prefix : string) (t : pyval) : bool :=
  String.prefix prefix (date_of t).

(** [YYYY-MM]: the year, and the month padded with a zero to two digits. *)
Definition zero_padded (year month : string) : string :=
  year ++ "-" ++ (if (String.length month <? 2)%nat then "0" ++ month else month).

Definition months : list string :=
  ["1"; "2"; "3"; "4"; "5"; "6"; "7"; "8"; "9";
   "01"; "02"; "03"; "04"; "05"; "06"; "07"; "08"; "09"; "10"; "11"; "12"].

Section Years.
(** The decimal digits outside ASCII, as for [Datetime.decimal_digit]. *)
Context (decimal : string → option nat).

(** [s] reads as the decimal digits of values [ds], and nothing more. *)
Fixpoint reads_digits (s : string) (ds : list nat) : Prop :=
  match ds with
  | [] => s = ""
  | d :: ds' =>
      ∃ rest, Datetime.decimal_digit decimal s = Some (d, rest)
              ∧ reads_digits rest ds'
  end.

(** Four decimal digits that are not all 0. *)
Definition is_year (s : string) : Prop :=
  ∃ a b c d, reads_digits s [a; b; c; d] ∧ [a; b; c; d] ≠ [0; 0; 0; 0]%nat.

(** A year of the calendar, 0001 to 9999 in four decimal digits, and a
    month, 1 to 12 in one or two ASCII digits. *)
Definition valid_year_month (year month : string) : Prop :=
  is_year year ∧ month ∈ months.
End Years.

Definition date_le (a b : pyval) : Prop :=
  String.leb (date_of a) (date_of b) = true.

(** The order of the sort on pairs of a key and a value. *)
Definition key_le {A : Type} (x y : string * A) : Prop :=
  String.leb x.1 y.1 = true.

(** A transaction whose date is a str, when it has one. *)
Definition dated (t : pyval) : Prop :=
  ∃ m, t = PDict m ∧ ∀ v, m !! "date" = Some v → ∃ s, v = PStr s.

(** The number a float denotes, 0 for an infinity and for NaN. *)
Definition real_of (x : float) : Q :=
  match Prim2SF x with
  | S754_finite s m e =>
      let v := (Z.pos m # 1) * Qpower 2 e in if s then - v else v
  | _ => 0
  end%Q.

(** The sum of the amounts of the IN requests and the sum of those of the
    OUT requests, as numbers. *)
Fixpoint total_in (rs : list Money.request) : Q :=
  match rs with
  | [] => 0
  | Money.Income amount _ _ _ :: rs' => real_of amount + total_in rs'
  | Money.Expense _ _ _ _ :: rs' => total_in rs'
  end%Q.

Fixpoint total_out (rs : list Money.request) : Q :=
  match rs with
  | [] => 0
  | Money.Income _ _ _ _ :: rs' => total_out rs'
  | Money.Expense amount _ _ _ :: rs' => real_of amount + total_out rs'
  end%Q.

(** The number of dashes of a string. *)
Fixpoint dashes (s : string) : nat :=
  match s with
  | EmptyString => 0
  | String c s' => (if Ascii.eqb c "-" then 1 else 0) + dashes s'
  end.

Section Amounts.
Context (float_of_str : string → option float).

(** The amount of a transaction as a number, 0 when it has none. *)
Definition amount_of (t : pyval) : float :=
  match t with
  | PDict m =>
      match m !! "amount" with
      | Some a =>
          match Py.float float_of_str a with
          | Ok x => x
          | Raise _ => 0
          end
      | None => 0
      end
  | _ => 0
  end.

(** The effect of one transaction on the balance. *)
Definition signed (t : pyval) (balance : float) : float :=
  if has_type "IN" t then (balance + amount_of t)%float
  else if has_type "OUT" t then (balance - amount_of t)%float
  else balance.

(** One turn of the loop of [monthly_summary] on the total of the type
    [ty]. *)
Definition counted_in (ty : string) (total : float) (t : pyval) : float :=
  if has_type ty t then (total + amount_of t)%float else total.

(** A transaction with its amount a number, when it has one. *)
Definition has_numeric_amount (t : pyval) : Prop :=
  ∃ m, t = PDict m
       ∧ ∀ a, m !! "amount" = Some a → ∃ q, Py.float float_of_str a = Ok q.

(** A transaction as the programs write them, any field possibly missing
    but the type. *)
Definition transaction_like (t : pyval) : Prop :=
  ∃ m, t = PDict m
       ∧ (∀ v, m !! "date" = Some v → ∃ s, v = PStr s)
       ∧ (∃ s, m !! "type" = Some (PStr s))
       ∧ (∀ a, m !! "amount" = Some a → ∃ q, Py.float float_of_str a = Ok q)
       ∧ (∀ v, m !! "category" = Some v → ∃ s, v = PStr s).
End Amounts.

(** The ledger of the example of the specification. *)
Definition example_requests : list Money.request :=
  [ Money.Income 50 "gift" "2024-01-05" "";
    Money.Expense 20 "snacks" "2024-01-10" "";
    Money.Income 10 "gift" "2024-02-01" "" ].

(** Two entries of the form of [pp.py], in the order they were added. *)
Definition entry_jan : gmap string pyval :=
  {[ "Date" := PStr "2024-01-05"; "Type" := PStr "Income (+)";
     "Amount" := PFloat 50; "Category" := PStr "gift"; "Note" := PStr "" ]}.

Definition entry_feb : gmap string pyval :=
  {[ "Date" := PStr "2024-02-01"; "Type" := PStr "Income (+)";
     "Amount" := PFloat 10; "Category" := PStr "gift"; "Note" := PStr "" ]}.

Definition two_entries : Pp.dataframe :=
  Pp.DataFrame ["Date"; "Type"; "Amount"; "Category"; "Note"]
    [entry_jan; entry_feb].

(** The date string of a row of the frame. *)
Definition date_cell (r : gmap string pyval) : string :=
  match r !! "Date" with
  | Some (PStr s) => s
  | _ => ""
  end.

(** A ledger as a hand-edited data file may hold it: an IN transaction
    with no amount, a transaction of an unknown type, an OUT transaction
    whose amount is an integer. *)
Definition odd_transactions : list pyval :=
  [ PDict {[ "type" := PStr "IN" ]};
    PDict {[ "type" := PStr "GIFT"; "amount" := PFloat 5 ]};
    PDict {[ "type" := PStr "OUT"; "amount" := PInt 3 ]} ].

(** Membership in a list given in full. *)
Ltac in_list :=
  apply list_elem_of_In; vm_compute;
  repeat (first [left; reflexivity | right]).

(** A list or a str that holds both key names: the documents other than
    dictionaries that pass the sanity checks of [load_data]. *)
Definition names_both (v : pyval) : bool :=
  match v with
  | PList l =>
      existsb (λ x, Py.eq_str x "starting_balance") l
      && existsb (λ x, Py.eq_str x "transactions") l
  | PStr s =>
      Py.is_substring "starting_balance" s && Py.is_substring "transactions" s
  | _ => false
  end.

(** The reports of [monthly_summary] with the month of the heading left
    out. *)
Definition forget_month (out : list Money.message) : list Money.message :=
  (λ msg, match msg with
          | Money.Summary year _ income expense net count =>
              Money.Summary year "" income expense net count
          | _ => msg
          end) <$> out.

(** The example ledger in memory, with no data file yet. *)
Definition example_map : gmap string pyval :=
  {[ "starting_balance" := PFloat 100;
     "transactions" := PList (transaction_of <$> example_requests) ]}.

Definition example_world : world := World (PDict example_map) Absent.

(** Transactions as a hand-edited data file may hold them: one of an
    unknown type, one without a date. *)
Definition gift_transaction : pyval :=
  PDict {[ "date" := PStr "2024-01-20"; "type" := PStr "GIFT";
           "amount" := PFloat 5 ]}.

Definition undated_transaction : gmap string pyval :=
  {[ "type" := PStr "IN"; "amount" := PFloat 5 ]}.

(** ** The console

    The programs read the keyboard with [input(prompt).strip()] and nothing
    else: the input of a run is the list of the lines typed, stripped.
    [input] raises EOFError when no line is left, which no function of the
    programs catches.  What is printed is kept in the order of the calls
    of [print]; the prompts are not recorded. *)

Module Console.

Inductive outcome (A : Type) :=
| Returns (a : A)      (* the call returns [a] *)
| Raises (e : exn)     (* an exception other than EOFError leaves the call *)
| EndOfInput.          (* [input] raised EOFError *)
Arguments Returns {A} a.
Arguments Raises {A} e.
Arguments EndOfInput {A}.

Section Monad.
Context {line : Type}.

(** A call at the console: from the lines not yet read to what it prints,
    and its outcome with the lines it leaves. *)
Definition console (A : Type) : Type :=
  list string → list line * outcome (A * list string).

Definition ret {A : Type} (a : A) : console A :=
  λ lines, ([], Returns (a, lines)).

Definition bind {A B : Type} (m : console A) (k : A → console B)
  : console B :=
  λ lines,
    match m lines with
    | (out, Returns (a, rest)) =>
        let '(out', r) := k a rest in ((out ++ out')%list, r)
    | (out, Raises e) => (out, Raises e)
    | (out, EndOfInput) => (out, EndOfInput)
    end.

(** [print(...)] *)
Definition print (l : line) : console unit :=
  λ lines, ([l], Returns (tt, lines)).

Definition print_all (ls : list line) : console unit :=
  λ lines, (ls, Returns (tt, lines)).

(** [input(prompt).strip()] *)
Definition input : console string :=
  λ lines,
    match lines with
    | [] => ([], EndOfInput)
    | l :: rest => ([], Returns (l, rest))
    end.

(** The number of lines still to be read, by which the clock is read. *)
Definition unread : console nat :=
  λ lines, ([], Returns (length lines, lines)).

(** A call that neither reads nor prints. *)
Definition lift {A : Type} (r : result A) : console A :=
  λ lines,
    match r with
    | Ok a => ([], Returns (a, lines))
    | Raise e => ([], Raises e)
    end.

End Monad.
Arguments console : clear implicits.

(** How a run of [main] ends. *)
Inductive ending :=
| Exited               (* option 0 *)
| Crashed (e : exn)    (* a traceback *)
| InputEnded           (* EOFError: the input was closed *)
| Unfinished.          (* the menu loop was cut off; no run ends so *)

(** A run of [main]: what it printed, how it ended and the data file it
    left. *)
Record run (line : Type) := Run {
  printed : list line;
  ended : ending;
  file_left : file
}.
Arguments Run {line} printed ended file_left.
Arguments printed {line} r.
Arguments ended {line} r.
Arguments file_left {line} r.

End Console.

Notation "x ⇐ m ; k" := (Console.bind m (λ x, k))
  (at level 20, m at level 100, k at level 200, only parsing).
Notation "' x ⇐ m ; k" := (Console.bind m (λ x, k))
  (at level 20, x pattern, m at level 100, k at level 200, only parsing).

(** [len(v)]: the number of elements of a list, of keys of a dict, of
    characters of a str (the bytes of its UTF-8 form that do not continue
    a character). *)
Module Builtin.

Fixpoint code_points (s : string) : nat :=
  match s with
  | EmptyString => 0
  | String c s' =>
      let n := nat_of_ascii c in
      ((if (128 <=? n) && (n <? 192) then 0 else 1) + code_points s')%nat
  end.

Definition len (v : pyval) : result nat :=
  match v with
  | PList l => Ok (length l)
  | PDict m => Ok (size m)
  | PStr s => Ok (code_points s)
  | _ => Raise TypeError
  end.

End Builtin.

(** ** [money.py] at the console *)

Module MoneyConsole.
Import Console.

Inductive line :=
| Header (title : string)          (* print_header(title) *)
| Menu                             (* print_menu() *)
| InvalidNumber                    (* Invalid number. Try again. *)
| InvalidDateFormat                (* Invalid date format. Use YYYY-MM-DD. *)
| Report (msg : Money.message)     (* the reports of the actions *)
| CurrentBalance (b : float)       (* Current balance: ... *)
| StartingBalance (b : float)      (* Starting balance: ... *)
| TotalTransactions (n : nat)      (* Total transactions: ... *)
| Goodbye                          (* Goodbye! Keep tracking your money wisely. *)
| InvalidChoice.                   (* Invalid choice. Try again. *)

Section Actions.
Context (float_of_str : string → option float).
Context (decimal : string → option nat).
(** [clock n] is [datetime.today()] at the moment when [n] lines are still
    to be read, as its [strftime] gives the year, the month and the day. *)
Context (clock : nat → string * string * string).
(** [writable n] tells whether [open(DATA_FILE, "w")] succeeds at the
    moment when [n] lines are still to be read; when it does not, it raises
    OSError and the file stays as it is.  Writing into the file once it is
    open is taken to succeed. *)
Context (writable : nat → bool).
#[local] Abbreviation console := (Console.console line).

Definition print_header (title : string) : console unit :=
  print (Header title).

Definition print_menu : console unit := print Menu.

(** [datetime.today()] *)
Definition today : console (string * string * string) :=
  n ⇐ unread; ret (clock n).

Fixpoint input_float (lines : list string)
  : list line * outcome (float * list string) :=
  match lines with
  | [] => ([], EndOfInput)
  | value :: rest =>
      match Py.float float_of_str (PStr value) with
      | Ok amount => ([], Returns (amount, rest))
      | Raise ValueError =>
          let '(out, r) := input_float rest in (InvalidNumber :: out, r)
      | Raise e => ([], Raises e)
      end
  end.

Fixpoint input_date (lines : list string)
  : list line * outcome (string * list string) :=
  match lines with
  | [] => ([], EndOfInput)
  | value :: rest =>
      if String.eqb value "" then
        let '(year, month, day) := clock (length rest) in
        ([], Returns (year ++ "-" ++ month ++ "-" ++ day, rest))
      else
        match Datetime.strptime_Ymd decimal value with
        | Ok _ => ([], Returns (value, rest))
        | Raise ValueError =>
            let '(out, r) := input_date rest in (InvalidDateFormat :: out, r)
        | Raise e => ([], Raises e)
        end
  end.

(** [open(DATA_FILE, "w", encoding="utf-8")], with which [save_data]
    begins. *)
Definition open_for_writing : console unit :=
  n ⇐ unread; lift (if writable n then Ok tt else Raise OSError).

Definition set_starting_balance (w : world) : console world :=
  _ ⇐ print_header "Set / Update Starting Balance";
  sb ⇐ lift (Py.get (data w) "starting_balance" (PFloat 0));
  current ⇐ lift (Py.float float_of_str sb);
  _ ⇐ print (Report (Money.CurrentStartingBalance current));
  new_balance ⇐ input_float;
  data' ⇐ lift (Py.setitem (data w) "starting_balance" (PFloat new_balance));
  _ ⇐ open_for_writing;
  let disk' := Money.save_data data' in
  _ ⇐ print (Report (Money.StartingBalanceUpdated new_balance));
  ret (World data' disk').

(** Once the values are read, the rest of [add_income] and [add_expense]
    is [Money.add_income] and [Money.add_expense] on them, which write the
    data file; [open_for_writing] is where [save_data] raises when the file
    cannot be written. *)
Definition add_income (w : world) : console world :=
  _ ⇐ print_header "Add Income (Pocket Money Received)";
  amount ⇐ input_float;
  if PrimFloat.leb amount 0 then
    _ ⇐ print (Report Money.AmountMustBePositive); ret w
  else
    source ⇐ input;
    date ⇐ input_date;
    note ⇐ input;
    '(w', out) ⇐ lift (Money.add_income amount source date note w);
    _ ⇐ open_for_writing;
    _ ⇐ print_all (Report <$> out);
    ret w'.

Definition add_expense (w : world) : console world :=
  _ ⇐ print_header "Add Expense (Money Spent)";
  amount ⇐ input_float;
  if PrimFloat.leb amount 0 then
    _ ⇐ print (Report Money.AmountMustBePositive); ret w
  else
    category ⇐ input;
    date ⇐ input_date;
    note ⇐ input;
    '(w', out) ⇐ lift (Money.add_expense amount category date note w);
    _ ⇐ open_for_writing;
    _ ⇐ print_all (Report <$> out);
    ret w'.

Definition show_balance (w : world) : console world :=
  _ ⇐ print_header "Current Balance";
  balance ⇐ lift (Money.calculate_balance float_of_str (data w));
  _ ⇐ print (CurrentBalance balance);
  sb ⇐ lift (Py.get (data w) "starting_balance" (PFloat 0));
  starting ⇐ lift (Py.float float_of_str sb);
  _ ⇐ print (StartingBalance starting);
  txs ⇐ lift (Py.get (data w) "transactions" (PList []));
  n ⇐ lift (Builtin.len txs);
  _ ⇐ print (TotalTransactions n);
  ret w.

(** The tables are reported once all their rows are made. *)
Definition list_transactions (w : world) : console world :=
  _ ⇐ print_header "Transaction History";
  '(w', out) ⇐ lift (Money.list_transactions float_of_str w);
  _ ⇐ print_all (Report <$> out);
  ret w'.

Definition monthly_summary (w : world) : console world :=
  _ ⇐ print_header "Monthly Summary";
  year ⇐ input;
  month ⇐ input;
  '(today_year, today_month, _) ⇐ today;
  '(w', out) ⇐ lift (Money.monthly_summary float_of_str decimal today_year
                       today_month year month w);
  _ ⇐ print_all (Report <$> out);
  ret w'.

(** One turn of the loop of [main]; [None] is [break]. *)
Definition turn (w : world) : console (option world) :=
  _ ⇐ print_menu;
  choice ⇐ input;
  if String.eqb choice "1" then w' ⇐ set_starting_balance w; ret (Some w')
  else if String.eqb choice "2" then w' ⇐ add_income w; ret (Some w')
  else if String.eqb choice "3" then w' ⇐ add_expense w; ret (Some w')
  else if String.eqb choice "4" then w' ⇐ show_balance w; ret (Some w')
  else if String.eqb choice "5" then w' ⇐ list_transactions w; ret (Some w')
  else if String.eqb choice "6" then w' ⇐ monthly_summary w; ret (Some w')
  else if String.eqb choice "0" then _ ⇐ print Goodbye; ret None
  else _ ⇐ print InvalidChoice; ret (Some w).

(** [while True:] for at most [fuel] turns.  An action that does not
    return has not written the data file. *)
Fixpoint menu_loop (fuel : nat) (w : world) (lines : list string) : run line :=
  match fuel with
  | O => Run [] Unfinished (disk w)
  | S fuel' =>
      match turn w lines with
      | (out, Returns (Some w', rest)) =>
          let r := menu_loop fuel' w' rest in
          Run (out ++ printed r)%list (ended r) (file_left r)
      | (out, Returns (None, _)) => Run out Exited (disk w)
      | (out, Raises e) => Run out (Crashed e) (disk w)
      | (out, EndOfInput) => Run out InputEnded (disk w)
      end
  end.

(** Every turn reads a line, so the loop takes no more turns than there
    are lines, and one more to find the input ended. *)
Definition main (f : file) (lines : list string) : run line :=
  match Money.load_data f with
  | Ok (data, out) =>
      let r := menu_loop (S (length lines)) (World data f) lines in
      Run ((Report <$> out) ++ printed r)%list (ended r) (file_left r)
  | Raise e => Run [] (Crashed e) f
  end.

End Actions.
End MoneyConsole.

(** ** Vocabulary for the runs of [money.py] *)

(** The transactions a dictionary holds. *)
Definition transactions_of (v : pyval) : list pyval :=
  match v with
  | PDict m =>
      match m !! "transactions" with
      | Some (PList l) => l
      | _ => []
      end
  | _ => []
  end.

(** The transactions [load_data] of [money.py] finds in a data file. *)
Definition stored (f : file) : list pyval :=
  match Money.load_data f with
  | Ok (d, _) => transactions_of d
  | Raise _ => []
  end.

(** The number of confirmations of an income or an expense among the
    lines printed. *)
Definition is_confirmation (l : MoneyConsole.line) : bool :=
  match l with
  | MoneyConsole.Report (Money.IncomeAdded _)
  | MoneyConsole.Report (Money.ExpenseAdded _) => true
  | _ => false
  end.

Definition confirmations (out : list MoneyConsole.line) : nat :=
  length (List.filter is_confirmation out).

(** A transaction that [add_income] or [add_expense] made of an accepted
    amount, one that is not [<= 0]: a positive number or NaN. *)
Definition accepted (t : pyval) : Prop :=
  ∃ r, t = transaction_of r ∧ PrimFloat.leb (Money.request_amount r) 0 = false.

Section WellFormed.
Context (float_of_str : string → option float).

(** A ledger whose starting balance is a number and whose transactions are
    such as the programs write them. *)
Definition well_formed (v : pyval) : Prop :=
  ∃ m sb l, v = PDict m
    ∧ m !! "starting_balance" = Some sb
    ∧ (∃ q, Py.float float_of_str sb = Ok q)
    ∧ m !! "transactions" = Some (PList l)
    ∧ Forall (transaction_like float_of_str) l.

(** What a menu action that returns has done: it left a well-formed
    ledger that the data file holds whenever it changed, and added as
    many accepted transactions as it printed confirmations. *)
Definition effect (w : world) (out : list MoneyConsole.line) (w' : world)
  : Prop :=
  well_formed (data w')
  ∧ (w' = w ∨ disk w' = Money.save_data (data w'))
  ∧ ∃ added,
      transactions_of (data w') = (transactions_of (data w) ++ added)%list
      ∧ length added = confirmations out
      ∧ Forall accepted added.
End WellFormed.

(** A call at the console that does not raise, establishes [Q] of what
    it printed, its value and the lines it left whenever it returns, and
    [E] of what it printed whenever the input ends under it. *)
Definition wp {line A : Type} (m : Console.console line A)
  (Q : list line → A → list string → Prop) (E : list line → Prop)
  (lines : list string) : Prop :=
  match m lines with
  | (out, Console.Returns (a, rest)) => Q out a rest
  | (_, Console.Raises _) => False
  | (out, Console.EndOfInput) => E out
  end.

(** ** [simple.py] at the console *)

Module SimpleConsole.
Import Console.

(** A line of the table of [show_history]. *)
Record row := Row {
  row_date : pyval;
  row_type : string;
  row_sign : string;
  row_amount : float;
  row_note : pyval
}.

Inductive line :=
| Title (text : string)            (* --- text --- *)
| Menu                             (* print_menu() *)
| InvalidNumber                    (* Invalid number. Try again. *)
| Report (msg : Simple.message)    (* the reports of the actions *)
| Balance (b : float)              (* Balance: ... *)
| TotalEntries (n : nat)           (* Total entries: ... *)
| NoTransactionsYet                (* No transactions yet. *)
| TableHead                        (* the two lines over the table *)
| TableRow (r : row)
| Goodbye                          (* Exiting. Track your money like an adult. *)
| InvalidChoice.                   (* Invalid choice. Try again. *)

(** [f"{v:>9.2f}"]: the format of a number, which an int and a bool
    understand too; a str knows no format code [f]. *)
Definition format_f (v : pyval) : result float :=
  match v with
  | PFloat x => Ok x
  | PInt z => Py.float_of_int z
  | PBool b => Ok (if b then 1 else 0)%float
  | PStr _ => Raise ValueError
  | _ => Raise TypeError
  end.

Section Actions.
Context (float_of_str : string → option float).
(** [clock n] is [datetime.now().strftime("%Y-%m-%d %H:%M")] at the moment
    when [n] lines are still to be read. *)
Context (clock : nat → string).
(** [writable n] tells whether [open(DATA_FILE, "w")] succeeds at the
    moment when [n] lines are still to be read; when it does not, it raises
    OSError and the file stays as it is.  Writing into the file once it is
    open is taken to succeed. *)
Context (writable : nat → bool).
#[local] Abbreviation console := (Console.console line).

Definition now : console string := n ⇐ unread; ret (clock n).

Fixpoint input_float (lines : list string)
  : list line * outcome (float * list string) :=
  match lines with
  | [] => ([], EndOfInput)
  | value :: rest =>
      match Py.float float_of_str (PStr value) with
      | Ok num => ([], Returns (num, rest))
      | Raise ValueError =>
          let '(out, r) := input_float rest in (InvalidNumber :: out, r)
      | Raise e => ([], Raises e)
      end
  end.

(** [open(DATA_FILE, "w", encoding="utf-8")], with which [save_data]
    begins. *)
Definition open_for_writing : console unit :=
  n ⇐ unread; lift (if writable n then Ok tt else Raise OSError).

(** Once the values are read, the rest of [add_income] and [add_expense]
    is [Simple.add_income] and [Simple.add_expense] on them, which write
    the data file; [open_for_writing] is where [save_data] raises when the
    file cannot be written. *)
Definition add_income (w : world) : console world :=
  _ ⇐ print (Title "Add Income");
  amount ⇐ input_float;
  if PrimFloat.leb amount 0 then
    _ ⇐ print (Report Simple.AmountMustBePositive); ret w
  else
    note ⇐ input;
    date ⇐ now;
    '(w', out) ⇐ lift (Simple.add_income date amount note w);
    _ ⇐ open_for_writing;
    _ ⇐ print_all (Report <$> out);
    ret w'.

Definition add_expense (w : world) : console world :=
  _ ⇐ print (Title "Add Expense");
  amount ⇐ input_float;
  if PrimFloat.leb amount 0 then
    _ ⇐ print (Report Simple.AmountMustBePositive); ret w
  else
    note ⇐ input;
    date ⇐ now;
    '(w', out) ⇐ lift (Simple.add_expense date amount note w);
    _ ⇐ open_for_writing;
    _ ⇐ print_all (Report <$> out);
    ret w'.

Definition show_balance (w : world) : console world :=
  _ ⇐ print (Title "Current Balance");
  balance ⇐ lift (Simple.calc_balance float_of_str (data w));
  _ ⇐ print (Balance balance);
  txs ⇐ lift (Py.getitem (data w) "transactions");
  n ⇐ lift (Builtin.len txs);
  _ ⇐ print (TotalEntries n);
  ret w.

Definition history_row (t : pyval) : result row :=
  ty ← Py.getitem t "type";
  let t_type := if Py.eq_str ty "IN" then "IN" else "OUT" in
  let sign := if String.eqb t_type "IN" then "+" else "-" in
  date ← Py.getitem t "date";
  date ← Py.format_width date;
  a ← Py.getitem t "amount";
  amount ← format_f a;
  note ← Py.getitem t "note";
  Ok (Row date t_type sign amount note).

(** [for t in data["transactions"]: print(...)] *)
Fixpoint print_rows (l : list pyval) : console unit :=
  match l with
  | [] => ret tt
  | t :: l' =>
      r ⇐ lift (history_row t);
      _ ⇐ print (TableRow r);
      print_rows l'
  end.

Definition show_history (w : world) : console world :=
  _ ⇐ print (Title "Transaction History");
  txs ⇐ lift (Py.getitem (data w) "transactions");
  if negb (Py.truthy txs) then
    _ ⇐ print NoTransactionsYet; ret w
  else
    _ ⇐ print TableHead;
    txs ⇐ lift (Py.getitem (data w) "transactions");
    l ⇐ lift (Py.iter txs);
    _ ⇐ print_rows l;
    ret w.

(** One turn of the loop of [main]; [None] is [break]. *)
Definition turn (w : world) : console (option world) :=
  _ ⇐ print Menu;
  choice ⇐ input;
  if String.eqb choice "1" then w' ⇐ add_income w; ret (Some w')
  else if String.eqb choice "2" then w' ⇐ add_expense w; ret (Some w')
  else if String.eqb choice "3" then w' ⇐ show_balance w; ret (Some w')
  else if String.eqb choice "4" then w' ⇐ show_history w; ret (Some w')
  else if String.eqb choice "0" then _ ⇐ print Goodbye; ret None
  else _ ⇐ print InvalidChoice; ret (Some w).

(** [while True:] for at most [fuel] turns.  An action that does not
    return has not written the data file. *)
Fixpoint menu_loop (fuel : nat) (w : world) (lines : list string) : run line :=
  match fuel with
  | O => Run [] Unfinished (disk w)
  | S fuel' =>
      match turn w lines with
      | (out, Returns (Some w', rest)) =>
          let r := menu_loop fuel' w' rest in
          Run (out ++ printed r)%list (ended r) (file_left r)
      | (out, Returns (None, _)) => Run out Exited (disk w)
      | (out, Raises e) => Run out (Crashed e) (disk w)
      | (out, EndOfInput) => Run out InputEnded (disk w)
      end
  end.

(** Every turn reads a line, so the loop takes no more turns than there
    are lines, and one more to find the input ended. *)
Definition main (f : file) (lines : list string) : run line :=
  match Simple.load_data f with
  | Ok (data, out) =>
      let r := menu_loop (S (length lines)) (World data f) lines in
      Run ((Report <$> out) ++ printed r)%list (ended r) (file_left r)
  | Raise e => Run [] (Crashed e) f
  end.

End Actions.
End SimpleConsole.

(** ** Vocabulary for the runs of [simple.py] *)

(** A transaction of an unknown type. *)
Definition unknown_type (t : pyval) : bool :=
  negb (has_type "IN" t) && negb (has_type "OUT" t).




(** A transaction that [simple.py] can show and count: it has the four
    keys, its date is a str and its amount a number. *)
Definition simple_entry (t : pyval) : Prop :=
  ∃ m d ty a q note,
    t = PDict m
    ∧ m !! "date" = Some (PStr d)
    ∧ m !! "type" = Some ty
    ∧ m !! "amount" = Some a ∧ SimpleConsole.format_f a = Ok q
    ∧ m !! "note" = Some note.




(** ** One run of [pp.py]

    Streamlit runs the script from top to bottom at every interaction;
    what the widgets return is the input of the run, and
    [st.session_state] is what is left from the run before ([None] in a
    new session). *)

Module PpScript.
Import Pp.

(** The values of the form of Add New Entry; [date] is
    [date.strftime("%Y-%m-%d")]. *)
Record entry := Entry {
  date : string;
  t_type : string;
  amount : float;
  category : string;
  note : string
}.

Record widgets := Widgets {
  starting_balance_input : float;              (* st.sidebar.number_input(...) *)
  uploaded_file : option (result dataframe);   (* the uploader, read by pd.read_csv *)
  reset_clicked : bool;                        (* st.sidebar.button("Reset All Data") *)
  submitted : option entry                     (* the form, when Add Entry was pressed *)
}.

Inductive message :=
| Sidebar (msg : Pp.message)    (* the reports on the upload *)
| AllDataCleared                (* All data cleared! *)
| EntryAdded.                   (* Entry added! *)

Definition form_columns : list string :=
  ["Date"; "Type"; "Amount"; "Category"; "Note"].

(** [pd.DataFrame(columns=[...])] *)
Definition empty_frame : dataframe := DataFrame form_columns [].

(** [pd.concat([df, pd.DataFrame([new_row])], ignore_index=True)]: the
    columns of [df], then those of the row that [df] does not have; the
    rows of [df], then the row.  A cell that a row does not give is NaN. *)
Definition concat_row (df : dataframe) (row_columns : list string)
  (new_row : gmap string pyval) : dataframe :=
  DataFrame
    (columns df
     ++ List.filter (λ c, negb (bool_decide (c ∈ columns df))) row_columns)%list
    (records df ++ [new_row])%list.

Section Run.
(** [str.strip] is the library's and is taken as given. *)
Context (strip : string → string).

Definition new_row (e : entry) : gmap string pyval :=
  let category :=
    if String.eqb (strip (category e)) "" then "Uncategorized" else category e in
  {[ "Date" := PStr (date e);
     "Type" := PStr (t_type e);
     "Amount" := PFloat (amount e);
     "Category" := PStr category;
     "Note" := PStr (note e) ]}.

(** The script down to the form, which is where it changes the session. *)
Definition rerun (ws : widgets) (session : option session_state)
  : session_state * list message :=
  (* initialize session state *)
  let st := default (SessionState empty_frame 0) session in
  (* starting balance input *)
  let st := SessionState (transactions st) (starting_balance_input ws) in
  (* upload existing CSV *)
  let '(st, out1) := on_uploaded_file (uploaded_file ws) st in
  (* reset data button *)
  let '(st, out2) :=
    if reset_clicked ws
    then (SessionState empty_frame (starting_balance st), [AllDataCleared])
    else (st, []) in
  (* add new transaction *)
  let '(st, out3) :=
    match submitted ws with
    | Some e =>
        (SessionState (concat_row (transactions st) form_columns (new_row e))
           (starting_balance st),
         [EntryAdded])
    | None => (st, [])
    end in
  (st, ((Sidebar <$> out1) ++ out2 ++ out3)%list).
End Run.

End PpScript.

(** ** Vocabulary for the table of [pp.py] *)

(** The date of a row of the table shown, as a point in time. *)
Definition shown_date (r : gmap string pyval) : Z :=
  match r !! "Date" with
  | Some (PInt d) => d
  | _ => 0
  end.

(** The rows of a frame with their dates converted. *)
Definition with_dates (dates : list Z) (rows : list (gmap string pyval))
  : list (gmap string pyval) :=
  zip_with (λ d r, <["Date" := PInt d]> r) dates rows.

Definition has_required_columns (df : Pp.dataframe) : Prop :=
  Pp.required_cols ⊆ list_to_set (Pp.columns df).

(** ** Example runs *)

(** A parser of numerals that knows 5 only, clocks that stand still, and
    the lines typed in a session of each program. *)
Definition example_float_of_str (s : string) : option float :=
  if String.eqb s "5" then Some 5%float else None.

Definition example_clock (n : nat) : string * string * string :=
  ("2024", "03", "01").

Definition example_keys : list string :=
  ["2"; "abc"; "5"; "gift"; ""; ""; "4"; "0"].

Definition simple_example_clock (n : nat) : string := "2024-03-01 10:00".


(** A transaction of [simple.py] of an unknown type, and one without an
    amount. *)
Definition gift_entry : pyval :=
  PDict {[ "date" := PStr "2024-01-20 10:00"; "type" := PStr "GIFT";
           "amount" := PFloat 5; "note" := PStr "" ]}.

Definition entry_without_amount : gmap string pyval :=
  {[ "type" := PStr "IN" ]}.

(** A run of [pp.py] with a table in the uploader and an entry submitted. *)
Definition upload_widgets : PpScript.widgets :=
  PpScript.Widgets 0 (Some (Ok two_entries)) false
    (Some (PpScript.Entry "2024-03-01" "Expense (-)" 20 "" "")).

(** A call at the console that leaves no more lines than it found.  *)
Definition shrinks {line A : Type} (m : Console.console line A) : Prop :=
  ∀ lines out a rest,
    m lines = (out, Console.Returns (a, rest)) → length rest <= length lines.

(** Two incomes of 1 on a starting balance of [10^16], where the floats lie
    2 apart; a transaction whose amount is [null]. *)
Definition rounding_requests : list Money.request :=
  [ Money.Income 1 "gift" "2024-01-05" "";
    Money.Income 1 "gift" "2024-01-06" "" ].

Definition null_amount : pyval :=
  PDict {[ "type" := PStr "IN"; "amount" := PNone ]}.

(** The full-width digits, U+FF10 to U+FF19, whose UTF-8 bytes are EF BC 90
    to EF BC 99: ten of the decimal digits [unicodedata.decimal] knows. *)
Definition fullwidth (c : string) : option nat :=
  match c with
  | String "239" (String "188" (String b "")) =>
      let n := nat_of_ascii b in
      if ((144 <=? n) && (n <=? 153))%nat then Some (n - 144) else None
  | _ => None
  end.

(** Three transactions of January 2024 whose amounts are not sums of
    powers of two: IN 0.1, OUT 0.3, IN 0.2. *)
Definition drift_requests : list Money.request :=
  [ Money.Income 0.1 "gift" "2024-01-05" "";
    Money.Expense 0.3 "snacks" "2024-01-10" "";
    Money.Income 0.2 "gift" "2024-01-20" "" ].

(** Three requests of which the first and the last bear the same date. *)
Definition same_day_requests : list Money.request :=
  [ Money.Income 50 "gift" "2024-01-10" "";
    Money.Expense 20 "snacks" "2024-01-05" "";
    Money.Expense 5 "bus" "2024-01-10" "" ].

(** A data file that can always be written. *)
Definition always (n : nat) : bool := true.

(** * Properties *)

Local Open Scope nat_scope.
Local Open Scope list_scope.

(** ** Loops and small facts *)

Lemma for_each_app {A S : Type} (body : S → A → result S) l1 l2 s :
  for_each body (l1 ++ l2) s = (s' ← for_each body l1 s; for_each body l2 s').
Proof.
  revert s. induction l1 as [|x l1 IH]; intros s; simpl; [done|].
  destruct (body s x) as [s'|e]; simpl; [apply IH|done].
Qed.

Lemma has_type_in_not_out t :
  has_type "IN" t = true → has_type "OUT" t = false.
Proof.
  unfold has_type. destruct t as [| | | |s| |m]; try done.
  destruct (m !! "type") as [[| | | |s| |]|]; simpl; try done.
  intros H%String.eqb_eq. by subst.
Qed.

(** ** Loading the data file *)

Lemma load_data_absent : Money.load_data Absent = Ok (Money.fresh, []).
Proof. reflexivity. Qed.

Lemma load_data_unopenable :
  Money.load_data Unopenable = Ok (Money.fresh, [Money.CorruptWarning]).
Proof. reflexivity. Qed.

Lemma load_data_not_json :
  Money.load_data NotJson = Ok (Money.fresh, [Money.CorruptWarning]).
Proof. reflexivity. Qed.

(** An exception of [json.load] other than the two that [load_data]
    catches reaches the caller. *)
Lemma load_data_fails e :
  Money.load_data (Fails e)
  = if bool_decide (e ∈ [JSONDecodeError; OSError])
    then Ok (Money.fresh, [Money.CorruptWarning]) else Raise e.
Proof. reflexivity. Qed.

Lemma fresh_is_empty_ledger : Money.fresh = ledger 0 [].
Proof. reflexivity. Qed.

(** A document that is a dictionary is returned with the missing keys
    filled in, and no warning. *)
Lemma load_data_json_dict m :
  Money.load_data (Json (PDict m)) =
  Ok (PDict (if m !! "transactions" is Some _
             then (if m !! "starting_balance" is Some _ then m
                   else <["starting_balance" := PFloat 0]> m)
             else <["transactions" := PList []]>
                    (if m !! "starting_balance" is Some _ then m
                     else <["starting_balance" := PFloat 0]> m)), []).
Proof.
  unfold Money.load_data. simpl.
  destruct (m !! "starting_balance") as [sb|] eqn:Esb; simpl;
    [|rewrite lookup_insert_ne by done];
    destruct (m !! "transactions") as [tx|] eqn:Etx; done.
Qed.

(** C4, at the input that breaks it: a data file that holds the JSON
    document [[]] is decoded by [json.load], and the sanity checks of
    [load_data] then assign to a key of a list.  The TypeError is not one
    of the exceptions [load_data] catches, and it reaches the caller: the
    load raises instead of starting from a fresh ledger. *)
Theorem load_data_json_list_raises :
  Money.load_data (Json (PList [])) = Raise TypeError.
Proof. reflexivity. Qed.

(** A document that is a number, [null] or [true] fails already at the
    test [in]. *)
Lemma load_data_json_scalar_raises v :
  match v with PNone | PBool _ | PInt _ | PFloat _ => True | _ => False end →
  Money.load_data (Json v) = Raise TypeError.
Proof. by destruct v. Qed.

Lemma load_data_not_utf8_raises :
  Money.load_data NotUtf8 = Raise UnicodeDecodeError.
Proof. reflexivity. Qed.

(** [simple.py] returns whatever document the file holds, a ledger or
    not. *)
Lemma simple_load_data_returns_document v :
  Simple.load_data (Json v) = Ok (v, []).
Proof. reflexivity. Qed.

(** ** Save, then load *)

Lemma load_saved (m : gmap string pyval) :
  is_Some (m !! "starting_balance") → is_Some (m !! "transactions") →
  Money.load_data (Money.save_data (PDict m)) = Ok (PDict m, []).
Proof.
  intros [sb Hsb] [tx Htx].
  unfold Money.save_data, json_dump. rewrite load_data_json_dict.
  by rewrite Hsb, Htx.
Qed.

(** C2: for every ledger, whatever its starting balance and its
    transactions, saving it and then loading the data file gives back the
    same ledger, the same starting balance and the same transactions in the
    same order, and no warning. *)
Theorem save_then_load (v : pyval) :
  ledger_shaped v →
  Money.load_data (Money.save_data v) = Ok (v, []).
Proof.
  intros (m & -> & Hsb & Htx). by apply load_saved.
Qed.

Lemma ledger_is_ledger_shaped sb txs : ledger_shaped (ledger sb txs).
Proof. eexists. split; [reflexivity|]. split; eexists; reflexivity. Qed.

Lemma save_then_load_witness :
  Money.load_data
    (Money.save_data (ledger 100 (transaction_of <$> example_requests)))
  = Ok (ledger 100 (transaction_of <$> example_requests), []).
Proof. apply save_then_load, ledger_is_ledger_shaped. Defined.

(** A dictionary that lacks one of the two keys does not come back as it
    was: the load fills the key in. *)
Lemma save_then_load_changes (m : gmap string pyval) :
  m !! "starting_balance" = None ∨ m !! "transactions" = None →
  ∃ m', Money.load_data (Money.save_data (PDict m)) = Ok (PDict m', [])
        ∧ m' ≠ m.
Proof.
  intros H. unfold Money.save_data, json_dump. rewrite load_data_json_dict.
  eexists. split; [reflexivity|].
  destruct (m !! "transactions") as [tx|] eqn:Etx,
    (m !! "starting_balance") as [sb|] eqn:Esb.
  - by destruct H.
  - intros E. apply (f_equal (λ x, x !! "starting_balance")) in E.
    by rewrite lookup_insert_eq, Esb in E.
  - intros E. apply (f_equal (λ x, x !! "transactions")) in E.
    by rewrite lookup_insert_eq, Etx in E.
  - intros E. apply (f_equal (λ x, x !! "transactions")) in E.
    by rewrite lookup_insert_eq, Etx in E.
Qed.

(** What the appending actions and [set_starting_balance] leave on disk
    is what they leave in memory. *)
Lemma saved_is_loaded (v : pyval) (w : world) :
  ledger_shaped v → w = World v (Money.save_data v) →
  Money.load_data (disk w) = Ok (data w, []).
Proof. intros (m & -> & Hsb & Htx) ->. by apply load_saved. Qed.
(** ** The balance *)

Section Balance.
Context (float_of_str : string → option float).
#[local] Abbreviation amount_of' := (amount_of float_of_str).
#[local] Abbreviation signed' := (signed float_of_str).

(** The loop of [calculate_balance] is a left fold of [signed]. *)
Lemma calculate_balance_fold m sb l :
  Py.float float_of_str (default (PFloat 0) (m !! "starting_balance")) = Ok sb →
  default (PList []) (m !! "transactions") = PList l →
  Forall (has_numeric_amount float_of_str) l →
  Money.calculate_balance float_of_str (PDict m)
  = Ok (fold_left (λ b t, signed' t b) l sb).
Proof.
  intros Hsb Hm Hl. unfold Money.calculate_balance. simpl.
  rewrite Hsb, Hm. simpl. clear Hsb Hm. revert sb.
  induction Hl as [|t l Ht Hl IH]; intros sb; [done|].
  destruct Ht as [mt [-> Ha]]. simpl.
  assert (∃ q, Py.float float_of_str (default (PFloat 0) (mt !! "amount")) = Ok q
               ∧ amount_of' (PDict mt) = q) as [q [Hq Hq']].
  { unfold amount_of. destruct (mt !! "amount") as [a|] eqn:E; simpl.
    - destruct (Ha a eq_refl) as [q Hq]. exists q. by rewrite Hq.
    - by exists 0%float. }
  rewrite Hq. simpl. unfold signed at 2. rewrite Hq'. unfold has_type.
  destruct (mt !! "type") as [ty|]; simpl.
  - destruct (Py.eq_str ty "IN"); [apply IH|].
    destruct (Py.eq_str ty "OUT"); apply IH.
  - apply IH.
Qed.

Lemma amount_of_missing m :
  m !! "amount" = None → amount_of' (PDict m) = 0%float.
Proof. intros H. unfold amount_of. by rewrite H. Qed.

(** With 0.0 written for its missing amount, a transaction has the same
    effect on the balance. *)
Lemma signed_amount_written mt b :
  mt !! "amount" = None →
  signed' (PDict (<["amount" := PFloat 0]> mt)) b = signed' (PDict mt) b.
Proof.
  intros H. unfold signed, has_type, amount_of.
  rewrite lookup_insert_eq, H. rewrite lookup_insert_ne by done. done.
Qed.

Lemma signed_unknown t b :
  has_type "IN" t = false → has_type "OUT" t = false → signed' t b = b.
Proof. intros Hin Hout. unfold signed. by rewrite Hin, Hout. Qed.

(** C10, as the code has it: the balance computation of [money.py]
    returns on every list of transactions that are dictionaries whose
    amount, when there is one, is a number, the starting balance being a
    number too, also when a transaction has no amount or a type that is
    neither IN nor OUT.  A missing amount counts as 0: the balance is the
    one computed with the amount 0.0 written in.  A transaction of another
    type counts for nothing: the balance is the one computed without
    it. *)
Theorem calculate_balance_total m sb l :
  Py.float float_of_str (default (PFloat 0) (m !! "starting_balance")) = Ok sb →
  default (PList []) (m !! "transactions") = PList l →
  Forall (has_numeric_amount float_of_str) l →
  (∃ b, Money.calculate_balance float_of_str (PDict m) = Ok b)
  ∧ (∀ l1 mt l2, l = l1 ++ PDict mt :: l2 → mt !! "amount" = None →
       Money.calculate_balance float_of_str (PDict m)
       = Money.calculate_balance float_of_str
           (PDict (<["transactions" :=
                       PList (l1 ++ PDict (<["amount" := PFloat 0]> mt) :: l2)]>
                     m)))
  ∧ (∀ l1 t l2, l = l1 ++ t :: l2 →
       has_type "IN" t = false → has_type "OUT" t = false →
       Money.calculate_balance float_of_str (PDict m)
       = Money.calculate_balance float_of_str
           (PDict (<["transactions" := PList (l1 ++ l2)]> m))).
Proof.
  intros Hsb Hm Hl.
  rewrite (calculate_balance_fold m sb l Hsb Hm Hl).
  split; [by eexists|]. split.
  - intros l1 mt l2 -> Hmt.
    apply Forall_app in Hl as [Hl1 Hl2]. inversion Hl2 as [|? ? Ht Hl2']; subst.
    rewrite (calculate_balance_fold _ sb
               (l1 ++ PDict (<["amount" := PFloat 0]> mt) :: l2)).
    + rewrite !fold_left_app. cbn [fold_left].
      by rewrite signed_amount_written.
    + destruct (decide ("starting_balance" = "transactions")); [done|].
      by rewrite lookup_insert_ne.
    + by rewrite lookup_insert_eq.
    + apply Forall_app. split; [done|]. constructor; [|done].
      eexists. split; [reflexivity|]. intros a.
      rewrite lookup_insert_eq. intros [= <-]. by eexists.
  - intros l1 t l2 -> Hin Hout.
    apply Forall_app in Hl as [Hl1 Hl2]. inversion Hl2 as [|? ? Ht Hl2']; subst.
    rewrite (calculate_balance_fold _ sb (l1 ++ l2)).
    + rewrite !fold_left_app. cbn [fold_left]. by rewrite signed_unknown.
    + by rewrite lookup_insert_ne.
    + by rewrite lookup_insert_eq.
    + by apply Forall_app.
Qed.

(** *** Ledgers built by appending *)

(** The test [amount <= 0] of the programs lets through every amount
    above 0, and NaN, of which no comparison holds. *)
Lemma positive_not_rejected (amount : float) :
  PrimFloat.ltb 0 amount = true → PrimFloat.leb amount 0 = false.
Proof.
  rewrite ltb_spec, leb_spec. change (Prim2SF 0) with (S754_zero false).
  destruct (Prim2SF amount) as [s|s| |s m e]; try done; by destruct s.
Qed.

Example nan_not_rejected : PrimFloat.leb nan 0 = false.
Proof. reflexivity. Qed.

Lemma append_ok r m l f :
  PrimFloat.leb (Money.request_amount r) 0 = false →
  m !! "transactions" = Some (PList l) →
  ∃ out, Money.append r (World (PDict m) f) =
    Ok (World (PDict (<["transactions" := PList (l ++ [transaction_of r])]> m))
          (Json (PDict (<["transactions" := PList (l ++ [transaction_of r])]> m))),
        out).
Proof.
  intros Hpos Hm. destruct r as [a s d n|a c d n]; simpl in *.
  - unfold Money.add_income. rewrite Hpos.
    unfold Money.append_transaction. simpl. rewrite Hm. simpl. eauto.
  - unfold Money.add_expense. rewrite Hpos.
    unfold Money.append_transaction. simpl. rewrite Hm. simpl. eauto.
Qed.

Lemma run_ok rs : ∀ m l f,
  Forall (λ r, PrimFloat.leb (Money.request_amount r) 0 = false) rs →
  m !! "transactions" = Some (PList l) →
  ∃ w, Money.run rs (World (PDict m) f) = Ok w
       ∧ data w
         = PDict (<["transactions" := PList (l ++ (transaction_of <$> rs))]> m).
Proof.
  induction rs as [|r rs IH]; intros m l f Hpos Hm.
  - eexists; split; [done|]. simpl. rewrite app_nil_r. by rewrite insert_id.
  - inversion Hpos as [|? ? Hr Hrs]; subst.
    destruct (append_ok r m l f Hr Hm) as [out Happ].
    simpl. rewrite Happ. simpl.
    edestruct (IH (<["transactions" := PList (l ++ [transaction_of r])]> m))
      as [w [Hrun Hw]]; [done|apply lookup_insert_eq|].
    exists w. split; [exact Hrun|].
    rewrite Hw, insert_insert_eq, <- app_assoc. done.
Qed.

Lemma transaction_of_numeric r :
  has_numeric_amount float_of_str (transaction_of r).
Proof.
  destruct r as [a s d n|a c d n]; eexists; (split; [reflexivity|]);
    intros x Hx; vm_compute in Hx; injection Hx as <-; by eexists.
Qed.

(** On the transaction of a request the loop does what the request
    says. *)
Lemma signed_transaction_of r b :
  signed' (transaction_of r) b = settle b r.
Proof. by destruct r. Qed.

Lemma fold_signed_requests rs : ∀ b,
  fold_left (λ b t, signed' t b) (transaction_of <$> rs) b
  = fold_left settle rs b.
Proof.
  induction rs as [|r rs IH]; intros b; [done|].
  cbn [fmap list_fmap fold_left]. rewrite signed_transaction_of. apply IH.
Qed.

Lemma money_balance_after_appends (sb : float) (rs : list Money.request)
  (f : file) :
  Forall (λ r, PrimFloat.leb (Money.request_amount r) 0 = false) rs →
  ∃ w, Money.run rs (World (ledger sb []) f) = Ok w
       ∧ Money.calculate_balance float_of_str (data w)
         = Ok (fold_left settle rs sb).
Proof.
  intros Hpos. unfold ledger.
  set (m := ({[ "starting_balance" := PFloat sb; "transactions" := PList [] ]}
             : gmap string pyval)).
  destruct (run_ok rs m [] f Hpos) as [w [Hrun Hw]]; [reflexivity|].
  exists w. split; [exact Hrun|]. rewrite Hw.
  rewrite (calculate_balance_fold _ sb (transaction_of <$> rs)).
  - by rewrite fold_signed_requests.
  - rewrite lookup_insert_ne by done. reflexivity.
  - by rewrite lookup_insert_eq.
  - apply Forall_fmap, Forall_forall. intros r _. apply transaction_of_numeric.
Qed.

(** *** The same for [simple.py], which has no starting balance *)

Lemma simple_append_ok r m l f :
  PrimFloat.leb (Simple.request_amount r.2) 0 = false →
  m !! "transactions" = Some (PList l) →
  ∃ out, Simple.append r (World (PDict m) f) =
    Ok (World
          (PDict (<["transactions" := PList (l ++ [simple_transaction_of r])]> m))
          (Json
             (PDict (<["transactions" := PList (l ++ [simple_transaction_of r])]> m))),
        out).
Proof.
  intros Hpos Hm. destruct r as [now [a n|a n]]; simpl in *.
  - unfold Simple.add_income. rewrite Hpos.
    unfold Simple.append_transaction. simpl. rewrite Hm. simpl. eauto.
  - unfold Simple.add_expense. rewrite Hpos.
    unfold Simple.append_transaction. simpl. rewrite Hm. simpl. eauto.
Qed.

Lemma simple_run_ok rs : ∀ m l f,
  Forall (λ r, PrimFloat.leb (Simple.request_amount r.2) 0 = false) rs →
  m !! "transactions" = Some (PList l) →
  ∃ w, Simple.run rs (World (PDict m) f) = Ok w
       ∧ data w
         = PDict (<["transactions" :=
                      PList (l ++ (simple_transaction_of <$> rs))]> m).
Proof.
  induction rs as [|r rs IH]; intros m l f Hpos Hm.
  - eexists; split; [done|]. simpl. rewrite app_nil_r. by rewrite insert_id.
  - inversion Hpos as [|? ? Hr Hrs]; subst.
    destruct (simple_append_ok r m l f Hr Hm) as [out Happ].
    simpl. rewrite Happ. simpl.
    edestruct (IH (<["transactions" := PList (l ++ [simple_transaction_of r])]> m))
      as [w [Hrun Hw]]; [done|apply lookup_insert_eq|].
    exists w. split; [exact Hrun|].
    rewrite Hw, insert_insert_eq, <- app_assoc. done.
Qed.

Lemma simple_calc_balance_requests m rs :
  m !! "transactions" = Some (PList (simple_transaction_of <$> rs)) →
  Simple.calc_balance float_of_str (PDict m)
  = Ok (fold_left simple_settle rs 0%float).
Proof.
  intros Hm. unfold Simple.calc_balance. simpl. rewrite Hm. simpl. clear Hm.
  generalize 0%float.
  induction rs as [|[now [a n|a n]] rs IH]; intros b0; [done| |]; apply IH.
Qed.

Lemma simple_balance_after_appends (rs : list (string * Simple.request))
  (f : file) :
  Forall (λ r, PrimFloat.leb (Simple.request_amount r.2) 0 = false) rs →
  ∃ w, Simple.run rs (World Simple.fresh f) = Ok w
       ∧ Simple.calc_balance float_of_str (data w)
         = Ok (fold_left simple_settle rs 0%float).
Proof.
  intros Hpos. unfold Simple.fresh.
  set (m := ({[ "transactions" := PList [] ]} : gmap string pyval)).
  destruct (simple_run_ok rs m [] f Hpos) as [w [Hrun Hw]]; [reflexivity|].
  exists w. rewrite Hw. split; [exact Hrun|].
  apply simple_calc_balance_requests. apply lookup_insert_eq.
Qed.

(** C1, as the code has it: a ledger built from a starting balance [sb] by
    a sequence of valid append operations (an amount that is not [<= 0],
    type IN or OUT) has for balance [sb] with the amounts added (IN) and
    subtracted (OUT) one after the other in the order of the ledger, each
    sum and difference being the nearest float; in [simple.py], which
    keeps no starting balance, the same from 0.0. *)
Theorem balance_after_appends (sb : float) (rs : list Money.request)
  (srs : list (string * Simple.request)) (f : file) :
  Forall (λ r, PrimFloat.leb (Money.request_amount r) 0 = false) rs →
  Forall (λ r, PrimFloat.leb (Simple.request_amount r.2) 0 = false) srs →
  (∃ w, Money.run rs (World (ledger sb []) f) = Ok w
        ∧ Money.calculate_balance float_of_str (data w)
          = Ok (fold_left settle rs sb))
  ∧ (∃ w, Simple.run srs (World Simple.fresh f) = Ok w
          ∧ Simple.calc_balance float_of_str (data w)
            = Ok (fold_left simple_settle srs 0%float)).
Proof.
  intros Hrs Hsrs. split.
  - by apply money_balance_after_appends.
  - by apply simple_balance_after_appends.
Qed.

End Balance.

(** C1 does not hold as it is stated: with a starting balance of [10^16]
    and two incomes of 1 the balance computed is [10^16], each sum being
    rounded back, while the starting balance plus the sum of the incomes
    is [10^16 + 2], as a number and as a float. *)
Lemma balance_is_not_the_sum :
  (w ← Money.run rounding_requests (World (ledger 1e16 []) Absent);
   Money.calculate_balance (λ _, None) (data w)) = Ok 1e16%float
  ∧ ¬ (real_of 1e16
       == real_of 1e16 + total_in rounding_requests
          - total_out rounding_requests)%Q
  ∧ PrimFloat.eqb 1e16 (1e16 + (1 + 1) - 0)%float = false.
Proof.
  split; [reflexivity|]. split; [|reflexivity].
  intros H. vm_compute in H. discriminate H.
Qed.

(** C10 does not hold of every list of transactions: an amount that is
    [null] makes [float] raise, and with it the balance computation. *)
Lemma calculate_balance_raises_on_null :
  Money.calculate_balance (λ _, None) (ledger 0 [null_amount])
  = Raise TypeError.
Proof. reflexivity. Qed.

Lemma balance_after_appends_witness :
  (∃ w, Money.run example_requests (World (ledger 100 []) Absent) = Ok w
        ∧ Money.calculate_balance (λ _, None) (data w)
          = Ok (fold_left settle example_requests 100%float))
  ∧ (∃ w,
       Simple.run [("2024-01-05 10:00", Simple.Income 50 "gift");
                   ("2024-01-10 18:30", Simple.Expense 20 "snacks")]
         (World Simple.fresh Absent) = Ok w
       ∧ Simple.calc_balance (λ _, None) (data w)
         = Ok (fold_left simple_settle
                 [("2024-01-05 10:00", Simple.Income 50 "gift");
                  ("2024-01-10 18:30", Simple.Expense 20 "snacks")] 0%float)).
Proof.
  apply (balance_after_appends (λ _, None) 100 example_requests
           [("2024-01-05 10:00", Simple.Income 50 "gift");
            ("2024-01-10 18:30", Simple.Expense 20 "snacks")] Absent);
    repeat constructor.
Defined.

Example example_requests_settled :
  fold_left settle example_requests 100%float = 140%float.
Proof. reflexivity. Qed.

Lemma calculate_balance_total_witness :
  (∃ b, Money.calculate_balance (λ _, None) (ledger 10 odd_transactions) = Ok b)
  ∧ (∀ l1 mt l2, odd_transactions = l1 ++ PDict mt :: l2 →
       mt !! "amount" = None →
       Money.calculate_balance (λ _, None) (ledger 10 odd_transactions)
       = Money.calculate_balance (λ _, None)
           (PDict (<["transactions" :=
                       PList (l1 ++ PDict (<["amount" := PFloat 0]> mt) :: l2)]>
                     {[ "starting_balance" := PFloat 10;
                        "transactions" := PList odd_transactions ]})))
  ∧ (∀ l1 t l2, odd_transactions = l1 ++ t :: l2 →
       has_type "IN" t = false → has_type "OUT" t = false →
       Money.calculate_balance (λ _, None) (ledger 10 odd_transactions)
       = Money.calculate_balance (λ _, None)
           (PDict (<["transactions" := PList (l1 ++ l2)]>
                     {[ "starting_balance" := PFloat 10;
                        "transactions" := PList odd_transactions ]}))).
Proof.
  apply (calculate_balance_total (λ _, None)
           {[ "starting_balance" := PFloat 10;
              "transactions" := PList odd_transactions ]} 10 odd_transactions).
  - reflexivity.
  - reflexivity.
  - repeat constructor; (eexists; split; [reflexivity|]);
      intros a Ha; vm_compute in Ha; try discriminate;
      injection Ha as <-; by eexists.
Defined.

Example odd_transactions_balance :
  Money.calculate_balance (λ _, None) (ledger 10 odd_transactions)
  = Ok 7%float.
Proof. reflexivity. Qed.

(** ** Appending *)

(** C3: an append request whose amount is [<= 0] is answered with
    the report that the amount must be positive, and the program state is
    returned as it was: the transactions and the starting balance in
    memory, and the data file, which is not written.  This holds for
    income and expense, in [money.py] and in [simple.py]. *)
Theorem nonpositive_amount_rejected (amount : float)
  (source category date note now : string) (w : world) :
  PrimFloat.leb amount 0 = true →
  Money.add_income amount source date note w
  = Ok (w, [Money.AmountMustBePositive])
  ∧ Money.add_expense amount category date note w
    = Ok (w, [Money.AmountMustBePositive])
  ∧ Simple.add_income now amount note w
    = Ok (w, [Simple.AmountMustBePositive])
  ∧ Simple.add_expense now amount note w
    = Ok (w, [Simple.AmountMustBePositive]).
Proof.
  intros H.
  unfold Money.add_income, Money.add_expense, Simple.add_income,
    Simple.add_expense.
  by rewrite H.
Qed.

Lemma nonpositive_amount_rejected_witness :
  Money.add_income (-5) "gift" "2024-01-05" "" (World (ledger 100 []) Absent)
  = Ok (World (ledger 100 []) Absent, [Money.AmountMustBePositive])
  ∧ Money.add_expense (-5) "snacks" "2024-01-05" "" (World (ledger 100 []) Absent)
    = Ok (World (ledger 100 []) Absent, [Money.AmountMustBePositive])
  ∧ Simple.add_income "2024-01-05 10:00" (-5) "" (World (ledger 100 []) Absent)
    = Ok (World (ledger 100 []) Absent, [Simple.AmountMustBePositive])
  ∧ Simple.add_expense "2024-01-05 10:00" (-5) "" (World (ledger 100 []) Absent)
    = Ok (World (ledger 100 []) Absent, [Simple.AmountMustBePositive]).
Proof.
  apply (nonpositive_amount_rejected (-5) "gift" "snacks" "2024-01-05" ""
           "2024-01-05 10:00" (World (ledger 100 []) Absent)).
  reflexivity.
Defined.

(** An amount that is not [<= 0] is appended, at the end, and saved. *)
Lemma positive_amount_appended r m l f :
  PrimFloat.leb (Money.request_amount r) 0 = false →
  m !! "transactions" = Some (PList l) →
  ∃ w out, Money.append r (World (PDict m) f) = Ok (w, out)
           ∧ Py.getitem (data w) "transactions"
             = Ok (PList (l ++ [transaction_of r]))
           ∧ disk w = Money.save_data (data w).
Proof.
  intros Hpos Hm. destruct (append_ok r m l f Hpos Hm) as [out ->].
  do 2 eexists. split; [done|]. simpl. by rewrite lookup_insert_eq.
Qed.

(** ** The example of the specification *)

(** C9: starting balance 100, then IN 50 gift on 2024-01-05, OUT 20 snacks
    on 2024-01-10 and IN 10 gift on 2024-02-01: the balance is 140, and the
    summary of 2024, month 01, has income 50, expense 20, net 30 and two
    transactions. *)
Theorem example_ledger (float_of_str : string → option float)
  (decimal : string → option nat) (f : file)
  (today_year today_month : string) :
  ∃ w details,
    Money.run example_requests (World (ledger 100 []) f) = Ok w
    ∧ Money.calculate_balance float_of_str (data w) = Ok 140%float
    ∧ Money.monthly_summary float_of_str decimal today_year today_month "2024" "01" w
      = Ok (w, [Money.Summary "2024" "01" 50 20 30 2; Money.Details details]).
Proof. do 2 eexists. repeat split; reflexivity. Qed.

(** ** Import of a table *)

Lemma required_cols_subseteq (cols : list string) :
  Pp.required_cols ⊆ list_to_set cols
  ↔ Forall (λ c, c ∈ cols) ["Date"; "Type"; "Amount"; "Category"; "Note"].
Proof.
  unfold Pp.required_cols. rewrite !Forall_cons, Forall_nil.
  rewrite <- !(elem_of_list_to_set (C := gset string)). set_solver.
Qed.

(** C8: an uploaded table whose columns include each of Date, Type, Amount,
    Category and Note is accepted and becomes the transaction set; any
    other table is reported as lacking the required columns, and an upload
    that cannot be read as a table is reported too; in both cases the
    session keeps the transactions it had. *)
Theorem upload_requires_columns (st : Pp.session_state) :
  (∀ df,
     Pp.on_uploaded_file (Some (Ok df)) st
     = if bool_decide (Forall (λ c, c ∈ Pp.columns df)
                         ["Date"; "Type"; "Amount"; "Category"; "Note"])
       then (Pp.SessionState df (Pp.starting_balance st),
             [Pp.LoadedSuccessfully])
       else (st, [Pp.MissingColumns]))
  ∧ (∀ e, Pp.on_uploaded_file (Some (Raise e)) st = (st, [Pp.ErrorReadingFile]))
  ∧ Pp.on_uploaded_file None st = (st, []).
Proof.
  split; [|done]. intros df. simpl.
  by rewrite (bool_decide_ext _ _ (required_cols_subseteq (Pp.columns df))).
Qed.

(** ** Sorting by date *)

Lemma ascii_compare_lt_trans a b c :
  Ascii.compare a b = Lt → Ascii.compare b c = Lt → Ascii.compare a c = Lt.
Proof.
  unfold Ascii.compare. rewrite !N.compare_lt_iff. apply N.lt_trans.
Qed.

Lemma string_compare_lt_trans a : ∀ b c,
  String.compare a b = Lt → String.compare b c = Lt → String.compare a c = Lt.
Proof.
  induction a as [|x a IH]; intros [|y b] [|z c]; simpl; try done.
  destruct (Ascii.compare x y) eqn:Exy; try done;
    destruct (Ascii.compare y z) eqn:Eyz; try done.
  - apply Ascii.compare_eq_iff in Exy, Eyz. subst.
    replace (Ascii.compare z z) with Eq; [apply IH|].
    symmetry. unfold Ascii.compare. apply N.compare_refl.
  - apply Ascii.compare_eq_iff in Exy. subst. by rewrite Eyz.
  - apply Ascii.compare_eq_iff in Eyz. subst. by rewrite Exy.
  - by rewrite (ascii_compare_lt_trans _ _ _ Exy Eyz).
Qed.

Lemma string_compare_refl a : String.compare a a = Eq.
Proof.
  induction a as [|x a IH]; simpl; [done|].
  unfold Ascii.compare. by rewrite N.compare_refl.
Qed.

Lemma string_leb_trans a b c :
  String.leb a b = true → String.leb b c = true → String.leb a c = true.
Proof.
  unfold String.leb.
  destruct (String.compare a b) eqn:Eab; try done;
    destruct (String.compare b c) eqn:Ebc; try done; intros _ _.
  - apply String.compare_eq_iff in Eab, Ebc. subst. by rewrite string_compare_refl.
  - apply String.compare_eq_iff in Eab. subst. by rewrite Ebc.
  - apply String.compare_eq_iff in Ebc. subst. by rewrite Eab.
  - by rewrite (string_compare_lt_trans _ _ _ Eab Ebc).
Qed.

Lemma string_ltb_leb a b : String.ltb a b = true → String.leb a b = true.
Proof. unfold String.ltb, String.leb. by destruct (String.compare a b). Qed.

Lemma string_not_ltb_leb a b : String.ltb b a = false → String.leb a b = true.
Proof.
  unfold String.ltb, String.leb. rewrite (String.compare_antisym b a).
  by destruct (String.compare a b).
Qed.

Section Sorting.
Context {A : Type}.
Implicit Types (x : string * A) (l : list (string * A)).

Lemma insert_keyed_perm x l : Py.insert_keyed x l ≡ₚ x :: l.
Proof.
  induction l as [|y l IH]; simpl; [done|].
  destruct (String.ltb y.1 x.1); [|done].
  rewrite IH. apply perm_swap.
Qed.

Lemma sort_keyed_perm l : Py.sort_keyed l ≡ₚ l.
Proof.
  induction l as [|x l IH]; simpl; [done|].
  unfold Py.sort_keyed in *. simpl. by rewrite insert_keyed_perm, IH.
Qed.

Lemma insert_keyed_sorted x l :
  StronglySorted key_le l → StronglySorted key_le (Py.insert_keyed x l).
Proof.
  induction 1 as [|y l Hl IH Hy]; simpl.
  - repeat constructor.
  - destruct (String.ltb y.1 x.1) eqn:E.
    + constructor; [exact IH|].
      rewrite insert_keyed_perm. constructor; [|exact Hy].
      by apply string_ltb_leb.
    + apply string_not_ltb_leb in E.
      constructor; [by constructor|].
      constructor; [exact E|].
      eapply Forall_impl; [exact Hy|]. intros z Hz.
      unfold key_le in *. by eapply string_leb_trans.
Qed.

Lemma sort_keyed_sorted l : StronglySorted key_le (Py.sort_keyed l).
Proof.
  induction l as [|x l IH]; [constructor|]. by apply insert_keyed_sorted.
Qed.

(** The sort is stable: elements of one key keep their order. *)
Lemma insert_keyed_stable k x l :
  List.filter (λ y, String.eqb y.1 k) (Py.insert_keyed x l)
  = List.filter (λ y, String.eqb y.1 k) (x :: l).
Proof.
  induction l as [|y l IH]; [done|]. cbn [Py.insert_keyed].
  destruct (String.ltb y.1 x.1) eqn:E; [|done].
  cbn [List.filter] in *. rewrite IH.
  destruct (String.eqb x.1 k) eqn:Ex; [|done].
  destruct (String.eqb y.1 k) eqn:Ey; [|done].
  apply String.eqb_eq in Ex, Ey. rewrite Ex, Ey in E.
  unfold String.ltb in E. by rewrite string_compare_refl in E.
Qed.

Lemma sort_keyed_stable k l :
  List.filter (λ y, String.eqb y.1 k) (Py.sort_keyed l)
  = List.filter (λ y, String.eqb y.1 k) l.
Proof.
  induction l as [|x l IH]; [done|].
  change (Py.sort_keyed (x :: l)) with (Py.insert_keyed x (Py.sort_keyed l)).
  rewrite insert_keyed_stable. cbn [List.filter]. by rewrite IH.
Qed.
End Sorting.

Lemma date_key_dated t : dated t → Money.date_key t = Ok (PStr (date_of t)).
Proof.
  intros (m & -> & Hd). unfold Money.date_key, date_of. simpl.
  destruct (m !! "date") as [v|] eqn:E; simpl; [|done].
  by destruct (Hd v eq_refl) as [s ->].
Qed.

Lemma map_each_date_key l :
  Forall dated l → Py.map_each Money.date_key l = Ok (PStr <$> (date_of <$> l)).
Proof.
  induction 1 as [|t l Ht Hl IH]; simpl; [done|].
  by rewrite (date_key_dated t Ht), IH.
Qed.

Lemma map_each_as_str (ds : list string) :
  Py.map_each Py.as_str (PStr <$> ds) = Ok ds.
Proof.
  induction ds as [|d ds IH]; [done|].
  rewrite fmap_cons. cbn [Py.map_each Py.as_str mbind result_bind].
  by rewrite IH.
Qed.

Lemma sorted_by_date l :
  Forall dated l →
  Py.sorted Money.date_key l = Ok (Py.sort_keyed (zip (date_of <$> l) l)).*2.
Proof.
  intros Hl. unfold Py.sorted. rewrite (map_each_date_key l Hl).
  cbn [mbind result_bind].
  destruct l as [|t [|t' l]]; [done|done|].
  by rewrite map_each_as_str.
Qed.

Lemma sorted_by_date_perm l :
  (Py.sort_keyed (zip (date_of <$> l) l)).*2 ≡ₚ l.
Proof.
  rewrite sort_keyed_perm. rewrite snd_zip; [done|]. by rewrite length_fmap.
Qed.

Lemma sorted_by_date_sorted l :
  StronglySorted date_le (Py.sort_keyed (zip (date_of <$> l) l)).*2.
Proof.
  assert (Forall (λ p, p.1 = date_of p.2) (Py.sort_keyed (zip (date_of <$> l) l)))
    as Hkeys.
  { rewrite sort_keyed_perm. clear. induction l as [|t l IH]; simpl; constructor; done. }
  pose proof (sort_keyed_sorted (zip (date_of <$> l) l)) as Hs.
  induction Hs as [|p ps Hps IH Hp]; simpl; [constructor|].
  inversion Hkeys as [|? ? Hk Hks]; subst.
  constructor; [by apply IH|].
  apply Forall_fmap. rewrite Forall_forall in Hp, Hks |- *.
  intros q Hq. unfold date_le. simpl. rewrite <- Hk, <- (Hks q Hq). by apply Hp.
Qed.

(** Transactions of one date are shown in the order of the ledger. *)
Lemma sorted_by_date_stable d l :
  List.filter (λ t, String.eqb (date_of t) d)
    (Py.sort_keyed (zip (date_of <$> l) l)).*2
  = List.filter (λ t, String.eqb (date_of t) d) l.
Proof.
  assert (∀ ps : list (string * pyval), Forall (λ p, p.1 = date_of p.2) ps →
            List.filter (λ t, String.eqb (date_of t) d) ps.*2
            = (List.filter (λ p, String.eqb p.1 d) ps).*2) as Hfst.
  { induction 1 as [|p ps Hp Hps IH]; [done|]. cbn [fmap list_fmap List.filter].
    rewrite <- Hp. destruct (String.eqb p.1 d); cbn; by rewrite IH. }
  assert (Forall (λ p : string * pyval, p.1 = date_of p.2)
            (zip (date_of <$> l) l)) as Hzip.
  { clear. induction l as [|t l IH]; simpl; constructor; done. }
  rewrite Hfst by (by rewrite sort_keyed_perm).
  rewrite sort_keyed_stable, <- Hfst by done.
  rewrite snd_zip; [done|]. by rewrite length_fmap.
Qed.

(** ** Years and months *)

Import Datetime.

Example strptime_one_digit_month :
  strptime_Ymd (λ _, None) "2024-1-01" = Ok (2024, 1, 1).
Proof. reflexivity. Qed.

Example strptime_two_digit_month :
  strptime_Ymd (λ _, None) "2024-12-01" = Ok (2024, 12, 1).
Proof. reflexivity. Qed.

Example strptime_month_13 : strptime_Ymd (λ _, None) "2024-13-01" = Raise ValueError.
Proof. reflexivity. Qed.

Example strptime_year_0 : strptime_Ymd (λ _, None) "0000-01-01" = Raise ValueError.
Proof. reflexivity. Qed.

Example strptime_short_year : strptime_Ymd (λ _, None) "24-01-01" = Raise ValueError.
Proof. reflexivity. Qed.

Example strptime_february_30 : strptime_Ymd (λ _, None) "2024-02-30" = Raise ValueError.
Proof. reflexivity. Qed.

Example strptime_leap_day : strptime_Ymd (λ _, None) "2024-02-29" = Ok (2024, 2, 29).
Proof. reflexivity. Qed.

Example strptime_fullwidth_year :
  strptime_Ymd fullwidth "２０２４-01-05" = Ok (2024, 1, 5).
Proof. reflexivity. Qed.

Example strptime_fullwidth_month :
  strptime_Ymd fullwidth "2024-０１-05" = Raise ValueError.
Proof. reflexivity. Qed.

Example strptime_fullwidth_day :
  strptime_Ymd fullwidth "2024-01-1５" = Ok (2024, 1, 15).
Proof. reflexivity. Qed.

Example strptime_text_left_over :
  strptime_Ymd (λ _, None) "2024-1-1-01" = Raise ValueError.
Proof. reflexivity. Qed.

Lemma string_app_assoc (a b c : string) :
  ((a ++ b) ++ c)%string = (a ++ (b ++ c))%string.
Proof.
  induction a as [|x a IH]; [done|].
  change (String x ((a ++ b) ++ c) = String x (a ++ (b ++ c)))%string.
  by rewrite IH.
Qed.

Lemma string_app_nil_r (a : string) : (a ++ "")%string = a.
Proof.
  induction a as [|x a IH]; [done|].
  change (String x (a ++ "") = String x a)%string. by rewrite IH.
Qed.

Lemma dashes_app a b : dashes (a ++ b)%string = dashes a + dashes b.
Proof. induction a as [|c a IH]; simpl; [done|]. rewrite IH. lia. Qed.

Lemma split_at_dash a : ∀ a' b b',
  dashes a = 0 → dashes a' = 0 →
  (a ++ String "-" b)%string = (a' ++ String "-" b')%string → a = a' ∧ b = b'.
Proof.
  induction a as [|c a IH]; intros [|c' a'] b b'; simpl.
  - intros _ _ [= ->]. done.
  - intros _ H [= <- _]. done.
  - intros H _ [= -> _]. done.
  - intros H H' [= -> Heq].
    destruct (Ascii.eqb c' "-"); [done|]. simpl in *.
    destruct (IH a' b b' H H' Heq) as [-> ->]. done.
Qed.

Lemma digit_inv c d :
  digit c = Some d → c = ascii_of_nat (48 + d) ∧ d ≤ 9.
Proof.
  unfold digit. intros H.
  destruct ((48 <=? nat_of_ascii c) && (nat_of_ascii c <=? 57)) eqn:E;
    [|done].
  apply andb_true_iff in E as [E1%Nat.leb_le E2%Nat.leb_le].
  injection H as <-. split; [|lia].
  replace (48 + (nat_of_ascii c - 48)) with (nat_of_ascii c) by lia.
  by rewrite ascii_nat_embedding.
Qed.

Lemma digit_not_dash c d : digit c = Some d → Ascii.eqb c "-" = false.
Proof.
  intros H. destruct (Ascii.eqb c "-") eqn:E; [|done].
  apply Ascii.eqb_eq in E. subst. done.
Qed.

Lemma digit_in_inv lo hi s d r :
  digit_in lo hi s = Some (d, r) →
  ∃ c, s = String c r ∧ digit c = Some d ∧ lo ≤ d ≤ hi.
Proof.
  unfold digit_in. destruct s as [|c s]; [done|].
  destruct (digit c) as [d'|] eqn:E; [|done].
  destruct ((lo <=? d') && (d' <=? hi)) eqn:B; [|done].
  intros [= -> ->]. apply andb_true_iff in B as [?%Nat.leb_le ?%Nat.leb_le].
  eauto.
Qed.

Lemma digits_in_inv lo1 hi1 lo2 hi2 s n r :
  digits_in lo1 hi1 lo2 hi2 s = Some (n, r) →
  ∃ c1 c2 d1 d2, s = String c1 (String c2 r)
    ∧ digit c1 = Some d1 ∧ digit c2 = Some d2
    ∧ lo1 ≤ d1 ≤ hi1 ∧ lo2 ≤ d2 ≤ hi2 ∧ n = 10 * d1 + d2.
Proof.
  unfold digits_in.
  destruct (digit_in lo1 hi1 s) as [[d1 r1]|] eqn:E1; [|done].
  destruct (digit_in lo2 hi2 r1) as [[d2 r2]|] eqn:E2; [|done].
  intros [= <- <-].
  apply digit_in_inv in E1 as (c1 & -> & ? & ?).
  apply digit_in_inv in E2 as (c2 & -> & ? & ?).
  by exists c1, c2, d1, d2.
Qed.

Lemma parse_m_inv s m r :
  parse_m s = Some (m, r) →
  ∃ ms, ms ∈ months ∧ s = (ms ++ r)%string ∧ 1 ≤ m ≤ 12.
Proof.
  unfold parse_m, orelse.
  destruct (digits_in 1 1 0 2 s) as [[n r']|] eqn:E1.
  { intros [= <- <-].
    apply digits_in_inv in E1 as (c1 & c2 & d1 & d2 & -> & H1 & H2 & B1 & B2 & ->).
    apply digit_inv in H1 as [-> _], H2 as [-> _].
    assert (d1 = 1) as -> by lia.
    assert (d2 = 0 ∨ d2 = 1 ∨ d2 = 2) as [-> | [-> | ->]] by lia;
      (refine (ex_intro _ (String _ (String _ "")) (conj _ (conj eq_refl _)));
       [in_list|lia]). }
  destruct (digits_in 0 0 1 9 s) as [[n r']|] eqn:E2.
  { intros [= <- <-].
    apply digits_in_inv in E2 as (c1 & c2 & d1 & d2 & -> & H1 & H2 & B1 & B2 & ->).
    apply digit_inv in H1 as [-> _], H2 as [-> _].
    assert (d1 = 0) as -> by lia.
    assert (d2 = 1 ∨ d2 = 2 ∨ d2 = 3 ∨ d2 = 4 ∨ d2 = 5 ∨ d2 = 6 ∨ d2 = 7
            ∨ d2 = 8 ∨ d2 = 9) as Hd by lia.
    repeat destruct Hd as [-> | Hd]; try subst d2;
      (refine (ex_intro _ (String _ (String _ "")) (conj _ (conj eq_refl _)));
       [in_list|lia]). }
  intros (c & -> & H & B)%digit_in_inv.
  apply digit_inv in H as [-> _].
  assert (m = 1 ∨ m = 2 ∨ m = 3 ∨ m = 4 ∨ m = 5 ∨ m = 6 ∨ m = 7
          ∨ m = 8 ∨ m = 9) as Hd by lia.
  repeat destruct Hd as [-> | Hd]; try subst m;
    (refine (ex_intro _ (String _ "") (conj _ (conj eq_refl _))); [in_list|lia]).
Qed.

Lemma months_no_dash ms : ms ∈ months → dashes ms = 0.
Proof.
  intros H%list_elem_of_In. vm_compute in H.
  repeat destruct H as [<- | H]; try done.
Qed.

Lemma months_length ms :
  ms ∈ months → String.length ms = 1 ∨ String.length ms = 2.
Proof.
  intros H%list_elem_of_In. vm_compute in H.
  repeat destruct H as [<- | H]; try done; auto.
Qed.

Lemma parse_dash_inv s r : parse_dash s = Some r → s = String "-" r.
Proof.
  unfold parse_dash. destruct s as [|c s]; [done|].
  destruct (Ascii.eqb c "-") eqn:Ec.
  - apply Ascii.eqb_eq in Ec. subst. by intros [= ->].
  - destruct c as [[] [] [] [] [] [] [] []]; done.
Qed.

Lemma days_in_month_pos y m : 1 ≤ days_in_month y m.
Proof.
  unfold days_in_month.
  do 12 (destruct m as [|m]; [try destruct (is_leap y); lia|]). lia.
Qed.

(** *** Characters of several bytes *)

Lemma continues_not_dash c : continues c = true → Ascii.eqb c "-" = false.
Proof.
  intros H. destruct (Ascii.eqb c "-") eqn:E; [|done].
  apply Ascii.eqb_eq in E. subst. done.
Qed.

Lemma following_not_dash c k : following c = Some k → Ascii.eqb c "-" = false.
Proof.
  intros H. destruct (Ascii.eqb c "-") eqn:E; [|done].
  apply Ascii.eqb_eq in E. subst. done.
Qed.

(** The bytes [continuation] takes are at the head of the text, hold no
    dash, and are taken whatever follows them. *)
Lemma continuation_inv k : ∀ s cs r,
  continuation k s = Some (cs, r) →
  s = (cs ++ r)%string ∧ dashes cs = 0
  ∧ ∀ r', continuation k (cs ++ r') = Some (cs, r').
Proof.
  induction k as [|k IH]; intros s cs r; simpl.
  - intros [= <- <-]. done.
  - destruct s as [|c s]; [done|].
    destruct (continues c) eqn:Ec; [|done].
    destruct (continuation k s) as [[cs' r1]|] eqn:E; [|done].
    intros [= <- <-]. destruct (IH _ _ _ E) as (-> & Hd & Hloc).
    split; [done|]. split.
    + simpl. by rewrite (continues_not_dash _ Ec).
    + intros r'. simpl. by rewrite Ec, Hloc.
Qed.

Section Digits.
Context (decimal : string → option nat).

(** The character [decimal_digit] reads is at the head of the text, holds
    no dash, and is read whatever follows it. *)
Lemma decimal_digit_inv s d r :
  decimal_digit decimal s = Some (d, r) →
  ∃ p, s = (p ++ r)%string ∧ dashes p = 0
       ∧ ∀ r', decimal_digit decimal (p ++ r') = Some (d, r').
Proof.
  unfold decimal_digit. destruct s as [|c s]; [done|].
  destruct (digit c) as [d'|] eqn:Ed.
  - intros [= <- <-]. exists (String c ""). split; [done|]. split.
    + simpl. by rewrite (digit_not_dash _ _ Ed).
    + intros r'. simpl. by rewrite Ed.
  - destruct (following c) as [k|] eqn:Ek; [|done].
    destruct (continuation k s) as [[cs r1]|] eqn:Ec; [|done].
    destruct (decimal (String c cs)) as [d'|] eqn:Ev; [|done].
    intros [= <- <-]. destruct (continuation_inv _ _ _ _ Ec) as (-> & Hd & Hloc).
    exists (String c cs). split; [done|]. split.
    + simpl. by rewrite (following_not_dash _ _ Ek).
    + intros r'. simpl. by rewrite Ed, Ek, Hloc, Ev.
Qed.

Lemma decimal_digit_frame s d r t :
  decimal_digit decimal s = Some (d, r) →
  decimal_digit decimal (s ++ t) = Some (d, (r ++ t)%string).
Proof.
  intros (p & -> & _ & Hloc)%decimal_digit_inv.
  by rewrite string_app_assoc.
Qed.

Lemma reads_digits_no_dash ds : ∀ s,
  reads_digits decimal s ds → dashes s = 0.
Proof.
  induction ds as [|d ds IH]; intros s; simpl.
  - by intros ->.
  - intros (rest & (p & -> & Hp & _)%decimal_digit_inv & Hrest).
    rewrite dashes_app, Hp. by apply IH.
Qed.

Lemma is_year_no_dash ys : is_year decimal ys → dashes ys = 0.
Proof. intros (a & b & c & d & H & _). by eapply reads_digits_no_dash. Qed.

(** What [parse_Y] takes reads as four digits. *)
Lemma parse_Y_inv s y r :
  parse_Y decimal s = Some (y, r) →
  ∃ ys a b c d, s = (ys ++ r)%string
    ∧ reads_digits decimal ys [a; b; c; d]
    ∧ y = 1000 * a + 100 * b + 10 * c + d.
Proof.
  unfold parse_Y.
  destruct (decimal_digit decimal s) as [[a s1]|] eqn:E1; [|done].
  destruct (decimal_digit decimal s1) as [[b s2]|] eqn:E2; [|done].
  destruct (decimal_digit decimal s2) as [[c s3]|] eqn:E3; [|done].
  destruct (decimal_digit decimal s3) as [[d s4]|] eqn:E4; [|done].
  intros [= <- <-].
  apply decimal_digit_inv in E1 as (p1 & -> & _ & H1).
  apply decimal_digit_inv in E2 as (p2 & -> & _ & H2).
  apply decimal_digit_inv in E3 as (p3 & -> & _ & H3).
  apply decimal_digit_inv in E4 as (p4 & -> & _ & H4).
  exists (p1 ++ p2 ++ p3 ++ p4)%string, a, b, c, d.
  split; [by rewrite !string_app_assoc|]. split; [|done].
  simpl. eexists. split; [apply H1|].
  eexists. split; [apply H2|].
  eexists. split; [apply H3|].
  exists ""%string. split; [|done].
  rewrite <- (string_app_nil_r p4) at 1. apply H4.
Qed.

(** And four digits are what [parse_Y] takes. *)
Lemma parse_Y_reads ys a b c d t :
  reads_digits decimal ys [a; b; c; d] →
  parse_Y decimal (ys ++ t) = Some (1000 * a + 100 * b + 10 * c + d, t).
Proof.
  simpl. intros (s1 & E1 & s2 & E2 & s3 & E3 & s4 & E4 & ->).
  unfold parse_Y.
  rewrite (decimal_digit_frame _ _ _ t E1), (decimal_digit_frame _ _ _ t E2),
    (decimal_digit_frame _ _ _ t E3), (decimal_digit_frame _ _ _ t E4).
  done.
Qed.

Lemma digit_then_decimal_inv lo hi s n r :
  digit_then_decimal decimal lo hi s = Some (n, r) →
  ∃ p, s = (p ++ r)%string ∧ dashes p = 0.
Proof.
  unfold digit_then_decimal.
  destruct (digit_in lo hi s) as [[d1 r1]|] eqn:E1; [|done].
  destruct (decimal_digit decimal r1) as [[d2 r2]|] eqn:E2; [|done].
  intros [= <- <-].
  apply digit_in_inv in E1 as (c & -> & H & _).
  apply decimal_digit_inv in E2 as (p & -> & Hp & _).
  exists (String c p). split; [done|]. simpl.
  by rewrite (digit_not_dash _ _ H).
Qed.

Lemma parse_d_inv s d r :
  parse_d decimal s = Some (d, r) → ∃ p, s = (p ++ r)%string ∧ dashes p = 0.
Proof.
  unfold parse_d, orelse.
  destruct (digits_in 3 3 0 1 s) as [[? ?]|] eqn:E3.
  { intros [= <- <-].
    apply digits_in_inv in E3 as (c1 & c2 & d1 & d2 & -> & H1 & H2 & _).
    exists (String c1 (String c2 "")). split; [done|]. simpl.
    by rewrite (digit_not_dash _ _ H1), (digit_not_dash _ _ H2). }
  destruct (digit_then_decimal decimal 1 2 s) as [[? ?]|] eqn:E12.
  { intros [= <- <-]. by eapply digit_then_decimal_inv. }
  destruct (digits_in 0 0 1 9 s) as [[? ?]|] eqn:E0.
  { intros [= <- <-].
    apply digits_in_inv in E0 as (c1 & c2 & d1 & d2 & -> & H1 & H2 & _).
    exists (String c1 (String c2 "")). split; [done|]. simpl.
    by rewrite (digit_not_dash _ _ H1), (digit_not_dash _ _ H2). }
  destruct (digit_in 1 9 s) as [[? ?]|] eqn:E19.
  { intros [= <- <-]. apply digit_in_inv in E19 as (c & -> & H & _).
    exists (String c ""). split; [done|]. simpl. by rewrite (digit_not_dash _ _ H). }
  destruct s as [|c s]; [done|].
  destruct (Ascii.eqb c " ") eqn:Ec.
  - apply Ascii.eqb_eq in Ec. subst.
    intros (c & -> & H & _)%digit_in_inv.
    exists (String " " (String c "")). split; [done|]. simpl.
    by rewrite (digit_not_dash _ _ H).
  - destruct c as [[] [] [] [] [] [] [] []]; done.
Qed.

(** The text [strptime] accepts is a year, a month and a day between
    dashes. *)
Lemma strptime_inv s y m d :
  strptime_Ymd decimal s = Ok (y, m, d) →
  ∃ ys ms ds, s = (ys ++ "-" ++ ms ++ "-" ++ ds)%string
    ∧ is_year decimal ys ∧ ms ∈ months ∧ dashes ds = 0.
Proof.
  unfold strptime_Ymd.
  destruct (parse_Y decimal s) as [[y' s1]|] eqn:EY; [|done].
  destruct (parse_dash s1) as [s2|] eqn:E1; [|done].
  destruct (parse_m s2) as [[m' s3]|] eqn:Em; [|done].
  destruct (parse_dash s3) as [s4|] eqn:E2; [|done].
  destruct (parse_d decimal s4) as [[d' [|? ?]]|] eqn:Ed; [|done|done].
  destruct ((1 <=? y') && (d' <=? days_in_month y' m')) eqn:Ev; [|done].
  intros [= -> -> ->].
  apply andb_true_iff in Ev as [Hy%Nat.leb_le _].
  apply parse_Y_inv in EY as (ys & a & b & c & e & -> & Hys & ->).
  apply parse_dash_inv in E1 as ->.
  apply parse_m_inv in Em as (ms & Hms & -> & _).
  apply parse_dash_inv in E2 as ->.
  apply parse_d_inv in Ed as (ds & -> & Hds).
  exists ys, ms, (ds ++ "")%string.
  split; [done|]. split; [|split; [done|]].
  - exists a, b, c, e. split; [done|]. intros [= -> -> -> ->]. simpl in Hy. lia.
  - rewrite dashes_app. simpl. lia.
Qed.

(** [strptime] accepts the text made of a year and a month only when they
    are a year and a month of the calendar. *)
Lemma strptime_accepts_valid year month r :
  strptime_Ymd decimal (year ++ "-" ++ month ++ "-01") = Ok r →
  valid_year_month decimal year month.
Proof.
  destruct r as [[y m] d]. intros (ys & ms & ds & Heq & Hys & Hms & Hds)%strptime_inv.
  pose proof (is_year_no_dash _ Hys) as Hys0.
  pose proof (months_no_dash _ Hms) as Hms0.
  pose proof (f_equal dashes Heq) as Hcount.
  rewrite !dashes_app in Hcount. simpl in Hcount. rewrite ?dashes_app in Hcount.
  simpl in Hcount.
  change (year ++ "-" ++ month ++ "-01")%string
    with (year ++ String "-" (month ++ "-01"))%string in Heq.
  change (ys ++ "-" ++ ms ++ "-" ++ ds)%string
    with (ys ++ String "-" (ms ++ String "-" ds))%string in Heq.
  apply split_at_dash in Heq as [-> Heq]; [|lia|done].
  change (month ++ "-01")%string with (month ++ String "-" "01")%string in Heq.
  apply split_at_dash in Heq as [-> _]; [|lia|done].
  by split.
Qed.

(** And it accepts every such year and month. *)
Lemma strptime_valid_accepted year month :
  valid_year_month decimal year month →
  ∃ y m, strptime_Ymd decimal (year ++ "-" ++ month ++ "-01") = Ok (y, m, 1).
Proof.
  intros [(a & b & c & d & Hys & Hne) Hm].
  assert (1 ≤ 1000 * a + 100 * b + 10 * c + d) as Hy.
  { destruct (decide (1000 * a + 100 * b + 10 * c + d = 0)) as [E|]; [|lia].
    assert (a = 0 ∧ b = 0 ∧ c = 0 ∧ d = 0) as (-> & -> & -> & ->) by lia.
    done. }
  unfold strptime_Ymd. rewrite (parse_Y_reads _ _ _ _ _ _ Hys).
  set (y := 1000 * a + 100 * b + 10 * c + d) in *.
  clearbody y. clear Hys Hne.
  apply list_elem_of_In in Hm. vm_compute in Hm.
  repeat destruct Hm as [<- | Hm]; try done;
    cbv beta iota zeta delta [String.append];
    with_strategy opaque [days_in_month] simpl;
    match goal with
    | |- context [days_in_month y ?m] =>
        pose proof (days_in_month_pos y m) as Hd';
        destruct (days_in_month y m); [lia|]
    end;
    (destruct y; [lia|]); simpl; eauto.
Qed.
End Digits.

(** ** The transaction history *)

Section Display.
Context (float_of_str : string → option float).
#[local] Abbreviation transaction_like' := (transaction_like float_of_str).

Lemma transaction_like_dated t : transaction_like' t → dated t.
Proof. intros (m & -> & Hd & _). by exists m. Qed.

Lemma map_each_ok {A B : Type} (f : A → result B) (P : A → B → Prop) l :
  Forall (λ x, ∃ y, f x = Ok y ∧ P x y) l →
  ∃ ys, Py.map_each f l = Ok ys ∧ Forall2 P l ys.
Proof.
  induction 1 as [|x l (y & Hy & HP) Hl (ys & Hys & HF)]; simpl.
  - by exists [].
  - exists (y :: ys). rewrite Hy, Hys. split; [done|]. by constructor.
Qed.

Lemma history_row_ok t :
  transaction_like' t →
  ∃ r, Money.history_row float_of_str t = Ok r
       ∧ Money.row_date r = PStr (date_of t).
Proof.
  intros (m & -> & Hd & [ty Hty] & Ha & Hc).
  unfold Money.history_row, date_of. simpl. rewrite Hty. simpl.
  destruct (m !! "amount") as [a|] eqn:Ea; simpl.
  - destruct (Ha a eq_refl) as [q ->]. simpl.
    destruct (m !! "category") as [c|] eqn:Ec; simpl;
      [destruct (Hc c eq_refl) as [s ->]|];
      (destruct (m !! "date") as [d|] eqn:Ed; simpl;
       [destruct (Hd d eq_refl) as [s' ->]|]); simpl; eauto.
  - destruct (m !! "category") as [c|] eqn:Ec; simpl;
      [destruct (Hc c eq_refl) as [s ->]|];
      (destruct (m !! "date") as [d|] eqn:Ed; simpl;
       [destruct (Hd d eq_refl) as [s' ->]|]); simpl; eauto.
Qed.

Lemma summary_row_ok t :
  transaction_like' t →
  ∃ r, Money.summary_row float_of_str t = Ok r
       ∧ Money.row_date r = PStr (date_of t).
Proof.
  intros (m & -> & Hd & [ty Hty] & Ha & Hc).
  unfold Money.summary_row, date_of. simpl. rewrite Hty. simpl.
  destruct (m !! "amount") as [a|] eqn:Ea; simpl.
  - destruct (Ha a eq_refl) as [q ->]. simpl.
    destruct (m !! "category") as [c|] eqn:Ec; simpl;
      [destruct (Hc c eq_refl) as [s ->]|];
      (destruct (m !! "date") as [d|] eqn:Ed; simpl;
       [destruct (Hd d eq_refl) as [s' ->]|]); simpl; eauto.
  - destruct (m !! "category") as [c|] eqn:Ec; simpl;
      [destruct (Hc c eq_refl) as [s ->]|];
      (destruct (m !! "date") as [d|] eqn:Ed; simpl;
       [destruct (Hd d eq_refl) as [s' ->]|]); simpl; eauto.
Qed.

(** C6, as the code has it: [list_transactions] of [money.py] shows the
    transactions of the ledger in ascending order of their date strings
    (the order of [str], character by character): the rows shown are those
    of a permutation of the ledger that is sorted by date, one row per
    transaction, each with the date of its transaction.  An empty ledger
    is reported as having no transactions. *)
Theorem list_transactions_sorted (w : world) m l :
  data w = PDict m →
  default (PList []) (m !! "transactions") = PList l →
  Forall transaction_like' l →
  match l with
  | [] => Money.list_transactions float_of_str w
          = Ok (w, [Money.NoTransactionsYet])
  | _ =>
      ∃ shown rows,
        Money.list_transactions float_of_str w = Ok (w, [Money.History rows])
        ∧ shown ≡ₚ l
        ∧ StronglySorted date_le shown
        ∧ Forall2 (λ t r, Money.history_row float_of_str t = Ok r
                          ∧ Money.row_date r = PStr (date_of t)) shown rows
  end.
Proof.
  intros Hw Hm Hl. unfold Money.list_transactions. rewrite Hw. simpl.
  rewrite Hm. destruct l as [|t l]; [done|].
  set (l' := t :: l) in *. simpl (Py.truthy _). cbn [negb mbind result_bind Py.iter].
  rewrite (sorted_by_date l')
    by (eapply Forall_impl; [exact Hl|apply transaction_like_dated]).
  cbn [mbind result_bind].
  set (shown := (Py.sort_keyed (zip (date_of <$> l') l')).*2).
  assert (shown ≡ₚ l') as Hperm by apply sorted_by_date_perm.
  destruct (map_each_ok (Money.history_row float_of_str)
              (λ t r, Money.history_row float_of_str t = Ok r
                      ∧ Money.row_date r = PStr (date_of t)) shown)
    as (rows & Hrows & HF).
  { rewrite Hperm. eapply Forall_impl; [exact Hl|]. intros x Hx.
    destruct (history_row_ok x Hx) as (r & Hr & Hd). eauto. }
  exists shown, rows. rewrite Hrows. cbn [mbind result_bind].
  repeat split; [done|apply sorted_by_date_sorted|done].
Qed.
End Display.

(** ** The monthly summary *)

Lemma ym_prefix_zero_padded year month :
  month ∈ months → Money.ym_prefix year month = zero_padded year month.
Proof.
  intros H%list_elem_of_In. vm_compute in H.
  repeat destruct H as [<- | H]; try done.
Qed.

Section Summary.
Context (float_of_str : string → option float).
Context (decimal : string → option nat).
#[local] Abbreviation amount_of' := (amount_of float_of_str).
#[local] Abbreviation transaction_like' := (transaction_like float_of_str).

Lemma summary_step_ok prefix inc exp counted t :
  transaction_like' t →
  Money.summary_step float_of_str prefix (inc, exp, counted) t
  = Ok (if in_month prefix t
        then (counted_in float_of_str "IN" inc t,
              counted_in float_of_str "OUT" exp t, counted ++ [t])
        else (inc, exp, counted)).
Proof.
  intros (m & -> & Hd & [ty Hty] & Ha & Hc).
  unfold Money.summary_step, in_month, date_of, counted_in, has_type, amount_of.
  simpl. rewrite Hty.
  assert (∃ d, default (PStr "") (m !! "date") = PStr d
               ∧ match m !! "date" with Some (PStr s) => s | _ => "" end = d)
    as (d & -> & ->).
  { destruct (m !! "date") as [v|] eqn:E; simpl; [|by eexists].
    destruct (Hd v eq_refl) as [s ->]. by eexists. }
  simpl. destruct (String.prefix prefix d); simpl; [|reflexivity].
  destruct (m !! "amount") as [a|] eqn:Ea; simpl.
  - destruct (Ha a eq_refl) as [q ->]. simpl.
    destruct (String.eqb ty "IN") eqn:Ein; [|by destruct (String.eqb ty "OUT")].
    apply String.eqb_eq in Ein. by subst.
  - destruct (String.eqb ty "IN") eqn:Ein; [|by destruct (String.eqb ty "OUT")].
    apply String.eqb_eq in Ein. by subst.
Qed.

Lemma summary_loop prefix l : ∀ inc exp counted,
  Forall transaction_like' l →
  for_each (Money.summary_step float_of_str prefix) l (inc, exp, counted)
  = Ok (fold_left (counted_in float_of_str "IN")
               (List.filter (in_month prefix) l) inc,
        fold_left (counted_in float_of_str "OUT")
               (List.filter (in_month prefix) l) exp,
        counted ++ List.filter (in_month prefix) l).
Proof.
  induction l as [|t l IH]; intros inc exp counted Hl.
  - simpl. by rewrite app_nil_r.
  - inversion Hl as [|? ? Ht Hl']; subst. cbn [for_each List.filter].
    rewrite (summary_step_ok _ _ _ _ _ Ht).
    destruct (in_month prefix t); cbn [mbind result_bind fold_left];
      rewrite IH by done; [|done].
    by rewrite <- app_assoc.
Qed.

Lemma strptime_raises_value_error s e :
  Datetime.strptime_Ymd decimal s = Raise e → e = ValueError.
Proof.
  unfold Datetime.strptime_Ymd.
  repeat match goal with
  | |- context [match ?x with _ => _ end] => destruct x
  end; congruence.
Qed.

(** The validation at the head of [monthly_summary]. *)
Lemma validation_accepts year month :
  valid_year_month decimal year month →
  try_except
    (_ ← Datetime.strptime_Ymd decimal (year ++ "-" ++ month ++ "-01"); Ok true)
    [ValueError] (Ok false) = Ok true.
Proof. intros (y & mo & ->)%strptime_valid_accepted. done. Qed.

Lemma validation_rejects year month :
  ¬ valid_year_month decimal year month →
  try_except
    (_ ← Datetime.strptime_Ymd decimal (year ++ "-" ++ month ++ "-01"); Ok true)
    [ValueError] (Ok false) = Ok false.
Proof.
  intros Hinv.
  destruct (Datetime.strptime_Ymd decimal (year ++ "-" ++ month ++ "-01")) as [r|e] eqn:E.
  - by apply strptime_accepts_valid in E.
  - apply strptime_raises_value_error in E as ->. done.
Qed.

Lemma filter_Forall {A} (P : A → Prop) (f : A → bool) l :
  Forall P l → Forall P (List.filter f l).
Proof.
  induction 1 as [|x l Hx Hl IH]; simpl; [done|].
  destruct (f x); [by constructor|done].
Qed.

(** C5, as the code has it: for a valid year and month,
    [monthly_summary] reports as income the amounts of the IN
    transactions, and as expense those of the OUT transactions, among the
    transactions whose date string starts with [YYYY-MM] (the month padded
    with a zero to two digits), each added up from 0.0 in the order of the
    ledger, every sum being the nearest float; as net the difference of
    the two, rounded once; and as count the number of those transactions.
    A transaction of another month is in none of them.  The program state
    it returns is the one it was given. *)
Theorem monthly_summary_totals (today_year today_month year month : string)
  (w : world) m l :
  let year' := if String.eqb year "" then today_year else year in
  let month' := if String.eqb month "" then today_month else month in
  let selected := List.filter (in_month (zero_padded year' month')) l in
  let income := fold_left (counted_in float_of_str "IN") selected 0%float in
  let expense := fold_left (counted_in float_of_str "OUT") selected 0%float in
  valid_year_month decimal year' month' →
  data w = PDict m →
  default (PList []) (m !! "transactions") = PList l →
  Forall transaction_like' l →
  ∃ details,
    Money.monthly_summary float_of_str decimal today_year today_month year
      month w
    = Ok (w, Money.Summary year' month' income expense
               (income - expense)%float (length selected) :: details).
Proof.
  intros year' month' selected income expense Hvalid Hw Hm Hl.
  unfold Money.monthly_summary. fold year' month'.
  rewrite (validation_accepts _ _ Hvalid). cbn [mbind result_bind negb].
  rewrite (ym_prefix_zero_padded year' month') by apply Hvalid.
  rewrite Hw. cbn [Py.get mbind result_bind]. rewrite Hm.
  cbn [Py.iter mbind result_bind].
  rewrite (summary_loop _ _ _ _ _ Hl). fold selected income expense.
  cbn [mbind result_bind app].
  assert (Forall transaction_like' selected) as Hsel by by apply filter_Forall.
  clearbody income expense.
  destruct selected as [|t sel'] eqn:Esel.
  - by exists [].
  - set (sel := t :: sel') in *.
    rewrite bool_decide_false by done. cbn [negb].
    rewrite (sorted_by_date sel)
      by (eapply Forall_impl; [exact Hsel|apply transaction_like_dated]).
    cbn [mbind result_bind].
    destruct (map_each_ok (Money.summary_row float_of_str) (λ _ _, True)
                (Py.sort_keyed (zip (date_of <$> sel) sel)).*2)
      as (rows & Hrows & _).
    { rewrite sorted_by_date_perm. eapply Forall_impl; [exact Hsel|].
      intros x Hx. destruct (summary_row_ok _ x Hx) as (r & Hr & _). eauto. }
    rewrite Hrows. cbn [mbind result_bind].
    by eexists.
Qed.

(** C7: a year and month that are not a year and a month of the calendar
    (four decimal digits, of any script, not all 0, and a month 1 to 12
    in one or two ASCII digits: what [strptime] reads as one) are answered
    with the report of an invalid year/month and nothing else: no total is
    computed, and the program state is returned as it was. *)
Theorem invalid_year_month_rejected (today_year today_month year month : string)
  (w : world) :
  let year' := if String.eqb year "" then today_year else year in
  let month' := if String.eqb month "" then today_month else month in
  ¬ valid_year_month decimal year' month' →
  Money.monthly_summary float_of_str decimal today_year today_month year month
    w
  = Ok (w, [Money.InvalidYearMonth]).
Proof.
  intros year' month' Hinv. unfold Money.monthly_summary. fold year' month'.
  by rewrite (validation_rejects _ _ Hinv).
Qed.
End Summary.

(** ** The properties on the example ledger *)

Lemma transaction_of_like float_of_str r :
  transaction_like float_of_str (transaction_of r).
Proof.
  destruct r as [a s d n|a c d n]; eexists; (split; [reflexivity|]);
    (split; [|split; [eexists; reflexivity|split]]);
    intros v Hv; vm_compute in Hv; injection Hv as <-; by eexists.
Qed.

Lemma example_transactions_like float_of_str :
  Forall (transaction_like float_of_str) (transaction_of <$> example_requests).
Proof. repeat constructor; apply transaction_of_like. Qed.

Lemma valid_2024_01 decimal : valid_year_month decimal "2024" "01".
Proof.
  split; [|in_list]. exists 2, 0, 2, 4. split; [|done].
  simpl. repeat (eexists; split; [reflexivity|]). done.
Qed.

Lemma invalid_2024_13 decimal : ¬ valid_year_month decimal "2024" "13".
Proof.
  intros [_ H%list_elem_of_In]. vm_compute in H.
  repeat destruct H as [H | H]; done.
Qed.

Lemma list_transactions_sorted_witness :
  ∃ shown rows,
    Money.list_transactions (λ _, None)
      (World (ledger 100 (transaction_of <$> example_requests)) Absent)
    = Ok (World (ledger 100 (transaction_of <$> example_requests)) Absent,
          [Money.History rows])
    ∧ shown ≡ₚ transaction_of <$> example_requests
    ∧ StronglySorted date_le shown
    ∧ Forall2 (λ t r, Money.history_row (λ _, None) t = Ok r
                      ∧ Money.row_date r = PStr (date_of t)) shown rows.
Proof.
  exact (list_transactions_sorted (λ _, None)
           (World (ledger 100 (transaction_of <$> example_requests)) Absent)
           {[ "starting_balance" := PFloat 100;
              "transactions" := PList (transaction_of <$> example_requests) ]}
           (transaction_of <$> example_requests)
           eq_refl eq_refl (example_transactions_like _)).
Defined.

Lemma monthly_summary_totals_witness :
  ∃ details,
    Money.monthly_summary (λ _, None) fullwidth "2025" "07" "2024" "01"
      (World (ledger 100 (transaction_of <$> example_requests)) Absent)
    = Ok (World (ledger 100 (transaction_of <$> example_requests)) Absent,
          Money.Summary "2024" "01"
            (fold_left (counted_in (λ _, None) "IN")
               (List.filter (in_month (zero_padded "2024" "01"))
                  (transaction_of <$> example_requests)) 0%float)
            (fold_left (counted_in (λ _, None) "OUT")
               (List.filter (in_month (zero_padded "2024" "01"))
                  (transaction_of <$> example_requests)) 0%float)
            (fold_left (counted_in (λ _, None) "IN")
               (List.filter (in_month (zero_padded "2024" "01"))
                  (transaction_of <$> example_requests)) 0
             - fold_left (counted_in (λ _, None) "OUT")
                 (List.filter (in_month (zero_padded "2024" "01"))
                    (transaction_of <$> example_requests)) 0)%float
            (length (List.filter (in_month (zero_padded "2024" "01"))
                       (transaction_of <$> example_requests))) :: details).
Proof.
  apply (monthly_summary_totals (λ _, None) fullwidth "2025" "07" "2024" "01"
           (World (ledger 100 (transaction_of <$> example_requests)) Absent)
           {[ "starting_balance" := PFloat 100;
              "transactions" := PList (transaction_of <$> example_requests) ]}
           (transaction_of <$> example_requests)).
  - apply valid_2024_01.
  - reflexivity.
  - reflexivity.
  - apply example_transactions_like.
Defined.

(** C5 does not hold as it is stated: of the three transactions IN 0.1,
    OUT 0.3 and IN 0.2 of one month, the income reported is not the sum of
    0.1 and 0.2 but the float nearest to it, and the net reported is not
    the balance of the three from a starting balance 0. *)
Lemma monthly_net_is_not_the_balance :
  (r ← Money.monthly_summary (λ _, None) (λ _, None) "2025" "07" "2024" "01"
         (World (ledger 0 (transaction_of <$> drift_requests)) Absent);
   Ok (head r.2))
  = Ok (Some (Money.Summary "2024" "01" 0.30000000000000004 0.3
                5.551115123125783e-17 3))
  ∧ List.filter (in_month (zero_padded "2024" "01"))
      (transaction_of <$> drift_requests)
    = transaction_of <$> drift_requests
  ∧ Money.calculate_balance (λ _, None)
      (ledger 0 (transaction_of <$> drift_requests))
    = Ok 2.7755575615628914e-17%float
  ∧ PrimFloat.eqb 5.551115123125783e-17 2.7755575615628914e-17 = false
  ∧ ¬ (real_of 0.30000000000000004 == total_in drift_requests)%Q.
Proof.
  split; [reflexivity|]. split; [reflexivity|]. split; [reflexivity|].
  split; [reflexivity|]. intros H. vm_compute in H. discriminate H.
Qed.

Lemma invalid_year_month_rejected_witness :
  Money.monthly_summary (λ _, None) fullwidth "2025" "07" "2024" "13"
    (World (ledger 100 (transaction_of <$> example_requests)) Absent)
  = Ok (World (ledger 100 (transaction_of <$> example_requests)) Absent,
        [Money.InvalidYearMonth]).
Proof.
  apply (invalid_year_month_rejected (λ _, None) fullwidth "2025" "07" "2024"
           "13"
           (World (ledger 100 (transaction_of <$> example_requests)) Absent)).
  apply invalid_2024_13.
Defined.

(** A year in full-width digits is a year of the calendar: [strptime]
    reads it, and the summary is computed, for the prefix as typed. *)
Example monthly_summary_fullwidth_year :
  Money.monthly_summary (λ _, None) fullwidth "2025" "07" "２０２４" "01"
    (World (ledger 100 (transaction_of <$> example_requests)) Absent)
  = Ok (World (ledger 100 (transaction_of <$> example_requests)) Absent,
        [Money.Summary "２０２４" "01" 0 0 (0 - 0) 0]).
Proof. reflexivity. Qed.

(** An empty month is taken from today's date, so an empty input is not by
    itself invalid. *)
Example monthly_summary_default_month :
  Money.monthly_summary (λ _, None) (λ _, None) "2025" "07" "2024" ""
    (World (ledger 100 (transaction_of <$> example_requests)) Absent)
  = Ok (World (ledger 100 (transaction_of <$> example_requests)) Absent,
        [Money.Summary "2024" "07" 0 0 (0 - 0) 0]).
Proof. reflexivity. Qed.

(** ** The table of [pp.py] *)

(** C6 does not hold of the table of [pp.py]: of two entries added in the
    order of their dates, the later one is shown first. *)
Lemma df_display_latest_first :
  Pp.df_display Pp.iso_datetime two_entries
  = Ok [ <["Date" := PInt 20240201]> entry_feb;
         <["Date" := PInt 20240105]> entry_jan ]
  ∧ String.ltb (date_cell entry_jan) (date_cell entry_feb) = true
  ∧ ¬ StronglySorted (λ a b, String.leb (date_cell a) (date_cell b) = true)
        [entry_feb; entry_jan].
Proof.
  split; [reflexivity|]. split; [reflexivity|].
  intros H. inversion H as [|? ? _ HF]. inversion HF as [|? ? Hle _].
  discriminate Hle.
Qed.

(** * Further properties of the code *)

(** ** [money.py]: the data file *)

Lemma load_data_json_dict_keys (m : gmap string pyval) :
  ∃ m', Money.load_data (Json (PDict m)) = Ok (PDict m', [])
    ∧ m' !! "starting_balance"
      = Some (default (PFloat 0) (m !! "starting_balance"))
    ∧ m' !! "transactions" = Some (default (PList []) (m !! "transactions"))
    ∧ ∀ k, k ≠ "starting_balance" → k ≠ "transactions" → m' !! k = m !! k.
Proof.
  rewrite load_data_json_dict. eexists. split; [reflexivity|].
  destruct (m !! "transactions") as [tx|] eqn:Etx,
    (m !! "starting_balance") as [sb|] eqn:Esb; simpl;
    repeat split; intros; by simplify_map_eq.
Qed.

(** X1: [load_data] of [money.py] on a data file that holds a JSON object
    returns that object, with ["starting_balance"] set to 0.0 and
    ["transactions"] to the empty list where the key is missing; the keys
    the file has, these two and any other, keep their values, and nothing
    is reported. *)
Theorem load_data_fills_defaults (m : gmap string pyval) :
  ∃ m', Money.load_data (Json (PDict m)) = Ok (PDict m', [])
    ∧ m' !! "starting_balance"
      = Some (default (PFloat 0) (m !! "starting_balance"))
    ∧ m' !! "transactions" = Some (default (PList []) (m !! "transactions"))
    ∧ ∀ k, k ≠ "starting_balance" → k ≠ "transactions" → m' !! k = m !! k.
Proof. apply load_data_json_dict_keys. Qed.

(** X2: the data files on which [load_data] of [money.py] raises: those
    from which reading raises an exception other than the two it catches
    (UnicodeDecodeError for a file that is not UTF-8, and what [json.load]
    raises besides JSONDecodeError, as ValueError for a number of too many
    digits or RecursionError), and those holding a JSON value that is not
    an object, unless it is a list or a string containing both key names.
    Every other file is loaded. *)
Theorem load_data_raises_iff (f : file) :
  (∃ e, Money.load_data f = Raise e)
  ↔ f = NotUtf8
    ∨ (∃ e, f = Fails e ∧ e ≠ JSONDecodeError ∧ e ≠ OSError)
    ∨ ∃ v, f = Json v ∧ (∀ m, v ≠ PDict m) ∧ names_both v = false.
Proof.
  split.
  - intros [e He]. destruct f as [| | | |e'|v];
      [by vm_compute in He|by vm_compute in He|by left|by vm_compute in He| |].
    { right; left. exists e'. split; [done|].
      rewrite load_data_fails in He.
      destruct (bool_decide (e' ∈ [JSONDecodeError; OSError])) eqn:E; [done|].
      apply bool_decide_eq_false in E.
      split; intros ->; apply E; in_list. }
    right; right.
    exists v. split; [done|]. split.
    + intros m ->. by rewrite load_data_json_dict in He.
    + destruct v as [| | | |s|l|m]; try done.
      * unfold Money.load_data in He. simpl in He. unfold names_both.
        destruct (Py.is_substring "starting_balance" s); [|done].
        simpl in *. destruct (Py.is_substring "transactions" s); done.
      * unfold Money.load_data in He. simpl in He. unfold names_both.
        destruct (existsb _ l); [|done]. simpl in *.
        destruct (existsb _ l); done.
  - intros [->|[(e & -> & H1 & H2)|(v & -> & Hv & Hn)]]; [by eexists| |].
    { exists e. rewrite load_data_fails. rewrite bool_decide_false; [done|].
      intros H%list_elem_of_In. simpl in H. naive_solver. }
    destruct v as [| | | |s|l|m]; try (by eexists).
    + unfold Money.load_data. simpl. unfold names_both in Hn.
      destruct (Py.is_substring "starting_balance" s); [|by eexists].
      simpl in *. rewrite Hn. by eexists.
    + unfold Money.load_data. simpl. unfold names_both in Hn.
      destruct (existsb _ l); [|by eexists].
      simpl in *. rewrite Hn. by eexists.
    + by destruct (Hv m).
Qed.

(** X3: whenever [load_data] of [money.py] returns a dictionary, it has
    both keys ["starting_balance"] and ["transactions"]. *)
Theorem load_data_dict_is_ledger (f : file) (m : gmap string pyval) out :
  Money.load_data f = Ok (PDict m, out) → ledger_shaped (PDict m).
Proof.
  intros H. destruct f as [| | | |e|v].
  - injection H as <- _. apply ledger_is_ledger_shaped.
  - injection H as <- _. apply ledger_is_ledger_shaped.
  - by vm_compute in H.
  - injection H as <- _. apply ledger_is_ledger_shaped.
  - rewrite load_data_fails in H.
    destruct (bool_decide (e ∈ [JSONDecodeError; OSError])); [|done].
    injection H as <- _. apply ledger_is_ledger_shaped.
  - destruct v as [| | | |s|l|m0]; try done.
    + unfold Money.load_data in H. simpl in H.
      destruct (Py.is_substring "starting_balance" s); [|done]. simpl in H.
      destruct (Py.is_substring "transactions" s); done.
    + unfold Money.load_data in H. simpl in H.
      destruct (existsb _ l); [|done]. simpl in H.
      destruct (existsb _ l); done.
    + destruct (load_data_json_dict_keys m0) as (m' & Hm' & Hsb & Htx & _).
      rewrite Hm' in H. injection H as <- _.
      exists m'. split; [done|]. by rewrite Hsb, Htx.
Qed.

Section MoneyState.
Context (float_of_str : string → option float).

(** X4: [set_starting_balance] reports the starting balance it found and
    the new one, replaces the value of ["starting_balance"] and nothing
    else, writes the new dictionary to the data file, and the balance is
    then the new starting balance with the amounts of the unchanged
    transactions added (IN) and subtracted (OUT) one after the other, in
    their order. *)
Theorem set_starting_balance_effect (new_balance : float) (w : world) m sb l :
  data w = PDict m →
  Py.float float_of_str (default (PFloat 0) (m !! "starting_balance")) = Ok sb →
  default (PList []) (m !! "transactions") = PList l →
  Forall (has_numeric_amount float_of_str) l →
  ∃ w',
    Money.set_starting_balance float_of_str new_balance w
    = Ok (w', [Money.CurrentStartingBalance sb;
               Money.StartingBalanceUpdated new_balance])
    ∧ data w' = PDict (<["starting_balance" := PFloat new_balance]> m)
    ∧ disk w' = Money.save_data (data w')
    ∧ Money.calculate_balance float_of_str (data w')
      = Ok (fold_left (λ b t, signed float_of_str t b) l new_balance).
Proof.
  intros Hw Hsb Hl Hnum. unfold Money.set_starting_balance. rewrite Hw.
  cbn [Py.get mbind result_bind]. rewrite Hsb. cbn [Py.setitem mbind result_bind].
  eexists. split; [reflexivity|]. split; [reflexivity|].
  split; [reflexivity|]. cbn [data].
  apply calculate_balance_fold; [by rewrite lookup_insert_eq| |done].
  by rewrite lookup_insert_ne.
Qed.

(** X5: one accepted income changes the balance that [calculate_balance]
    computes to the float nearest to the balance plus its amount, one
    accepted expense to the float nearest to the balance minus its amount,
    whatever the transactions already in the ledger. *)
Theorem append_moves_balance (r : Money.request) (w : world) m l b :
  data w = PDict m →
  m !! "transactions" = Some (PList l) →
  PrimFloat.leb (Money.request_amount r) 0 = false →
  Money.calculate_balance float_of_str (data w) = Ok b →
  ∃ w' out,
    Money.append r w = Ok (w', out)
    ∧ Money.calculate_balance float_of_str (data w')
      = Ok (match r with
            | Money.Income amount _ _ _ => b + amount
            | Money.Expense amount _ _ _ => b - amount
            end)%float.
Proof.
  intros Hw Hm Hpos Hb. destruct w as [d f]. simpl in Hw. subst d.
  destruct (append_ok r m l f Hpos Hm) as [out ->].
  do 2 eexists. split; [reflexivity|]. cbn [data] in *.
  unfold Money.calculate_balance in *. cbn [Py.get mbind result_bind] in *.
  rewrite (lookup_insert_ne _ "transactions" "starting_balance") by done.
  destruct (Py.float float_of_str (default (PFloat 0) (m !! "starting_balance")))
    as [sb|e]; cbn [mbind result_bind] in *; [|done].
  rewrite lookup_insert_eq. rewrite Hm in Hb.
  cbn [default id Py.iter mbind result_bind] in *.
  rewrite for_each_app, Hb. by destruct r.
Qed.

(** X6: the ledger is append-only under [add_income] and [add_expense]:
    after any run of accepted requests the transactions are the former
    ones, in their order, followed by one transaction per request in the
    order of the requests, and every other key of the dictionary is as it
    was. *)
Theorem appends_keep_history (rs : list Money.request) (w : world) m l :
  data w = PDict m →
  m !! "transactions" = Some (PList l) →
  Forall (λ r, PrimFloat.leb (Money.request_amount r) 0 = false) rs →
  ∃ w' m',
    Money.run rs w = Ok w'
    ∧ data w' = PDict m'
    ∧ m' !! "transactions" = Some (PList (l ++ (transaction_of <$> rs)))
    ∧ ∀ k, k ≠ "transactions" → m' !! k = m !! k.
Proof.
  intros Hw Hm Hpos. destruct w as [d f]. simpl in Hw. subst d.
  destruct (run_ok rs m l f Hpos Hm) as (w' & Hrun & Hw').
  exists w'. eexists. split; [done|]. split; [done|].
  split; [apply lookup_insert_eq|]. intros k Hk. by rewrite lookup_insert_ne.
Qed.

(** X7: after an accepted [add_income] or [add_expense], and after
    [set_starting_balance], the data file holds the state in memory:
    [load_data] on the file written returns the dictionary of the program,
    with no warning. *)
Theorem saved_state_reloads (w w' : world) out :
  ledger_shaped (data w) →
  (∃ r, PrimFloat.leb (Money.request_amount r) 0 = false
        ∧ Money.append r w = Ok (w', out))
  ∨ (∃ nb, Money.set_starting_balance float_of_str nb w = Ok (w', out)) →
  Money.load_data (disk w') = Ok (data w', []).
Proof.
  intros (m & Hw & Hsb & Htx) [(r & Hpos & Happ)|(nb & Hset)].
  - destruct w as [d f]. simpl in Hw. subst d.
    unfold Money.append, Money.add_income, Money.add_expense in Happ.
    destruct r as [a s dt n|a c dt n]; simpl in Hpos;
      rewrite Hpos in Happ;
      unfold Money.append_transaction in Happ; simpl in Happ;
      destruct Htx as [tx Htx]; rewrite Htx in Happ;
      (destruct tx; try done); simpl in Happ; injection Happ as <- _;
      apply load_saved; by simplify_map_eq.
  - unfold Money.set_starting_balance in Hset. rewrite Hw in Hset.
    cbn [Py.get mbind result_bind] in Hset.
    destruct (Py.float _ _); [|done]. simpl in Hset. injection Hset as <- _.
    apply load_saved; destruct Hsb, Htx; by simplify_map_eq.
Qed.
End MoneyState.

Section MoneyDisplay.
Context (float_of_str : string → option float).
#[local] Abbreviation transaction_like' := (transaction_like float_of_str).

(** X8: the sort of [list_transactions] is stable: the transactions of any
    one date are shown in the order in which the ledger holds them. *)
Theorem history_keeps_order_within_a_date (w : world) m t l :
  data w = PDict m →
  default (PList []) (m !! "transactions") = PList (t :: l) →
  Forall transaction_like' (t :: l) →
  ∃ shown rows,
    Money.list_transactions float_of_str w = Ok (w, [Money.History rows])
    ∧ Forall2 (λ t r, Money.history_row float_of_str t = Ok r
                      ∧ Money.row_date r = PStr (date_of t)) shown rows
    ∧ ∀ d, List.filter (λ t, String.eqb (date_of t) d) shown
           = List.filter (λ t, String.eqb (date_of t) d) (t :: l).
Proof.
  intros Hw Hm Hl. unfold Money.list_transactions. rewrite Hw.
  cbn [Py.get mbind result_bind]. rewrite Hm.
  set (l' := t :: l) in *. simpl (Py.truthy _).
  cbn [negb mbind result_bind Py.iter].
  rewrite (sorted_by_date l')
    by (eapply Forall_impl; [exact Hl|apply transaction_like_dated]).
  cbn [mbind result_bind].
  set (shown := (Py.sort_keyed (zip (date_of <$> l') l')).*2).
  destruct (map_each_ok (Money.history_row float_of_str)
              (λ t r, Money.history_row float_of_str t = Ok r
                      ∧ Money.row_date r = PStr (date_of t)) shown)
    as (rows & Hrows & HF).
  { unfold shown. rewrite sorted_by_date_perm.
    eapply Forall_impl; [exact Hl|]. intros x Hx.
    destruct (history_row_ok float_of_str x Hx) as (r & Hr & Hd). eauto. }
  exists shown, rows. rewrite Hrows. split; [done|]. split; [done|].
  intros d. apply sorted_by_date_stable.
Qed.

(** X9: a transaction whose type is neither "IN" nor "OUT" is shown by
    [list_transactions] as an expense (type OUT, sign -, with its amount),
    while [calculate_balance] leaves it out of the balance. *)
Theorem history_shows_unknown_type_as_expense (t : pyval) (sb : float) :
  transaction_like' t →
  has_type "IN" t = false → has_type "OUT" t = false →
  (∃ r, Money.history_row float_of_str t = Ok r
        ∧ Money.row_type r = PStr "OUT" ∧ Money.row_sign r = "-"
        ∧ Money.row_amount r = amount_of float_of_str t)
  ∧ Money.calculate_balance float_of_str (ledger sb [t]) = Ok sb.
Proof.
  intros Ht Hin Hout. split; [|unfold ledger;
    rewrite (calculate_balance_fold float_of_str _ sb [t]);
    [cbn; unfold signed; by rewrite Hin, Hout|done|done|
     constructor; [|done];
     destruct Ht as (m & -> & _ & _ & Ha & _); by exists m]].
  destruct Ht as (m & -> & Hd & [ty Hty] & Ha & Hc).
  unfold has_type in Hin, Hout. rewrite Hty in Hin, Hout. simpl in Hin, Hout.
  assert (∃ q, Py.float float_of_str (default (PFloat 0) (m !! "amount")) = Ok q
               ∧ amount_of float_of_str (PDict m) = q) as (q & Hq & Hq').
  { unfold amount_of. destruct (m !! "amount") as [a|] eqn:E; simpl.
    - destruct (Ha a eq_refl) as [q Hq]. exists q. by rewrite Hq.
    - by exists 0%float. }
  unfold Money.history_row. cbn [Py.get mbind result_bind].
  rewrite Hty, Hq, Hq'. cbn [default id Py.eq_str]. rewrite Hin.
  cbn [mbind result_bind].
  destruct (m !! "category") as [c|] eqn:Ec; simpl;
    [destruct (Hc c eq_refl) as [s ->]|];
    (destruct (m !! "date") as [d|] eqn:Ed; simpl;
     [destruct (Hd d eq_refl) as [s' ->]|]); simpl; eauto.
Qed.
End MoneyDisplay.

Section MoneySummary.
Context (float_of_str : string → option float).
Context (decimal : string → option nat).
#[local] Abbreviation transaction_like' := (transaction_like float_of_str).

(** What [monthly_summary] returns for a valid year and month. *)
Lemma monthly_summary_eval (today_year today_month year month : string)
  (w : world) m l :
  let year' := if String.eqb year "" then today_year else year in
  let month' := if String.eqb month "" then today_month else month in
  let selected := List.filter (in_month (zero_padded year' month')) l in
  let income := fold_left (counted_in float_of_str "IN") selected 0%float in
  let expense := fold_left (counted_in float_of_str "OUT") selected 0%float in
  let shown := (Py.sort_keyed (zip (date_of <$> selected) selected)).*2 in
  valid_year_month decimal year' month' →
  data w = PDict m →
  default (PList []) (m !! "transactions") = PList l →
  Forall transaction_like' l →
  ∃ rows,
    Forall2 (λ t r, Money.summary_row float_of_str t = Ok r
                    ∧ Money.row_date r = PStr (date_of t)) shown rows
    ∧ Money.monthly_summary float_of_str decimal today_year today_month year month w
      = Ok (w, Money.Summary year' month' income expense (income - expense)%float
                 (length selected)
               :: (if selected is [] then [] else [Money.Details rows])).
Proof.
  intros year' month' selected income expense shown Hvalid Hw Hm Hl.
  assert (Forall transaction_like' selected) as Hsel by by apply filter_Forall.
  destruct (map_each_ok (Money.summary_row float_of_str)
              (λ t r, Money.summary_row float_of_str t = Ok r
                      ∧ Money.row_date r = PStr (date_of t)) shown)
    as (rows & Hrows & HF).
  { unfold shown. rewrite sorted_by_date_perm.
    eapply Forall_impl; [exact Hsel|].
    intros x Hx. destruct (summary_row_ok _ x Hx) as (r & Hr & ?). eauto. }
  exists rows. split; [exact HF|].
  unfold Money.monthly_summary. fold year' month'.
  rewrite (validation_accepts _ _ _ Hvalid). cbn [mbind result_bind negb].
  rewrite (ym_prefix_zero_padded year' month') by apply Hvalid.
  rewrite Hw. cbn [Py.get mbind result_bind]. rewrite Hm.
  cbn [Py.iter mbind result_bind].
  rewrite (summary_loop _ _ _ _ _ _ Hl). fold selected.
  cbn [mbind result_bind app]. fold income expense.
  unfold shown in Hrows. clearbody income expense.
  destruct selected as [|t sel']; [done|].
  rewrite bool_decide_false by done. cbn [negb].
  rewrite (sorted_by_date (t :: sel'))
    by (eapply Forall_impl; [exact Hsel|apply transaction_like_dated]).
  cbn [mbind result_bind]. rewrite Hrows. done.
Qed.

(** X10: the table under Details of [monthly_summary] shows the
    transactions of the month, each once, in ascending order of their date
    strings; a month with no transaction gets the summary alone, with
    totals 0 and no table. *)
Theorem monthly_details_sorted (today_year today_month year month : string)
  (w : world) m l :
  let year' := if String.eqb year "" then today_year else year in
  let month' := if String.eqb month "" then today_month else month in
  let selected := List.filter (in_month (zero_padded year' month')) l in
  valid_year_month decimal year' month' →
  data w = PDict m →
  default (PList []) (m !! "transactions") = PList l →
  Forall transaction_like' l →
  match selected with
  | [] =>
      Money.monthly_summary float_of_str decimal today_year today_month year month w
      = Ok (w, [Money.Summary year' month' 0 0 (0 - 0) 0])
  | _ =>
      ∃ summary shown rows,
        Money.monthly_summary float_of_str decimal today_year today_month year month w
        = Ok (w, [summary; Money.Details rows])
        ∧ shown ≡ₚ selected
        ∧ StronglySorted date_le shown
        ∧ Forall2 (λ t r, Money.summary_row float_of_str t = Ok r
                          ∧ Money.row_date r = PStr (date_of t)) shown rows
  end.
Proof.
  intros year' month' selected Hvalid Hw Hm Hl.
  destruct (monthly_summary_eval today_year today_month year month w m l
              Hvalid Hw Hm Hl) as (rows & HF & Heq).
  fold year' month' selected in Heq, HF. rewrite Heq.
  destruct selected as [|t sel'] eqn:Esel; [done|].
  eexists _, _, rows. split; [reflexivity|].
  split; [apply sorted_by_date_perm|]. split; [apply sorted_by_date_sorted|done].
Qed.

Lemma rendering_unique {A B : Type} (f : A → result B) (P : A → B → Prop)
  l rows rows' :
  Forall2 (λ t r, f t = Ok r ∧ P t r) l rows →
  Forall2 (λ t r, f t = Ok r ∧ P t r) l rows' → rows = rows'.
Proof.
  intros HF. revert rows'.
  induction HF as [|t r ts rs [Hr _] HF IH]; intros rows' HF';
    inversion HF' as [|? r' ? rs' [Hr' _] HF'']; subst; [done|].
  rewrite Hr in Hr'. injection Hr' as <-. f_equal. by apply IH.
Qed.

Lemma prefix_of_empty year month :
  String.prefix (zero_padded year month) "" = false.
Proof. unfold zero_padded. by destruct year. Qed.

(** A transaction that the month does not select changes nothing to its
    summary. *)
Lemma monthly_summary_skips (today_year today_month year month : string)
  (w : world) m l t :
  let year' := if String.eqb year "" then today_year else year in
  let month' := if String.eqb month "" then today_month else month in
  let w' := World (PDict (<["transactions" := PList (l ++ [t])]> m)) (disk w) in
  valid_year_month decimal year' month' →
  data w = PDict m →
  default (PList []) (m !! "transactions") = PList l →
  Forall transaction_like' l →
  transaction_like' t →
  in_month (zero_padded year' month') t = false →
  ∃ out,
    Money.monthly_summary float_of_str decimal today_year today_month year month w
    = Ok (w, out)
    ∧ Money.monthly_summary float_of_str decimal today_year today_month year month w'
      = Ok (w', out).
Proof.
  intros year' month' w' Hvalid Hw Hm Hl Ht Hdate.
  destruct (monthly_summary_eval today_year today_month year month
              w m l Hvalid Hw Hm Hl) as (rows & HF & Heq).
  destruct (monthly_summary_eval today_year today_month year month
              w' (<["transactions" := PList (l ++ [t])]> m)
              (l ++ [t]) Hvalid eq_refl)
    as (rows' & HF' & Heq');
    [by rewrite lookup_insert_eq|apply Forall_app; by repeat constructor|].
  fold year' month' in Heq, Heq', HF, HF'.
  assert (List.filter (in_month (zero_padded year' month')) (l ++ [t])
          = List.filter (in_month (zero_padded year' month')) l) as Hsel.
  { rewrite List.filter_app. cbn [List.filter]. rewrite Hdate. apply app_nil_r. }
  rewrite Hsel in Heq', HF'.
  rewrite (rendering_unique _ _ _ _ _ HF' HF) in Heq'.
  eexists. split; [exact Heq|exact Heq'].
Qed.

(** X11: a transaction without a date belongs to no month: adding one to
    the ledger changes the report of [monthly_summary] for no valid year
    and month. *)
Theorem undated_transaction_in_no_month
  (today_year today_month year month : string) (w : world) m l mt :
  let year' := if String.eqb year "" then today_year else year in
  let month' := if String.eqb month "" then today_month else month in
  let w' := World (PDict (<["transactions" := PList (l ++ [PDict mt])]> m))
              (disk w) in
  valid_year_month decimal year' month' →
  data w = PDict m →
  default (PList []) (m !! "transactions") = PList l →
  Forall transaction_like' l →
  transaction_like' (PDict mt) → mt !! "date" = None →
  ∃ out,
    Money.monthly_summary float_of_str decimal today_year today_month year month w
    = Ok (w, out)
    ∧ Money.monthly_summary float_of_str decimal today_year today_month year month w'
      = Ok (w', out).
Proof.
  intros year' month' w' Hvalid Hw Hm Hl Ht Hdate.
  apply monthly_summary_skips; try done.
  unfold in_month, date_of. rewrite Hdate. apply prefix_of_empty.
Qed.

(** X12: a transaction of the month whose type is neither "IN" nor "OUT"
    adds one to the number of transactions of [monthly_summary] and nothing
    to the income, the expense and the net change. *)
Theorem unknown_type_is_counted_not_totalled
  (today_year today_month year month : string) (w : world) m l t :
  let year' := if String.eqb year "" then today_year else year in
  let month' := if String.eqb month "" then today_month else month in
  let w' := World (PDict (<["transactions" := PList (l ++ [t])]> m)) (disk w) in
  valid_year_month decimal year' month' →
  data w = PDict m →
  default (PList []) (m !! "transactions") = PList l →
  Forall transaction_like' l →
  transaction_like' t →
  in_month (zero_padded year' month') t = true →
  has_type "IN" t = false → has_type "OUT" t = false →
  ∃ income expense count details details',
    Money.monthly_summary float_of_str decimal today_year today_month year month w
    = Ok (w, Money.Summary year' month' income expense (income - expense)%float
               count :: details)
    ∧ Money.monthly_summary float_of_str decimal today_year today_month year month w'
      = Ok (w', Money.Summary year' month' income expense (income - expense)%float
                  (S count) :: details').
Proof.
  intros year' month' w' Hvalid Hw Hm Hl Ht Hin Hti Hto.
  destruct (monthly_summary_eval today_year today_month year month w m l
              Hvalid Hw Hm Hl) as (rows & HF & Heq).
  destruct (monthly_summary_eval today_year today_month year month w'
              (<["transactions" := PList (l ++ [t])]> m)
              (l ++ [t]) Hvalid eq_refl)
    as (rows' & HF' & Heq');
    [by rewrite lookup_insert_eq|apply Forall_app; by repeat constructor|].
  fold year' month' in Heq, Heq', HF, HF'.
  assert (List.filter (in_month (zero_padded year' month')) (l ++ [t])
          = List.filter (in_month (zero_padded year' month')) l ++ [t]) as Hsel.
  { rewrite List.filter_app. cbn [List.filter]. by rewrite Hin. }
  rewrite Hsel in Heq'. clear HF' Hsel.
  rewrite !fold_left_app, length_app in Heq'.
  cbn [fold_left length] in Heq'.
  assert (∀ ty total, has_type ty t = false →
            counted_in float_of_str ty total t = total) as Hskip.
  { intros ty total H. unfold counted_in. by rewrite H. }
  rewrite !Hskip, Nat.add_1_r in Heq' by done.
  do 5 eexists. split; [exact Heq|exact Heq'].
Qed.
End MoneySummary.

Section MoneyValidation.
Context (float_of_str : string → option float).
Context (decimal : string → option nat).

(** Past the validation, [monthly_summary] raises or reports a summary. *)
Lemma monthly_summary_valid_shape (today_year today_month year month : string)
  (w : world) :
  let year' := if String.eqb year "" then today_year else year in
  let month' := if String.eqb month "" then today_month else month in
  valid_year_month decimal year' month' →
  match Money.monthly_summary float_of_str decimal today_year today_month year month w
  with
  | Ok (w', Money.Summary _ _ _ _ _ _ :: _) => w' = w
  | Ok _ => False
  | Raise _ => True
  end.
Proof.
  intros year' month' Hvalid. unfold Money.monthly_summary. fold year' month'.
  rewrite (validation_accepts _ _ _ Hvalid). cbn [mbind result_bind negb].
  destruct (Py.get (data w) "transactions" (PList [])) as [txs|]; [|done].
  cbn [mbind result_bind]. destruct (Py.iter txs) as [l|]; [|done].
  cbn [mbind result_bind].
  destruct (for_each _ l _) as [[[i e] c]|]; [|done]. cbn [mbind result_bind].
  destruct (negb (bool_decide (c = []))); [|done].
  destruct (Py.sorted Money.date_key c) as [shown|]; [|done].
  cbn [mbind result_bind].
  by destruct (Py.map_each (Money.summary_row float_of_str) shown).
Qed.

(** X13: [monthly_summary] answers with the report of an invalid year or
    month, and that alone, exactly when the year (the current one when
    left empty) is not four decimal digits, of any script, that are not
    all 0, or the month (the current one when left empty) is not one of 1
    to 12 written in one or two ASCII digits. *)
Theorem invalid_report_iff (today_year today_month year month : string)
  (w : world) :
  let year' := if String.eqb year "" then today_year else year in
  let month' := if String.eqb month "" then today_month else month in
  Money.monthly_summary float_of_str decimal today_year today_month year month w
  = Ok (w, [Money.InvalidYearMonth])
  ↔ ¬ valid_year_month decimal year' month'.
Proof.
  intros year' month'. split.
  - intros H Hvalid.
    pose proof (monthly_summary_valid_shape today_year today_month year month
                  w Hvalid) as Hs.
    by rewrite H in Hs.
  - intros Hinv. unfold Money.monthly_summary. fold year' month'.
    by rewrite (validation_rejects _ _ _ Hinv).
Qed.

Lemma month_digit_padded d :
  String d "" ∈ months ↔ String "0" (String d "") ∈ months.
Proof.
  split; intros H%list_elem_of_In; vm_compute in H;
    repeat destruct H as [H | H]; try done;
    injection H as <-; in_list.
Qed.

Lemma validation_padded year d :
  try_except
    (_ ← Datetime.strptime_Ymd decimal (year ++ "-" ++ String d "" ++ "-01"); Ok true)
    [ValueError] (Ok false)
  = try_except
      (_ ← Datetime.strptime_Ymd decimal
             (year ++ "-" ++ String "0" (String d "") ++ "-01"); Ok true)
      [ValueError] (Ok false).
Proof.
  destruct (Datetime.strptime_Ymd decimal (year ++ "-" ++ String d "" ++ "-01"))
    as [r|e] eqn:E.
  - apply strptime_accepts_valid in E as [Hy Hm].
    symmetry. apply validation_accepts. split; [done|].
    by apply month_digit_padded.
  - pose proof (strptime_raises_value_error _ _ _ E) as ->.
    symmetry. apply validation_rejects. intros [Hy Hm].
    apply month_digit_padded in Hm.
    destruct (strptime_valid_accepted decimal year (String d "")) as (y & mo & E');
      [by split|]. by rewrite E' in E.
Qed.

(** X14: a month entered as one digit and the same month entered with a
    leading zero give the same report of [monthly_summary], up to the
    month shown in the heading: the same state, totals, count and table,
    or the same exception. *)
Theorem month_with_or_without_zero (today_year today_month year : string)
  (d : ascii) (w : world) :
  match
    Money.monthly_summary float_of_str decimal today_year today_month year
      (String d "") w,
    Money.monthly_summary float_of_str decimal today_year today_month year
      (String "0" (String d "")) w
  with
  | Ok (w1, out1), Ok (w2, out2) =>
      w1 = w2 ∧ forget_month out1 = forget_month out2
  | Raise e1, Raise e2 => e1 = e2
  | _, _ => False
  end.
Proof.
  unfold Money.monthly_summary. cbn [String.eqb].
  set (year' := if String.eqb year "" then today_year else year).
  rewrite <- validation_padded.
  destruct (try_except _ _ _) as [[|]|e]; cbn [mbind result_bind negb];
    [|done|done].
  replace (Money.ym_prefix year' (String "0" (String d "")))
    with (Money.ym_prefix year' (String d "")) by done.
  destruct (Py.get (data w) "transactions" (PList [])) as [txs|]; [|done].
  cbn [mbind result_bind]. destruct (Py.iter txs) as [l|]; [|done].
  cbn [mbind result_bind].
  destruct (for_each _ l _) as [[[i e] c]|]; [|done]. cbn [mbind result_bind].
  destruct (negb (bool_decide (c = []))); [|done].
  destruct (Py.sorted Money.date_key c) as [shown|]; [|done].
  cbn [mbind result_bind].
  by destruct (Py.map_each (Money.summary_row float_of_str) shown).
Qed.
End MoneyValidation.

(** ** The console *)

Section ConsoleRules.
Context {line : Type}.
Import Console.

Lemma wp_bind {A B : Type} (m : console line A) (k : A → console line B) Q E
  lines :
  wp m (λ o1 a rest,
          wp (k a) (λ o2 b rest', Q (o1 ++ o2) b rest') (λ o2, E (o1 ++ o2)) rest)
    E lines →
  wp (x ⇐ m; k x) Q E lines.
Proof.
  unfold wp, bind. destruct (m lines) as [o1 [[a rest]|e|]]; [|done|done].
  by destruct (k a rest) as [o2 [[b rest']|e|]].
Qed.

Lemma wp_ret {A : Type} (a : A) (Q : list line → A → list string → Prop) E
  lines :
  Q [] a lines → wp (ret a) Q E lines.
Proof. done. Qed.

Lemma wp_print (l : line) (Q : list line → unit → list string → Prop) E
  lines :
  Q [l] tt lines → wp (print l) Q E lines.
Proof. done. Qed.

Lemma wp_print_all (ls : list line)
  (Q : list line → unit → list string → Prop) E lines :
  Q ls tt lines → wp (print_all ls) Q E lines.
Proof. done. Qed.

Lemma wp_input (Q : list line → string → list string → Prop)
  (E : list line → Prop) lines :
  E [] → (∀ l rest, lines = l :: rest → Q [] l rest) → wp input Q E lines.
Proof. intros HE H. destruct lines as [|l rest]; [done|]. by apply H. Qed.

Lemma wp_unread (Q : list line → nat → list string → Prop) E lines :
  Q [] (length lines) lines → wp unread Q E lines.
Proof. done. Qed.

Lemma wp_lift {A : Type} (r : result A) (a : A)
  (Q : list line → A → list string → Prop) E lines :
  r = Ok a → Q [] a lines → wp (lift r) Q E lines.
Proof. by intros ->. Qed.

Lemma wp_mono {A : Type} (m : console line A)
  (Q Q' : list line → A → list string → Prop) (E E' : list line → Prop)
  lines :
  (∀ out a rest, Q out a rest → Q' out a rest) → (∀ out, E out → E' out) →
  wp m Q E lines → wp m Q' E' lines.
Proof.
  intros H HE. unfold wp. destruct (m lines) as [out [[a rest]|e|]]; [|done|].
  - apply H.
  - apply HE.
Qed.
End ConsoleRules.

(** ** [money.py] at the console *)

Lemma confirmations_app o1 o2 :
  confirmations (o1 ++ o2) = confirmations o1 + confirmations o2.
Proof. unfold confirmations. by rewrite List.filter_app, length_app. Qed.

Lemma confirmations_replicate n l :
  is_confirmation l = false → confirmations (replicate n l) = 0.
Proof.
  intros Hl. induction n as [|n IH]; [done|].
  unfold confirmations in *. simpl. by rewrite Hl.
Qed.

Lemma confirmations_reports (out : list Money.message) :
  confirmations (MoneyConsole.Report <$> out)
  = length (List.filter (λ msg, match msg with
                                | Money.IncomeAdded _ | Money.ExpenseAdded _ => true
                                | _ => false
                                end) out).
Proof.
  unfold confirmations. induction out as [|msg out IH]; [done|].
  cbn [fmap list_fmap List.filter]. fold (fmap (M := list) MoneyConsole.Report out).
  destruct msg; cbn [is_confirmation length]; by rewrite IH.
Qed.

Section MoneyRuns.
Context (float_of_str : string → option float).
Context (decimal : string → option nat).
Context (clock : nat → string * string * string).
Import Console.
#[local] Abbreviation input_float := (MoneyConsole.input_float float_of_str).
#[local] Abbreviation input_date := (MoneyConsole.input_date decimal clock).
#[local] Abbreviation well_formed' := (well_formed float_of_str).
#[local] Abbreviation effect' := (effect float_of_str).

(** *** The prompts *)

(** [input_float] skips the lines that are no numbers. *)
Lemma input_float_eval bad :
  Forall (λ s, float_of_str s = None) bad →
  input_float bad = (replicate (length bad) MoneyConsole.InvalidNumber, EndOfInput)
  ∧ ∀ value q rest, float_of_str value = Some q →
      input_float (bad ++ value :: rest)
      = (replicate (length bad) MoneyConsole.InvalidNumber, Returns (q, rest)).
Proof.
  induction 1 as [|s bad Hs Hbad [IH1 IH2]]; simpl.
  - split; [done|]. by intros value q rest ->.
  - rewrite Hs, IH1. split; [done|]. intros value q rest Hv.
    by rewrite (IH2 value q rest Hv).
Qed.

Lemma input_float_split lines :
  ∃ bad rest, lines = bad ++ rest
    ∧ Forall (λ s, float_of_str s = None) bad
    ∧ match rest with
      | [] => True
      | value :: _ => is_Some (float_of_str value)
      end.
Proof.
  induction lines as [|s lines (bad & rest & -> & Hbad & Hrest)].
  - by exists [], [].
  - destruct (float_of_str s) as [q|] eqn:Hs.
    + exists [], (s :: bad ++ rest). by rewrite Hs.
    + exists (s :: bad), rest. split; [done|]. split; [|done]. by constructor.
Qed.

Lemma wp_input_float (Q : list MoneyConsole.line → float → list string → Prop)
  (E : list MoneyConsole.line → Prop) lines :
  (∀ out, confirmations out = 0 → E out) →
  (∀ out q rest, confirmations out = 0 → length rest < length lines →
                 Q out q rest) →
  wp input_float Q E lines.
Proof.
  intros HE HQ. destruct (input_float_split lines) as (bad & rest & -> & Hbad & Hrest).
  destruct (input_float_eval bad Hbad) as [He Hr]. unfold wp.
  destruct rest as [|value rest].
  - rewrite app_nil_r, He. by apply HE, confirmations_replicate.
  - destruct Hrest as [q Hq]. rewrite (Hr value q rest Hq). apply HQ.
    + by apply confirmations_replicate.
    + rewrite length_app. simpl. lia.
Qed.

(** [input_date] skips the lines that are no dates. *)
Lemma input_date_eval bad :
  Forall (λ s, s ≠ "" ∧ Datetime.strptime_Ymd decimal s = Raise ValueError) bad →
  input_date bad
  = (replicate (length bad) MoneyConsole.InvalidDateFormat, EndOfInput)
  ∧ ∀ value rest,
      input_date (bad ++ value :: rest)
      = (replicate (length bad) MoneyConsole.InvalidDateFormat,
         Returns (if String.eqb value "" then
                    let '(year, month, day) := clock (length rest) in
                    (year ++ "-" ++ month ++ "-" ++ day)%string
                  else
                    match Datetime.strptime_Ymd decimal value with
                    | Ok _ => value
                    | Raise _ => ""
                    end, rest))
        ∨ value ≠ "" ∧ Datetime.strptime_Ymd decimal value = Raise ValueError.
Proof.
  induction 1 as [|s bad [Hs Hr] Hbad [IH1 IH2]]; simpl.
  - split; [done|]. intros value rest.
    destruct (String.eqb_spec value "") as [->|Hne].
    + left. by destruct (clock (length rest)) as [[y m] d].
    + destruct (Datetime.strptime_Ymd decimal value) as [ymd|e] eqn:E; [by left|].
      pose proof (strptime_raises_value_error _ _ _ E) as ->. by right.
  - apply String.eqb_neq in Hs. rewrite Hs, Hr, IH1. split; [done|].
    intros value rest. destruct (IH2 value rest) as [->|?]; [by left|by right].
Qed.

Lemma input_date_split lines :
  ∃ bad rest, lines = bad ++ rest
    ∧ Forall (λ s, s ≠ "" ∧ Datetime.strptime_Ymd decimal s = Raise ValueError) bad
    ∧ match rest with
      | [] => True
      | value :: _ => value = "" ∨ ∃ ymd, Datetime.strptime_Ymd decimal value = Ok ymd
      end.
Proof.
  induction lines as [|s lines (bad & rest & -> & Hbad & Hrest)].
  - by exists [], [].
  - destruct (String.eqb_spec s "") as [->|Hne].
    { exists [], ("" :: bad ++ rest). split; [done|]. split; [done|]. by left. }
    destruct (Datetime.strptime_Ymd decimal s) as [ymd|e] eqn:Hs.
    + exists [], (s :: bad ++ rest). split; [done|]. split; [done|]. right. eauto.
    + exists (s :: bad), rest. split; [done|]. split; [|done]. constructor; [|done].
      by pose proof (strptime_raises_value_error _ _ _ Hs) as ->.
Qed.

Lemma wp_input_date (Q : list MoneyConsole.line → string → list string → Prop)
  (E : list MoneyConsole.line → Prop) lines :
  (∀ out, confirmations out = 0 → E out) →
  (∀ out d rest, confirmations out = 0 → length rest < length lines →
                 Q out d rest) →
  wp input_date Q E lines.
Proof.
  intros HE HQ. destruct (input_date_split lines) as (bad & rest & -> & Hbad & Hrest).
  destruct (input_date_eval bad Hbad) as [He Hr]. unfold wp.
  destruct rest as [|value rest].
  - rewrite app_nil_r, He. by apply HE, confirmations_replicate.
  - destruct (Hr value rest) as [->|[Hne Hv]].
    + apply HQ; [by apply confirmations_replicate|].
      rewrite length_app. simpl. lia.
    + destruct Hrest as [->|[ymd Hymd]]; [done|]. by rewrite Hymd in Hv.
Qed.
End MoneyRuns.

(** No confirmation among lines that are given in full, or known to hold
    none. *)
Ltac quiet := rewrite ?confirmations_app; cbn; lia.

Ltac wp_step :=
  first
    [ apply wp_bind
    | apply wp_print
    | apply wp_print_all
    | apply wp_ret
    | apply wp_unread
    | match goal with
      | H : ∀ n, ?w n = true
        |- wp (Console.lift (if ?w _ then _ else _)) _ _ _ =>
          rewrite H; apply wp_ret
      end
    | apply wp_input; [quiet|intros ? ? ->]
    | apply wp_input_float; [intros ? ?; quiet|intros ? ? ? ? ?]
    | apply wp_input_date; [intros ? ?; quiet|intros ? ? ? ? ?] ].

Section MoneyActions.
Context (float_of_str : string → option float).
Context (decimal : string → option nat).
Context (clock : nat → string * string * string).
Context (writable : nat → bool).
(** Every write of the data file succeeds. *)
Hypothesis always_writable : ∀ n, writable n = true.
Import Console.
#[local] Abbreviation well_formed' := (well_formed float_of_str).
#[local] Abbreviation effect' := (effect float_of_str).

(** *** The actions on a well-formed ledger *)

Lemma effect_refl w out :
  well_formed' (data w) → confirmations out = 0 → effect' w out w.
Proof.
  intros Hw Hout. split; [done|]. split; [by left|].
  exists []. by rewrite app_nil_r, Hout.
Qed.

Lemma transaction_like_numeric t :
  transaction_like float_of_str t → has_numeric_amount float_of_str t.
Proof. intros (m & -> & _ & _ & Ha & _). by exists m. Qed.

Lemma append_eval r w :
  well_formed' (data w) → PrimFloat.leb (Money.request_amount r) 0 = false →
  ∃ w', Money.append r w
        = Ok (w', [match r with
                   | Money.Income amount _ _ _ => Money.IncomeAdded amount
                   | Money.Expense amount _ _ _ => Money.ExpenseAdded amount
                   end])
    ∧ well_formed' (data w')
    ∧ disk w' = Money.save_data (data w')
    ∧ transactions_of (data w') = transactions_of (data w) ++ [transaction_of r].
Proof.
  intros (m & sb & l & Hw & Hsb & Hq & Hl & Hlike) Hpos.
  destruct w as [d f]. simpl in Hw. subst d.
  exists (World (PDict (<["transactions" := PList (l ++ [transaction_of r])]> m))
            (Money.save_data
               (PDict (<["transactions" := PList (l ++ [transaction_of r])]> m)))).
  split.
  { destruct r as [a s dt n|a c dt n]; simpl in *;
      unfold Money.add_income, Money.add_expense;
      rewrite Hpos;
      unfold Money.append_transaction; simpl; rewrite Hl; reflexivity. }
  cbn [data disk]. split; [|split; [done|]].
  - exists (<["transactions" := PList (l ++ [transaction_of r])]> m), sb,
      (l ++ [transaction_of r]).
    split; [by destruct r|]. rewrite lookup_insert_ne by done.
    rewrite lookup_insert_eq. repeat split; try done.
    apply Forall_app. split; [done|]. repeat constructor.
    apply transaction_of_like.
  - unfold transactions_of. rewrite Hl.
    destruct r; by rewrite lookup_insert_eq.
Qed.

Lemma calculate_balance_ok d :
  well_formed' d → ∃ b, Money.calculate_balance float_of_str d = Ok b.
Proof.
  intros (m & sb & l & -> & Hsb & [q Hq] & Hl & Hlike). eexists.
  apply (calculate_balance_fold float_of_str m q l).
  - by rewrite Hsb.
  - by rewrite Hl.
  - eapply Forall_impl; [exact Hlike|]. apply transaction_like_numeric.
Qed.

Lemma list_transactions_ok w :
  well_formed' (data w) →
  ∃ out, Money.list_transactions float_of_str w = Ok (w, out)
         ∧ confirmations (MoneyConsole.Report <$> out) = 0.
Proof.
  intros (m & sb & l & Hw & Hsb & Hq & Hl & Hlike).
  unfold Money.list_transactions. rewrite Hw. cbn [Py.get mbind result_bind].
  rewrite Hl. destruct l as [|t l]; [by eexists|].
  set (l' := t :: l) in *. simpl (Py.truthy _).
  cbn [default id negb mbind result_bind Py.iter].
  rewrite (sorted_by_date l')
    by (eapply Forall_impl; [exact Hlike|apply transaction_like_dated]).
  cbn [mbind result_bind].
  destruct (map_each_ok (Money.history_row float_of_str) (λ _ _, True)
              (Py.sort_keyed (zip (date_of <$> l') l')).*2)
    as (rows & -> & _); [|by eexists].
  rewrite sorted_by_date_perm. eapply Forall_impl; [exact Hlike|].
  intros x Hx. destruct (history_row_ok float_of_str x Hx) as (r & Hr & _). eauto.
Qed.

Lemma monthly_summary_ok today_year today_month year month w :
  well_formed' (data w) →
  ∃ out,
    Money.monthly_summary float_of_str decimal today_year today_month year
      month w
    = Ok (w, out)
    ∧ confirmations (MoneyConsole.Report <$> out) = 0.
Proof.
  intros (m & sb & l & Hw & Hsb & Hq & Hl & Hlike).
  set (year' := if String.eqb year "" then today_year else year).
  set (month' := if String.eqb month "" then today_month else month).
  destruct (Datetime.strptime_Ymd decimal (year' ++ "-" ++ month' ++ "-01"))
    as [ymd|e] eqn:E.
  - apply strptime_accepts_valid in E.
    destruct (monthly_summary_eval float_of_str decimal today_year today_month year
                month w m l E Hw) as (rows & _ & ->); [by rewrite Hl|done|].
    eexists. split; [done|]. rewrite confirmations_reports.
    by destruct (List.filter _ l).
  - exists [Money.InvalidYearMonth]. split; [|done].
    unfold Money.monthly_summary. fold year' month'. rewrite E.
    by rewrite (strptime_raises_value_error _ _ _ E).
Qed.

Lemma set_starting_balance_wp w lines :
  well_formed' (data w) →
  wp (MoneyConsole.set_starting_balance float_of_str writable w)
    (λ out w' rest, length rest ≤ length lines ∧ effect' w out w')
    (λ out, confirmations out = 0) lines.
Proof.
  intros Hwf. pose proof Hwf as (m & sb & l & Hw & Hsb & [q Hq] & Hl & Hlike).
  unfold MoneyConsole.set_starting_balance, MoneyConsole.print_header,
    MoneyConsole.open_for_writing.
  rewrite Hw. cbn [Py.get Py.setitem]. rewrite Hsb. cbn [default id].
  repeat wp_step. eapply wp_lift; [exact Hq|]. repeat wp_step.
  split; [lia|]. split; [|split; [by right|]].
  - exists (<["starting_balance" := PFloat q0]> m), (PFloat q0), l.
    split; [done|]. rewrite lookup_insert_eq.
    rewrite lookup_insert_ne by done. repeat split; eauto.
  - exists []. rewrite app_nil_r. cbn [data]. rewrite Hw.
    unfold transactions_of. rewrite lookup_insert_ne by done.
    split; [done|]. split; [|done].
    rewrite !confirmations_app. cbn. lia.
Qed.

Lemma add_income_wp w lines :
  well_formed' (data w) →
  wp (MoneyConsole.add_income float_of_str decimal clock writable w)
    (λ out w' rest, length rest ≤ length lines ∧ effect' w out w')
    (λ out, confirmations out = 0) lines.
Proof.
  intros Hwf. unfold MoneyConsole.add_income, MoneyConsole.print_header,
    MoneyConsole.open_for_writing.
  repeat wp_step.
  match goal with |- context [PrimFloat.leb ?x 0] => rename x into q end.
  destruct (PrimFloat.leb q 0) eqn:Hq.
  - repeat wp_step. split; [lia|]. apply effect_refl; [done|].
    rewrite !confirmations_app. cbn. lia.
  - repeat wp_step.
    destruct (append_eval (Money.Income q l d l0) w Hwf Hq)
      as (w' & Happ & Hwf' & Hdisk & Htx).
    eapply wp_lift; [exact Happ|]. repeat wp_step.
    split; [simpl in *; lia|]. split; [done|]. split; [by right|].
    eexists. split; [exact Htx|]. split.
    + rewrite !confirmations_app. cbn. lia.
    + repeat constructor. by eexists.
Qed.

Lemma add_expense_wp w lines :
  well_formed' (data w) →
  wp (MoneyConsole.add_expense float_of_str decimal clock writable w)
    (λ out w' rest, length rest ≤ length lines ∧ effect' w out w')
    (λ out, confirmations out = 0) lines.
Proof.
  intros Hwf. unfold MoneyConsole.add_expense, MoneyConsole.print_header,
    MoneyConsole.open_for_writing.
  repeat wp_step.
  match goal with |- context [PrimFloat.leb ?x 0] => rename x into q end.
  destruct (PrimFloat.leb q 0) eqn:Hq.
  - repeat wp_step. split; [lia|]. apply effect_refl; [done|].
    rewrite !confirmations_app. cbn. lia.
  - repeat wp_step.
    destruct (append_eval (Money.Expense q l d l0) w Hwf Hq)
      as (w' & Happ & Hwf' & Hdisk & Htx).
    eapply wp_lift; [exact Happ|]. repeat wp_step.
    split; [simpl in *; lia|]. split; [done|]. split; [by right|].
    eexists. split; [exact Htx|]. split.
    + rewrite !confirmations_app. cbn. lia.
    + repeat constructor. by eexists.
Qed.

Lemma show_balance_wp w lines :
  well_formed' (data w) →
  wp (MoneyConsole.show_balance float_of_str w)
    (λ out w' rest, length rest ≤ length lines ∧ effect' w out w')
    (λ out, confirmations out = 0) lines.
Proof.
  intros Hwf. destruct (calculate_balance_ok _ Hwf) as [b Hb].
  pose proof Hwf as (m & sb & l & Hw & Hsb & [q Hq] & Hl & Hlike).
  unfold MoneyConsole.show_balance, MoneyConsole.print_header.
  repeat wp_step. eapply wp_lift; [exact Hb|]. repeat wp_step.
  rewrite Hw. cbn [Py.get]. rewrite Hsb, Hl. cbn [default id Builtin.len].
  repeat wp_step. eapply wp_lift; [exact Hq|]. repeat wp_step.
  split; [lia|]. apply effect_refl; [done|].
  rewrite !confirmations_app. cbn. lia.
Qed.

Lemma list_transactions_wp w lines :
  well_formed' (data w) →
  wp (MoneyConsole.list_transactions float_of_str w)
    (λ out w' rest, length rest ≤ length lines ∧ effect' w out w')
    (λ out, confirmations out = 0) lines.
Proof.
  intros Hwf. destruct (list_transactions_ok w Hwf) as (out & Hout & Hquiet).
  unfold MoneyConsole.list_transactions, MoneyConsole.print_header.
  repeat wp_step. eapply wp_lift; [exact Hout|]. repeat wp_step.
  split; [lia|]. apply effect_refl; [done|].
  rewrite !confirmations_app, Hquiet. cbn. lia.
Qed.

Lemma monthly_summary_wp w lines :
  well_formed' (data w) →
  wp (MoneyConsole.monthly_summary float_of_str decimal clock w)
    (λ out w' rest, length rest ≤ length lines ∧ effect' w out w')
    (λ out, confirmations out = 0) lines.
Proof.
  intros Hwf.
  unfold MoneyConsole.monthly_summary, MoneyConsole.print_header,
    MoneyConsole.today.
  repeat wp_step. destruct (clock (length rest0)) as [[ty tm] td].
  destruct (monthly_summary_ok ty tm l l0 w Hwf) as (out & Hout & Hquiet).
  wp_step. eapply wp_lift; [exact Hout|]. repeat wp_step.
  split; [simpl; lia|]. apply effect_refl; [done|].
  rewrite !confirmations_app, Hquiet. cbn. lia.
Qed.

Lemma effect_out w out out' w' :
  confirmations out = confirmations out' → effect' w out w' → effect' w out' w'.
Proof.
  intros Heq (Hwf & Hdisk & added & Htx & Hlen & Hacc).
  split; [done|]. split; [done|]. exists added. by rewrite <- Heq.
Qed.

(** One turn of the menu reads at least a line. *)
Lemma turn_wp w lines :
  well_formed' (data w) →
  wp (MoneyConsole.turn float_of_str decimal clock writable w)
    (λ out x rest,
       length rest < length lines
       ∧ match x with
         | Some w' => effect' w out w'
         | None => confirmations out = 0
         end)
    (λ out, confirmations out = 0) lines.
Proof.
  intros Hwf. unfold MoneyConsole.turn, MoneyConsole.print_menu.
  repeat wp_step.
  repeat match goal with
  | |- wp (if ?b then _ else _) _ _ _ => destruct b
  | |- wp (bind (MoneyConsole.set_starting_balance _ _ _) _) _ _ _ =>
      wp_step; eapply wp_mono; [| |by apply set_starting_balance_wp];
      cbv beta; [intros out w' rest' [Hlen Heff]|intros out Hout; quiet]
  | |- wp (bind (MoneyConsole.add_income _ _ _ _ _) _) _ _ _ =>
      wp_step; eapply wp_mono; [| |by apply add_income_wp];
      cbv beta; [intros out w' rest' [Hlen Heff]|intros out Hout; quiet]
  | |- wp (bind (MoneyConsole.add_expense _ _ _ _ _) _) _ _ _ =>
      wp_step; eapply wp_mono; [| |by apply add_expense_wp];
      cbv beta; [intros out w' rest' [Hlen Heff]|intros out Hout; quiet]
  | |- wp (bind (MoneyConsole.show_balance _ _) _) _ _ _ =>
      wp_step; eapply wp_mono; [| |by apply show_balance_wp];
      cbv beta; [intros out w' rest' [Hlen Heff]|intros out Hout; quiet]
  | |- wp (bind (MoneyConsole.list_transactions _ _) _) _ _ _ =>
      wp_step; eapply wp_mono; [| |by apply list_transactions_wp];
      cbv beta; [intros out w' rest' [Hlen Heff]|intros out Hout; quiet]
  | |- wp (bind (MoneyConsole.monthly_summary _ _ _ _) _) _ _ _ =>
      wp_step; eapply wp_mono; [| |by apply monthly_summary_wp];
      cbv beta; [intros out w' rest' [Hlen Heff]|intros out Hout; quiet]
  | |- wp _ _ _ _ => wp_step
  end;
    (split; [simpl in *; lia|]);
    try (eapply effect_out; [|exact Heff]; rewrite !confirmations_app; cbn; lia);
    try (apply effect_refl; [done|]);
    rewrite ?confirmations_app; cbn; lia.
Qed.
End MoneyActions.

Section MoneyMain.
Context (float_of_str : string → option float).
Context (decimal : string → option nat).
Context (clock : nat → string * string * string).
Context (writable : nat → bool).
Import Console.
#[local] Abbreviation well_formed' := (well_formed float_of_str).
#[local] Abbreviation main :=
  (MoneyConsole.main float_of_str decimal clock writable).

(** *** The menu loop *)

Lemma well_formed_loads d :
  well_formed' d → Money.load_data (Money.save_data d) = Ok (d, []).
Proof.
  intros (m & sb & l & -> & Hsb & _ & Hl & _). apply load_saved; by eexists.
Qed.

Lemma load_data_quiet f d msgs :
  Money.load_data f = Ok (d, msgs) →
  confirmations (MoneyConsole.Report <$> msgs) = 0.
Proof.
  intros Hload. destruct f as [| | | |e|v].
  - by injection Hload as _ <-.
  - by injection Hload as _ <-.
  - done.
  - by injection Hload as _ <-.
  - rewrite load_data_fails in Hload.
    destruct (bool_decide (e ∈ [JSONDecodeError; OSError])); [|done].
    by injection Hload as _ <-.
  - destruct v as [| | | |s|l|m]; try done.
    + unfold Money.load_data in Hload. simpl in Hload.
      destruct (Py.is_substring "starting_balance" s); [|done]. simpl in Hload.
      destruct (Py.is_substring "transactions" s); [|done].
      by injection Hload as _ <-.
    + unfold Money.load_data in Hload. simpl in Hload.
      destruct (existsb _ l); [|done]. simpl in Hload.
      destruct (existsb _ l); [|done].
      by injection Hload as _ <-.
    + rewrite load_data_json_dict in Hload. by injection Hload as _ <-.
Qed.

(** From a well-formed ledger that the data file holds, the loop with one
    turn of fuel per line and one more comes to an end by option 0 or with
    the input, and the file then holds a well-formed ledger with one more
    accepted transaction per confirmation printed. *)
Lemma menu_loop_spec fuel : ∀ w lines,
  (∀ n, writable n = true) →
  length lines < fuel →
  well_formed' (data w) →
  (∃ msgs, Money.load_data (disk w) = Ok (data w, msgs)) →
  let r := MoneyConsole.menu_loop float_of_str decimal clock writable fuel w
             lines in
  (ended r = Exited ∨ ended r = InputEnded)
  ∧ ∃ d msgs added,
      Money.load_data (file_left r) = Ok (d, msgs)
      ∧ well_formed' d
      ∧ transactions_of d = transactions_of (data w) ++ added
      ∧ length added = confirmations (printed r)
      ∧ Forall accepted added.
Proof.
  induction fuel as [|fuel IH]; intros w lines Hwr Hfuel Hwf [msgs Hsync]; [lia|].
  cbn [MoneyConsole.menu_loop].
  pose proof (turn_wp float_of_str decimal clock writable Hwr w lines Hwf)
    as Ht.
  unfold wp in Ht.
  destruct (MoneyConsole.turn float_of_str decimal clock writable w lines)
    as [out [[[w'|] rest]|e|]]; [| | done |].
  - destruct Ht as (Hlen & Hwf' & Hdisk & added & Htx & Hadded & Hacc).
    destruct (IH w' rest) as (Hend & d & msgs' & added' & Hload & Hd & Htx' & Hadded' & Hacc');
      [done|lia|done| |].
    { destruct Hdisk as [-> | ->]; [by eexists|].
      eexists. by apply well_formed_loads. }
    cbn [ended file_left printed]. split; [done|].
    exists d, msgs', (added ++ added'). split; [done|]. split; [done|].
    split; [by rewrite Htx', Htx, app_assoc|].
    split; [|by apply Forall_app].
    rewrite length_app, confirmations_app. lia.
  - cbn [ended file_left printed]. split; [by left|].
    exists (data w), msgs, []. destruct Ht as [_ Hout].
    by rewrite app_nil_r, Hout.
  - cbn [ended file_left printed]. split; [by right|].
    exists (data w), msgs, []. by rewrite app_nil_r, Ht.
Qed.

Lemma main_spec f lines d msgs :
  (∀ n, writable n = true) →
  Money.load_data f = Ok (d, msgs) → well_formed' d →
  (ended (main f lines) = Exited ∨ ended (main f lines) = InputEnded)
  ∧ ∃ d' msgs' added,
      Money.load_data (file_left (main f lines)) = Ok (d', msgs')
      ∧ well_formed' d'
      ∧ transactions_of d' = transactions_of d ++ added
      ∧ length added = confirmations (printed (main f lines))
      ∧ Forall accepted added.
Proof.
  intros Hwr Hload Hwf. unfold MoneyConsole.main. rewrite Hload.
  destruct (menu_loop_spec (S (length lines)) (World d f) lines)
    as (Hend & d' & msgs' & added & Hload' & Hwf' & Htx & Hadded & Hacc);
    [done|lia|done|by eexists|].
  cbn [ended file_left printed]. split; [done|].
  exists d', msgs', added. repeat split; try done.
  rewrite confirmations_app, Hadded.
  by rewrite (load_data_quiet f d msgs Hload).
Qed.


(** X16: as long as every write of the data file succeeds, what [main] of
    [money.py] confirms is on file: the transactions that [load_data]
    finds in the data file after a run are those it found before, in their
    order, followed by one transaction per confirmation of an income or an
    expense printed during the run, each of an amount that passed the test
    [amount <= 0] of the program: a positive number, or NaN. *)
Theorem main_stores_what_it_confirms f lines d msgs :
  (∀ n, writable n = true) →
  Money.load_data f = Ok (d, msgs) → well_formed' d →
  ∃ added,
    stored (file_left (main f lines)) = stored f ++ added
    ∧ length added = confirmations (printed (main f lines))
    ∧ Forall accepted added.
Proof.
  intros Hwr Hload Hwf.
  destruct (main_spec f lines d msgs Hwr Hload Hwf)
    as (_ & d' & msgs' & added & Hload' & _ & Htx & Hadded & Hacc).
  exists added. unfold stored. by rewrite Hload', Hload.
Qed.
End MoneyMain.

Section MoneyPrompts.
Context (float_of_str : string → option float).
Context (decimal : string → option nat).
Context (clock : nat → string * string * string).
Import Console.
#[local] Abbreviation input_float := (MoneyConsole.input_float float_of_str).
#[local] Abbreviation input_date := (MoneyConsole.input_date decimal clock).
#[local] Abbreviation transaction_like' := (transaction_like float_of_str).

(** X17: [input_float] never raises: it prints one complaint for every
    line that [float] rejects, returns the number of the first line that
    [float] accepts together with the lines after it, and ends with the
    input only when no line is a number. *)
Theorem input_float_takes_first_number lines :
  ∃ bad rest,
    lines = bad ++ rest
    ∧ Forall (λ s, float_of_str s = None) bad
    ∧ match rest with
      | [] =>
          input_float lines
          = (replicate (length bad) MoneyConsole.InvalidNumber, EndOfInput)
      | value :: rest' =>
          ∃ q, float_of_str value = Some q
               ∧ input_float lines
                 = (replicate (length bad) MoneyConsole.InvalidNumber,
                    Returns (q, rest'))
      end.
Proof.
  destruct (input_float_split float_of_str lines)
    as (bad & rest & -> & Hbad & Hrest).
  exists bad, rest. split; [done|]. split; [done|].
  destruct (input_float_eval float_of_str bad Hbad) as [He Hr].
  destruct rest as [|value rest]; [by rewrite app_nil_r|].
  destruct Hrest as [q Hq]. exists q. split; [done|]. by apply Hr.
Qed.

(** X18: [input_date] never raises: it prints one complaint for every line
    that is neither empty nor a date for [strptime], and returns for the
    first other line the date of the day if the line is empty and the line
    as typed if [strptime] accepts it; it ends with the input only when no
    such line comes. *)
Theorem input_date_takes_first_date lines :
  ∃ bad rest,
    lines = bad ++ rest
    ∧ Forall (λ s, s ≠ "" ∧ Datetime.strptime_Ymd decimal s = Raise ValueError) bad
    ∧ match rest with
      | [] =>
          input_date lines
          = (replicate (length bad) MoneyConsole.InvalidDateFormat, EndOfInput)
      | value :: rest' =>
          ∃ d, input_date lines
               = (replicate (length bad) MoneyConsole.InvalidDateFormat,
                  Returns (d, rest'))
               ∧ (value = ""
                  ∧ (∃ year month day,
                       clock (length rest') = (year, month, day)
                       ∧ d = (year ++ "-" ++ month ++ "-" ++ day)%string)
                  ∨ d = value ∧ ∃ ymd, Datetime.strptime_Ymd decimal value = Ok ymd)
      end.
Proof.
  destruct (input_date_split decimal lines) as (bad & rest & -> & Hbad & Hrest).
  exists bad, rest. split; [done|]. split; [done|].
  destruct (input_date_eval decimal clock bad Hbad) as [He Hr].
  destruct rest as [|value rest]; [by rewrite app_nil_r|].
  destruct (Hr value rest) as [-> | [Hne Hv]].
  - eexists. split; [done|]. destruct Hrest as [-> | [ymd Hymd]].
    + left. split; [done|]. destruct (clock (length rest)) as [[y m] d].
      by exists y, m, d.
    + right. destruct (String.eqb_spec value "") as [-> | _]; [done|].
      rewrite Hymd. eauto.
  - destruct Hrest as [-> | [ymd Hymd]]; [done|]. by rewrite Hymd in Hv.
Qed.

Lemma months_second_digit month :
  month ∈ months →
  ∃ m1 m2, (if (String.length month <? 2)%nat then "0" ++ month else month)%string
           = String m1 (String m2 "")
           ∧ m2 ≠ "-"%char.
Proof.
  intros H%list_elem_of_In. vm_compute in H.
  repeat destruct H as [<- | H]; try done; by do 2 eexists.
Qed.

(** Two texts that agree up to a first dash and beyond have the same
    text before the dash. *)
Lemma prefix_at_dash a' : ∀ a x y,
  dashes a = 0 → dashes a' = 0 →
  String.prefix (a' ++ String "-" x) (a ++ String "-" y) = true →
  a = a' ∧ String.prefix x y = true.
Proof.
  induction a' as [|c' a' IH]; intros [|c a] x y;
    cbv beta iota zeta delta [String.append]; fold String.append;
    cbn [dashes].
  - intros _ _. cbn [String.prefix]. by destruct (ascii_dec "-" "-").
  - intros H _. cbn [String.prefix].
    destruct (ascii_dec "-" c) as [<-|]; [by simpl in H|done].
  - intros _ H. cbn [String.prefix].
    destruct (ascii_dec c' "-") as [->|]; [by simpl in H|done].
  - intros H H'. cbn [String.prefix]. destruct (ascii_dec c' c) as [->|]; [|done].
    destruct (Ascii.eqb c "-"); [done|]. simpl in H, H'. intros E.
    destruct (IH a x y H H' E) as [-> ?]. done.
Qed.

(** A date with a month of one digit starts with no [YYYY-MM]. *)
Lemma one_digit_month_no_prefix year c rest year' month' :
  dashes year = 0 → valid_year_month decimal year' month' →
  String.prefix (zero_padded year' month')
    (year ++ "-" ++ String c (String "-" rest)) = false.
Proof.
  intros Hy [Hy'%is_year_no_dash Hm].
  destruct (String.prefix _ _) eqn:E; [|done]. exfalso.
  unfold zero_padded in E.
  destruct (months_second_digit month' Hm) as (m1 & m2 & Heq & Hm2).
  rewrite Heq in E.
  change (year' ++ "-" ++ String m1 (String m2 ""))%string
    with (year' ++ String "-" (String m1 (String m2 "")))%string in E.
  change (year ++ "-" ++ String c (String "-" rest))%string
    with (year ++ String "-" (String c (String "-" rest)))%string in E.
  apply prefix_at_dash in E as [_ E]; [|done|done].
  cbn [String.prefix] in E.
  destruct (ascii_dec m1 c); [|done]. by destruct (ascii_dec m2 "-").
Qed.

(** X19: a date typed with a month of one digit, such as 2024-1-05, is
    accepted by [input_date] and returned as typed, and a transaction
    dated so is in the summary of no month: adding it to the ledger
    changes the report of [monthly_summary] for no valid year and month. *)
Theorem one_digit_month_in_no_summary (year : string) (c : ascii)
  (day : string) ymd :
  let typed := (year ++ "-" ++ String c "" ++ "-" ++ day)%string in
  Datetime.strptime_Ymd decimal typed = Ok ymd →
  (∀ rest, input_date (typed :: rest) = ([], Returns (typed, rest)))
  ∧ ∀ today_year today_month year' month' (w : world) m l mt,
      let y := if String.eqb year' "" then today_year else year' in
      let mo := if String.eqb month' "" then today_month else month' in
      let w' := World (PDict (<["transactions" := PList (l ++ [PDict mt])]> m))
                  (disk w) in
      valid_year_month decimal y mo →
      data w = PDict m →
      default (PList []) (m !! "transactions") = PList l →
      Forall transaction_like' l →
      transaction_like' (PDict mt) →
      mt !! "date" = Some (PStr typed) →
      ∃ out,
        Money.monthly_summary float_of_str decimal today_year today_month year'
          month' w
        = Ok (w, out)
        ∧ Money.monthly_summary float_of_str decimal today_year today_month
            year' month' w'
          = Ok (w', out).
Proof.
  intros typed Hok. split.
  - intros rest. cbn [MoneyConsole.input_date].
    replace (String.eqb typed "") with false; [by rewrite Hok|].
    unfold typed. by destruct year.
  - intros today_year today_month year' month' w m l mt y mo w' Hvalid Hw Hm Hl
      Hmt Hdate.
    apply (monthly_summary_skips float_of_str decimal); try done.
    unfold in_month, date_of. rewrite Hdate.
    destruct ymd as [[yy mm] dd].
    apply strptime_inv in Hok as (ys & ms & ds & Heq & Hys & Hms & Hds).
    pose proof (is_year_no_dash _ _ Hys) as Hys0.
    pose proof (months_no_dash _ Hms) as Hms0.
    pose proof (f_equal dashes Heq) as Hcount.
    unfold typed in Hcount. rewrite !dashes_app in Hcount. simpl in Hcount.
    rewrite ?dashes_app in Hcount. simpl in Hcount.
    unfold typed in Heq.
    change (year ++ "-" ++ String c "" ++ "-" ++ day)%string
      with (year ++ String "-" (String c (String "-" day)))%string in Heq.
    change (ys ++ "-" ++ ms ++ "-" ++ ds)%string
      with (ys ++ String "-" (ms ++ String "-" ds))%string in Heq.
    apply split_at_dash in Heq as [-> _]; [|lia|done].
    by apply one_digit_month_no_prefix.
Qed.
End MoneyPrompts.

(** ** [simple.py] *)

Section SimpleBalance.
Context (float_of_str : string → option float).
#[local] Abbreviation amount_of' := (amount_of float_of_str).

Lemma format_f_float a q :
  SimpleConsole.format_f a = Ok q → Py.float float_of_str a = Ok q.
Proof. by destruct a. Qed.

Lemma simple_entry_step t b :
  simple_entry t →
  (a ← Py.getitem t "amount";
   amt ← Py.float float_of_str a;
   ty ← Py.getitem t "type";
   if Py.eq_str ty "IN" then Ok (b + amt)%float else Ok (b - amt)%float)
  = Ok (if has_type "IN" t then b + amount_of' t else b - amount_of' t)%float.
Proof.
  intros (m & d & ty & a & q & note & -> & Hd & Hty & Ha & Hq & Hn).
  unfold has_type, amount_of. cbn [Py.getitem mbind result_bind].
  rewrite Ha, Hty. cbn [mbind result_bind].
  rewrite (format_f_float _ _ Hq). cbn [mbind result_bind].
  by destruct (Py.eq_str ty "IN").
Qed.



Lemma has_type_out_not_in t :
  has_type "OUT" t = true → has_type "IN" t = false.
Proof.
  intros H. destruct (has_type "IN" t) eqn:E; [|done].
  by rewrite (has_type_in_not_out _ E) in H.
Qed.




(** X21: [calc_balance] of [simple.py] raises KeyError at the first
    transaction without an amount, or with an amount that is a number
    but without a type: no default stands in for a missing key. *)
Theorem simple_missing_key_raises m l1 mt l2 :
  m !! "transactions" = Some (PList (l1 ++ PDict mt :: l2)) →
  Forall simple_entry l1 →
  mt !! "amount" = None
  ∨ (∃ a q, mt !! "amount" = Some a ∧ Py.float float_of_str a = Ok q)
    ∧ mt !! "type" = None →
  Simple.calc_balance float_of_str (PDict m) = Raise KeyError.
Proof.
  intros Hm Hl1 Hmt. unfold Simple.calc_balance.
  cbn [Py.getitem mbind result_bind]. rewrite Hm.
  cbn [Py.iter mbind result_bind]. rewrite for_each_app. clear Hm.
  generalize 0%float. induction Hl1 as [|t l Ht Hl IH]; intros b.
  - cbn [for_each mbind result_bind Py.getitem].
    destruct Hmt as [-> | [(a & q & -> & Hq) ->]]; [done|].
    cbn [mbind result_bind]. by rewrite Hq.
  - cbn [for_each]. rewrite (simple_entry_step t b Ht).
    cbn [mbind result_bind]. apply IH.
Qed.

(** X22: [load_data] of [simple.py] returns the JSON document of the data
    file as it is.  When the document is an object without the key
    ["transactions"], the balance, an accepted income and option 3 of the
    menu all end with KeyError. *)
Theorem simple_load_does_not_repair (clock : nat → string)
  (writable : nat → bool) m :
  m !! "transactions" = None →
  Simple.load_data (Json (PDict m)) = Ok (PDict m, [])
  ∧ Simple.calc_balance float_of_str (PDict m) = Raise KeyError
  ∧ (∀ now amount note f,
       PrimFloat.leb amount 0 = false →
       Simple.add_income now amount note (World (PDict m) f) = Raise KeyError)
  ∧ ∀ rest,
      Console.ended
        (SimpleConsole.main float_of_str clock writable (Json (PDict m))
           ("3" :: rest))
      = Console.Crashed KeyError.
Proof.
  intros Hm. split; [done|].
  assert (Simple.calc_balance float_of_str (PDict m) = Raise KeyError) as Hb.
  { unfold Simple.calc_balance. cbn [Py.getitem mbind result_bind].
    by rewrite Hm. }
  split; [done|]. split.
  - intros now amount note f Hpos. unfold Simple.add_income.
    rewrite Hpos. unfold Simple.append_transaction.
    cbn [data Py.getitem mbind result_bind]. by rewrite Hm.
  - intros rest.
    assert (SimpleConsole.turn float_of_str clock writable
              (World (PDict m) (Json (PDict m))) ("3" :: rest)
            = ([SimpleConsole.Menu; SimpleConsole.Title "Current Balance"],
               Console.Raises KeyError)) as Ht.
    { unfold SimpleConsole.turn, SimpleConsole.show_balance, Console.bind,
        Console.print, Console.input, Console.lift.
      cbn [String.eqb Ascii.eqb Bool.eqb data]. by rewrite Hb. }
    unfold SimpleConsole.main.
    cbn [Simple.load_data path_exists negb try_except json_load mbind result_bind].
    cbn [length SimpleConsole.menu_loop]. by rewrite Ht.
Qed.
End SimpleBalance.




Section SimpleRuns.
Context (float_of_str : string → option float).
Import Console.
#[local] Abbreviation input_float := (SimpleConsole.input_float float_of_str).







End SimpleRuns.


Section SimpleMain.
Context (float_of_str : string → option float).
Context (clock : nat → string).
Context (writable : nat → bool).
(** Every write of the data file succeeds. *)
Hypothesis always_writable : ∀ n, writable n = true.
Import Console.
#[local] Abbreviation main := (SimpleConsole.main float_of_str clock writable).









End SimpleMain.

(** ** [pp.py] *)

Section Table.
Context {A : Type}.

Lemma insert_desc_perm (x : Z * A) l : Pp.insert_desc x l ≡ₚ x :: l.
Proof.
  induction l as [|y l IH]; simpl; [done|].
  destruct (x.1 <? y.1)%Z; [|done]. rewrite IH. apply Permutation_swap.
Qed.

Lemma sort_desc_perm (l : list (Z * A)) : foldr Pp.insert_desc [] l ≡ₚ l.
Proof.
  induction l as [|x l IH]; simpl; [done|]. by rewrite insert_desc_perm, IH.
Qed.

Lemma insert_desc_sorted (x : Z * A) l :
  StronglySorted (λ a b, (b.1 ≤ a.1)%Z) l →
  StronglySorted (λ a b, (b.1 ≤ a.1)%Z) (Pp.insert_desc x l).
Proof.
  induction 1 as [|y l Hl IH Hy]; simpl; [repeat constructor|].
  destruct (Z.ltb_spec x.1 y.1) as [Hlt|Hge].
  - constructor; [done|]. rewrite insert_desc_perm. constructor; [lia|done].
  - constructor; [by constructor|]. constructor; [done|].
    eapply Forall_impl; [exact Hy|]. simpl. lia.
Qed.

Lemma sort_desc_sorted (l : list (Z * A)) :
  StronglySorted (λ a b, (b.1 ≤ a.1)%Z) (foldr Pp.insert_desc [] l).
Proof.
  induction l as [|x l IH]; simpl; [constructor|]. by apply insert_desc_sorted.
Qed.
End Table.

Lemma map_each_length {A B : Type} (f : A → result B) l : ∀ ys,
  Py.map_each f l = Ok ys → length ys = length l.
Proof.
  induction l as [|x l IH]; intros ys; simpl; [by intros [= <-]|].
  destruct (f x) as [y|]; [|done]. simpl.
  destruct (Py.map_each f l) as [ys'|]; [|done]. simpl.
  intros [= <-]. simpl. by rewrite (IH ys').
Qed.

Lemma with_dates_keys dates rows :
  Forall (λ p : Z * gmap string pyval, shown_date p.2 = p.1)
    (zip dates (with_dates dates rows)).
Proof.
  revert rows. induction dates as [|d dates IH]; intros [|r rows]; simpl;
    try constructor; [|apply IH].
  unfold shown_date. simpl. by rewrite lookup_insert_eq.
Qed.

(** X24: the table of All Transactions has one row per transaction, with
    its date converted, in descending order of the dates: the newest
    first.  When one date cannot be converted, no table is shown: the
    exception of [pd.to_datetime] ends the run. *)
Theorem df_display_newest_first (to_datetime : pyval → result Z)
  (df : Pp.dataframe) :
  match Py.map_each (λ r, to_datetime (default PNone (r !! "Date")))
          (Pp.records df) with
  | Ok dates =>
      ∃ shown,
        Pp.df_display to_datetime df = Ok shown
        ∧ shown ≡ₚ with_dates dates (Pp.records df)
        ∧ StronglySorted (λ a b, (shown_date b ≤ shown_date a)%Z) shown
  | Raise e => Pp.df_display to_datetime df = Raise e
  end.
Proof.
  unfold Pp.df_display.
  destruct (Py.map_each _ (Pp.records df)) as [dates|e] eqn:Hdates; [|done].
  cbn [mbind result_bind]. eexists. split; [reflexivity|].
  fold (with_dates dates (Pp.records df)).
  set (ps := zip dates (with_dates dates (Pp.records df))).
  assert (Forall (λ p : Z * gmap string pyval, shown_date p.2 = p.1)
            (foldr Pp.insert_desc [] ps)) as Hkeys.
  { rewrite sort_desc_perm. apply with_dates_keys. }
  split.
  - rewrite sort_desc_perm. unfold ps. rewrite snd_zip; [done|].
    unfold with_dates. rewrite length_zip_with. lia.
  - pose proof (sort_desc_sorted ps) as Hs.
    induction Hs as [|p l Hl IH Hp]; simpl; [constructor|].
    inversion Hkeys as [|? ? Hk Hks]; subst.
    constructor; [by apply IH|].
    apply Forall_fmap. apply Forall_forall. intros q Hq. simpl.
    rewrite Hk. rewrite Forall_forall in Hks. rewrite (Hks q Hq).
    rewrite Forall_forall in Hp. by apply Hp.
Qed.

Section Script.
Context (strip : string → string).
Import Pp PpScript.

Lemma concat_row_keeps_columns df cols row :
  has_required_columns df → has_required_columns (concat_row df cols row).
Proof.
  unfold has_required_columns, concat_row. simpl.
  rewrite list_to_set_app. set_solver.
Qed.

Lemma empty_frame_has_columns : has_required_columns empty_frame.
Proof. unfold has_required_columns. by apply required_cols_subseteq; repeat constructor; in_list. Qed.

(** X25: every run of the script leaves in the session a table that has
    the columns Date, Type, Amount, Category and Note, whatever is
    uploaded, reset or submitted, provided the session it started from had
    one. *)
Theorem rerun_keeps_required_columns (ws : widgets)
  (session : option session_state) :
  (∀ st, session = Some st → has_required_columns (transactions st)) →
  has_required_columns (transactions (rerun strip ws session).1).
Proof.
  intros Hs. unfold rerun.
  set (st0 := default (SessionState empty_frame 0) session).
  assert (has_required_columns (transactions st0)) as H0.
  { unfold st0. destruct session as [st|]; simpl; [by apply Hs|].
    apply empty_frame_has_columns. }
  set (st1 := SessionState (transactions st0) (starting_balance_input ws)).
  assert (has_required_columns
            (transactions (on_uploaded_file (uploaded_file ws) st1).1)) as H1.
  { unfold on_uploaded_file.
    destruct (uploaded_file ws) as [[df|e]|]; simpl; try done.
    by case_bool_decide. }
  destruct (on_uploaded_file (uploaded_file ws) st1) as [st2 out1].
  simpl in H1.
  destruct (reset_clicked ws), (submitted ws) as [e|]; simpl;
    try apply concat_row_keeps_columns; try done;
    apply empty_frame_has_columns.
Qed.

(** X26: while the uploader holds a table with the required columns, the
    run does not depend on the session it started from: the table after
    the run is the uploaded one (unless reset) and the entry submitted in
    this run, so that entries added in earlier runs are gone. *)
Theorem upload_overrides_session (ws : widgets) (df : dataframe)
  (s1 s2 : option session_state) :
  uploaded_file ws = Some (Ok df) → has_required_columns df →
  rerun strip ws s1 = rerun strip ws s2
  ∧ (reset_clicked ws = false →
     records (transactions (rerun strip ws s1).1)
     = records df ++ match submitted ws with
                     | Some e => [new_row strip e]
                     | None => []
                     end).
Proof.
  intros Hup Hcols. unfold rerun. rewrite Hup. unfold on_uploaded_file.
  unfold has_required_columns in Hcols. rewrite !bool_decide_eq_true_2 by done.
  split; [done|]. intros ->.
  destruct (submitted ws) as [e|]; simpl; [done|by rewrite app_nil_r].
Qed.
End Script.

(** ** The turns of the menu loops

    Whatever the data and the input, a turn of a menu that returns has
    read a line: the turns given to the loops of [main] are enough. *)

Section Shrinks.
Context {line : Type}.
Import Console.

Lemma shrinks_bind {A B : Type} (m : console line A) (k : A → console line B) :
  shrinks m → (∀ a, shrinks (k a)) → shrinks (x ⇐ m; k x).
Proof.
  intros Hm Hk lines out b rest. unfold bind.
  destruct (m lines) as [o1 [[a rest1]|e|]] eqn:E1; [|done|done].
  destruct (k a rest1) as [o2 r] eqn:E2. intros [= _ ->].
  pose proof (Hm _ _ _ _ E1). pose proof (Hk _ _ _ _ _ E2). lia.
Qed.

Lemma shrinks_ret {A : Type} (a : A) : shrinks (ret (line := line) a).
Proof. by intros lines out a' rest [= _ _ <-]. Qed.

Lemma shrinks_print (l : line) : shrinks (print l).
Proof. by intros lines out a' rest [= _ _ <-]. Qed.

Lemma shrinks_print_all (ls : list line) : shrinks (print_all ls).
Proof. by intros lines out a' rest [= _ _ <-]. Qed.

Lemma shrinks_unread : shrinks (unread (line := line)).
Proof. by intros lines out a' rest [= _ _ <-]. Qed.

Lemma shrinks_lift {A : Type} (r : result A) : shrinks (lift (line := line) r).
Proof. intros lines out a' rest. destruct r; [|done]. by intros [= _ _ <-]. Qed.

Lemma shrinks_input : shrinks (input (line := line)).
Proof.
  intros [|l lines] out a' rest; [done|]. intros [= _ _ <-]. simpl. lia.
Qed.

(** A call that starts by reading a line leaves fewer lines. *)
Lemma reads_a_line {A B : Type} (m : console line A)
  (k : string → console line B) lines out b rest :
  shrinks m → (∀ l, shrinks (k l)) →
  (_ ⇐ m; l ⇐ input; k l) lines = (out, Returns (b, rest)) →
  length rest < length lines.
Proof.
  intros Hm Hk. unfold bind at 1.
  destruct (m lines) as [o1 [[a rest1]|e|]] eqn:E1; [|done|done].
  pose proof (Hm _ _ _ _ E1). unfold bind, input.
  destruct rest1 as [|l rest1]; [done|].
  destruct (k l rest1) as [o2 r] eqn:E2. intros [= _ ->].
  pose proof (Hk _ _ _ _ _ E2). simpl in *. lia.
Qed.
End Shrinks.

Ltac shrinks_step :=
  first
    [ apply shrinks_bind; [|intros ?]
    | apply shrinks_ret
    | apply shrinks_print
    | apply shrinks_print_all
    | apply shrinks_unread
    | apply shrinks_lift
    | apply shrinks_input
    | match goal with
      | |- shrinks (if ?b then _ else _) => destruct b
      | |- shrinks (let '(_, _) := ?p in _) => destruct p
      end ].

Section MoneyFinishes.
Context (float_of_str : string → option float).
Context (decimal : string → option nat).
Context (clock : nat → string * string * string).
Context (writable : nat → bool).
Import Console.

Lemma input_float_shrinks : shrinks (MoneyConsole.input_float float_of_str).
Proof.
  intros lines. induction lines as [|value lines IH]; intros out a rest; [done|].
  cbn [MoneyConsole.input_float].
  destruct (Py.float float_of_str (PStr value)) as [q|[]]; try done.
  - intros [= _ _ <-]. simpl. lia.
  - destruct (MoneyConsole.input_float float_of_str lines) as [o r] eqn:E.
    intros [= _ ->]. pose proof (IH _ _ _ eq_refl). simpl. lia.
Qed.

Lemma input_date_shrinks : shrinks (MoneyConsole.input_date decimal clock).
Proof.
  intros lines. induction lines as [|value lines IH]; intros out a rest; [done|].
  cbn [MoneyConsole.input_date]. destruct (String.eqb value "").
  { destruct (clock (length lines)) as [[y m] d]. intros [= _ _ <-]. simpl. lia. }
  destruct (Datetime.strptime_Ymd decimal value) as [q|[]]; try done.
  - intros [= _ _ <-]. simpl. lia.
  - destruct (MoneyConsole.input_date decimal clock lines) as [o r] eqn:E.
    intros [= _ ->]. pose proof (IH _ _ _ eq_refl). simpl. lia.
Qed.

Lemma money_actions_shrink w :
  shrinks (MoneyConsole.set_starting_balance float_of_str writable w)
  ∧ shrinks (MoneyConsole.add_income float_of_str decimal clock writable w)
  ∧ shrinks (MoneyConsole.add_expense float_of_str decimal clock writable w)
  ∧ shrinks (MoneyConsole.show_balance float_of_str w)
  ∧ shrinks (MoneyConsole.list_transactions float_of_str w)
  ∧ shrinks (MoneyConsole.monthly_summary float_of_str decimal clock w).
Proof.
  unfold MoneyConsole.set_starting_balance, MoneyConsole.add_income,
    MoneyConsole.add_expense, MoneyConsole.show_balance,
    MoneyConsole.list_transactions, MoneyConsole.monthly_summary,
    MoneyConsole.print_header, MoneyConsole.today,
    MoneyConsole.open_for_writing.
  repeat split;
    repeat first [ apply input_float_shrinks | apply input_date_shrinks
                 | shrinks_step ].
Qed.

Lemma money_turn_reads w lines out x rest :
  MoneyConsole.turn float_of_str decimal clock writable w lines = (out, Returns (x, rest)) →
  length rest < length lines.
Proof.
  destruct (money_actions_shrink w) as (H1 & H2 & H3 & H4 & H5 & H6).
  apply reads_a_line; [apply shrinks_print|]. intros choice.
  repeat first [ assumption | shrinks_step ].
Qed.

Lemma money_menu_loop_finishes fuel : ∀ w lines,
  length lines < fuel →
  ended (MoneyConsole.menu_loop float_of_str decimal clock writable fuel w lines) ≠ Unfinished.
Proof.
  induction fuel as [|fuel IH]; intros w lines Hfuel; [lia|].
  cbn [MoneyConsole.menu_loop].
  destruct (MoneyConsole.turn float_of_str decimal clock writable w lines)
    as [out [[[w'|] rest]|e|]] eqn:E; try done.
  cbn [ended]. apply IH. pose proof (money_turn_reads _ _ _ _ _ E). lia.
Qed.

(** No run of [main] of [money.py] is cut off. *)
Lemma money_main_finishes f lines :
  ended (MoneyConsole.main float_of_str decimal clock writable f lines) ≠ Unfinished.
Proof.
  unfold MoneyConsole.main. destruct (Money.load_data f) as [[d out]|e]; [|done].
  cbn [ended]. apply money_menu_loop_finishes. lia.
Qed.
End MoneyFinishes.

Section SimpleFinishes.
Context (float_of_str : string → option float).
Context (clock : nat → string).
Context (writable : nat → bool).
Import Console.

Lemma simple_input_float_shrinks :
  shrinks (SimpleConsole.input_float float_of_str).
Proof.
  intros lines. induction lines as [|value lines IH]; intros out a rest; [done|].
  cbn [SimpleConsole.input_float].
  destruct (Py.float float_of_str (PStr value)) as [q|[]]; try done.
  - intros [= _ _ <-]. simpl. lia.
  - destruct (SimpleConsole.input_float float_of_str lines) as [o r] eqn:E.
    intros [= _ ->]. pose proof (IH _ _ _ eq_refl). simpl. lia.
Qed.

Lemma print_rows_shrinks l : shrinks (SimpleConsole.print_rows l).
Proof.
  induction l as [|t l IH]; cbn [SimpleConsole.print_rows];
    repeat first [ assumption | shrinks_step ].
Qed.

Lemma simple_actions_shrink w :
  shrinks (SimpleConsole.add_income float_of_str clock writable w)
  ∧ shrinks (SimpleConsole.add_expense float_of_str clock writable w)
  ∧ shrinks (SimpleConsole.show_balance float_of_str w)
  ∧ shrinks (SimpleConsole.show_history w).
Proof.
  unfold SimpleConsole.add_income, SimpleConsole.add_expense,
    SimpleConsole.show_balance, SimpleConsole.show_history, SimpleConsole.now,
    SimpleConsole.open_for_writing.
  repeat split;
    repeat first [ apply simple_input_float_shrinks | apply print_rows_shrinks
                 | shrinks_step ].
Qed.

Lemma simple_turn_reads w lines out x rest :
  SimpleConsole.turn float_of_str clock writable w lines = (out, Returns (x, rest)) →
  length rest < length lines.
Proof.
  destruct (simple_actions_shrink w) as (H1 & H2 & H3 & H4).
  apply reads_a_line; [apply shrinks_print|]. intros choice.
  repeat first [ assumption | shrinks_step ].
Qed.

Lemma simple_menu_loop_finishes fuel : ∀ w lines,
  length lines < fuel →
  ended (SimpleConsole.menu_loop float_of_str clock writable fuel w lines) ≠ Unfinished.
Proof.
  induction fuel as [|fuel IH]; intros w lines Hfuel; [lia|].
  cbn [SimpleConsole.menu_loop].
  destruct (SimpleConsole.turn float_of_str clock writable w lines)
    as [out [[[w'|] rest]|e|]] eqn:E; try done.
  cbn [ended]. apply IH. pose proof (simple_turn_reads _ _ _ _ _ E). lia.
Qed.

(** No run of [main] of [simple.py] is cut off. *)
Lemma simple_main_finishes f lines :
  ended (SimpleConsole.main float_of_str clock writable f lines) ≠ Unfinished.
Proof.
  unfold SimpleConsole.main.
  destruct (Simple.load_data f) as [[d out]|e]; [|done].
  cbn [ended]. apply simple_menu_loop_finishes. lia.
Qed.
End SimpleFinishes.

(** ** The further properties on the example ledger *)

Lemma gift_transaction_like float_of_str :
  transaction_like float_of_str gift_transaction.
Proof.
  eexists; (split; [reflexivity|]);
    (split; [|split; [eexists; reflexivity|split]]);
    intros v Hv; vm_compute in Hv; try done; injection Hv as <-; by eexists.
Qed.

Lemma undated_transaction_like float_of_str :
  transaction_like float_of_str (PDict undated_transaction).
Proof.
  eexists; (split; [reflexivity|]);
    (split; [|split; [eexists; reflexivity|split]]);
    intros v Hv; vm_compute in Hv; try done; injection Hv as <-; by eexists.
Qed.

Lemma example_transactions_numeric float_of_str :
  Forall (has_numeric_amount float_of_str) (transaction_of <$> example_requests).
Proof. repeat constructor; apply transaction_of_numeric. Qed.

Lemma load_data_dict_is_ledger_witness :
  ledger_shaped
    (PDict (<["starting_balance" := PFloat 0]> {[ "transactions" := PList [] ]})).
Proof.
  apply (load_data_dict_is_ledger
           (Json (PDict {[ "transactions" := PList [] ]})) _ []).
  reflexivity.
Defined.

Lemma set_starting_balance_effect_witness :
  ∃ w',
    Money.set_starting_balance (λ _, None) 20 example_world
    = Ok (w', [Money.CurrentStartingBalance 100;
               Money.StartingBalanceUpdated 20])
    ∧ data w' = PDict (<["starting_balance" := PFloat 20]> example_map)
    ∧ disk w' = Money.save_data (data w')
    ∧ Money.calculate_balance (λ _, None) (data w')
      = Ok (fold_left (λ b t, signed (λ _, None) t b)
              (transaction_of <$> example_requests) 20%float).
Proof.
  apply (set_starting_balance_effect (λ _, None) 20 example_world example_map
           100 (transaction_of <$> example_requests));
    [reflexivity|reflexivity|reflexivity|].
  apply example_transactions_numeric.
Defined.

Lemma append_moves_balance_witness :
  ∃ w' out,
    Money.append (Money.Expense 5 "snacks" "2024-03-01" "") example_world
    = Ok (w', out)
    ∧ Money.calculate_balance (λ _, None) (data w') = Ok (140 - 5)%float.
Proof.
  apply (append_moves_balance (λ _, None)
           (Money.Expense 5 "snacks" "2024-03-01" "") example_world example_map
           (transaction_of <$> example_requests) 140);
    reflexivity.
Defined.

Lemma appends_keep_history_witness :
  ∃ w' m',
    Money.run example_requests (World (ledger 100 []) Absent) = Ok w'
    ∧ data w' = PDict m'
    ∧ m' !! "transactions"
      = Some (PList ([] ++ (transaction_of <$> example_requests)))
    ∧ ∀ k, k ≠ "transactions"
           → m' !! k
             = ({[ "starting_balance" := PFloat 100;
                   "transactions" := PList [] ]} : gmap string pyval) !! k.
Proof.
  apply (appends_keep_history example_requests (World (ledger 100 []) Absent)
           {[ "starting_balance" := PFloat 100; "transactions" := PList [] ]}
           []); [reflexivity|reflexivity|].
  repeat constructor.
Defined.

Lemma saved_state_reloads_witness :
  Money.load_data
    (Money.save_data (PDict (<["starting_balance" := PFloat 20]> example_map)))
  = Ok (PDict (<["starting_balance" := PFloat 20]> example_map), []).
Proof.
  apply (saved_state_reloads (λ _, None) example_world
           (World (PDict (<["starting_balance" := PFloat 20]> example_map))
              (Money.save_data
                 (PDict (<["starting_balance" := PFloat 20]> example_map))))
           [Money.CurrentStartingBalance 100; Money.StartingBalanceUpdated 20]).
  - apply ledger_is_ledger_shaped.
  - right. exists 20%float. reflexivity.
Defined.

Lemma same_day_transactions_like float_of_str :
  Forall (transaction_like float_of_str) (transaction_of <$> same_day_requests).
Proof. repeat constructor; apply transaction_of_like. Qed.

Lemma history_keeps_order_within_a_date_witness :
  ∃ shown rows,
    Money.list_transactions (λ _, None)
      (World (ledger 100 (transaction_of <$> same_day_requests)) Absent)
    = Ok (World (ledger 100 (transaction_of <$> same_day_requests)) Absent,
          [Money.History rows])
    ∧ Forall2 (λ t r, Money.history_row (λ _, None) t = Ok r
                      ∧ Money.row_date r = PStr (date_of t)) shown rows
    ∧ ∀ d, List.filter (λ t, String.eqb (date_of t) d) shown
           = List.filter (λ t, String.eqb (date_of t) d)
               (transaction_of <$> same_day_requests).
Proof.
  exact (history_keeps_order_within_a_date (λ _, None)
           (World (ledger 100 (transaction_of <$> same_day_requests)) Absent)
           {[ "starting_balance" := PFloat 100;
              "transactions" := PList (transaction_of <$> same_day_requests) ]}
           _ _ eq_refl eq_refl (same_day_transactions_like _)).
Defined.

(** The two transactions of 2024-01-10 come after the one of 2024-01-05,
    the gift before the bus as in the ledger. *)
Example same_day_history :
  (r ← Money.list_transactions (λ _, None)
         (World (ledger 100 (transaction_of <$> same_day_requests)) Absent);
   Ok (match r.2 with
       | [Money.History rows] => Money.row_category <$> rows
       | _ => []
       end))
  = Ok [PStr "snacks"; PStr "gift"; PStr "bus"].
Proof. reflexivity. Qed.

Lemma history_shows_unknown_type_as_expense_witness :
  (∃ r, Money.history_row (λ _, None) gift_transaction = Ok r
        ∧ Money.row_type r = PStr "OUT" ∧ Money.row_sign r = "-"%string
        ∧ Money.row_amount r = amount_of (λ _, None) gift_transaction)
  ∧ Money.calculate_balance (λ _, None) (ledger 100 [gift_transaction])
    = Ok 100%float.
Proof.
  apply (history_shows_unknown_type_as_expense (λ _, None) gift_transaction 100);
    [apply gift_transaction_like|reflexivity|reflexivity].
Defined.

Lemma monthly_details_sorted_witness :
  ∃ summary shown rows,
    Money.monthly_summary (λ _, None) fullwidth "2025" "07" "2024" "01" example_world
    = Ok (example_world, [summary; Money.Details rows])
    ∧ shown ≡ₚ List.filter (in_month (zero_padded "2024" "01"))
                 (transaction_of <$> example_requests)
    ∧ StronglySorted date_le shown
    ∧ Forall2 (λ t r, Money.summary_row (λ _, None) t = Ok r
                      ∧ Money.row_date r = PStr (date_of t)) shown rows.
Proof.
  exact (monthly_details_sorted (λ _, None) fullwidth "2025" "07" "2024" "01"
           example_world example_map (transaction_of <$> example_requests)
           (valid_2024_01 _) eq_refl eq_refl (example_transactions_like _)).
Defined.

Lemma undated_transaction_in_no_month_witness :
  ∃ out,
    Money.monthly_summary (λ _, None) fullwidth "2025" "07" "2024" "01" example_world
    = Ok (example_world, out)
    ∧ Money.monthly_summary (λ _, None) fullwidth "2025" "07" "2024" "01"
        (World (PDict (<["transactions" :=
                           PList ((transaction_of <$> example_requests)
                                  ++ [PDict undated_transaction])]> example_map))
           Absent)
      = Ok (World (PDict (<["transactions" :=
                             PList ((transaction_of <$> example_requests)
                                    ++ [PDict undated_transaction])]> example_map))
              Absent, out).
Proof.
  exact (undated_transaction_in_no_month (λ _, None) fullwidth "2025" "07" "2024" "01"
           example_world example_map (transaction_of <$> example_requests)
           undated_transaction (valid_2024_01 _) eq_refl eq_refl
           (example_transactions_like _) (undated_transaction_like _) eq_refl).
Defined.

Lemma unknown_type_is_counted_not_totalled_witness :
  ∃ income expense count details details',
    Money.monthly_summary (λ _, None) fullwidth "2025" "07" "2024" "01" example_world
    = Ok (example_world,
          Money.Summary "2024" "01" income expense (income - expense)%float count
          :: details)
    ∧ Money.monthly_summary (λ _, None) fullwidth "2025" "07" "2024" "01"
        (World (PDict (<["transactions" :=
                           PList ((transaction_of <$> example_requests)
                                  ++ [gift_transaction])]> example_map))
           Absent)
      = Ok (World (PDict (<["transactions" :=
                             PList ((transaction_of <$> example_requests)
                                    ++ [gift_transaction])]> example_map))
              Absent,
            Money.Summary "2024" "01" income expense (income - expense)%float
              (S count) :: details').
Proof.
  exact (unknown_type_is_counted_not_totalled (λ _, None) fullwidth "2025" "07" "2024"
           "01" example_world example_map (transaction_of <$> example_requests)
           gift_transaction (valid_2024_01 _) eq_refl eq_refl
           (example_transactions_like _) (gift_transaction_like _)
           eq_refl eq_refl eq_refl).
Defined.

Lemma fresh_well_formed float_of_str : well_formed float_of_str Money.fresh.
Proof.
  exists {[ "starting_balance" := PFloat 0; "transactions" := PList [] ]},
    (PFloat 0), [].
  repeat split; try done. by exists 0%float.
Qed.


Lemma gift_entry_simple : simple_entry gift_entry.
Proof. do 6 eexists. repeat split; reflexivity. Qed.

Lemma two_entries_has_columns : has_required_columns two_entries.
Proof.
  unfold has_required_columns. apply required_cols_subseteq.
  repeat constructor; in_list.
Qed.


Lemma main_stores_what_it_confirms_witness :
  ∃ added,
    stored
      (Console.file_left
         (MoneyConsole.main example_float_of_str fullwidth example_clock always
           Absent
            example_keys))
    = stored Absent ++ added
    ∧ length added
      = confirmations
          (Console.printed
             (MoneyConsole.main example_float_of_str fullwidth example_clock always
           Absent
                example_keys))
    ∧ Forall accepted added.
Proof.
  apply (main_stores_what_it_confirms example_float_of_str fullwidth
           example_clock always Absent example_keys Money.fresh []).
  - reflexivity.
  - reflexivity.
  - apply fresh_well_formed.
Defined.

Lemma one_digit_month_in_no_summary_witness :
  (∀ rest,
     MoneyConsole.input_date fullwidth example_clock ("2024-1-05" :: rest)
     = ([], Console.Returns ("2024-1-05", rest)))
  ∧ ∀ today_year today_month year' month' (w : world) m l mt,
      valid_year_month fullwidth
        (if String.eqb year' "" then today_year else year')
        (if String.eqb month' "" then today_month else month') →
      data w = PDict m →
      default (PList []) (m !! "transactions") = PList l →
      Forall (transaction_like example_float_of_str) l →
      transaction_like example_float_of_str (PDict mt) →
      mt !! "date" = Some (PStr "2024-1-05") →
      ∃ out,
        Money.monthly_summary example_float_of_str fullwidth today_year
          today_month year' month' w
        = Ok (w, out)
        ∧ Money.monthly_summary example_float_of_str fullwidth today_year
            today_month year' month'
            (World (PDict (<["transactions" := PList (l ++ [PDict mt])]> m))
               (disk w))
          = Ok (World (PDict (<["transactions" := PList (l ++ [PDict mt])]> m))
                  (disk w), out).
Proof.
  exact (one_digit_month_in_no_summary example_float_of_str fullwidth
           example_clock "2024" "1" "05" (2024, 1, 5) eq_refl).
Defined.


Lemma simple_missing_key_raises_witness :
  Simple.calc_balance example_float_of_str
    (PDict {[ "transactions" :=
                PList ([gift_entry] ++ PDict entry_without_amount :: []) ]})
  = Raise KeyError.
Proof.
  apply (simple_missing_key_raises example_float_of_str
           {[ "transactions" :=
                PList ([gift_entry] ++ PDict entry_without_amount :: []) ]}
           [gift_entry] entry_without_amount []).
  - reflexivity.
  - repeat constructor. apply gift_entry_simple.
  - left. reflexivity.
Defined.

Lemma simple_load_does_not_repair_witness :
  Simple.load_data (Json (PDict ∅)) = Ok (PDict ∅, [])
  ∧ Simple.calc_balance example_float_of_str (PDict ∅) = Raise KeyError
  ∧ (∀ now amount note f,
       PrimFloat.leb amount 0 = false →
       Simple.add_income now amount note (World (PDict ∅) f) = Raise KeyError)
  ∧ ∀ rest,
      Console.ended
        (SimpleConsole.main example_float_of_str simple_example_clock always
           (Json (PDict ∅)) ("3" :: rest))
      = Console.Crashed KeyError.
Proof.
  apply (simple_load_does_not_repair example_float_of_str simple_example_clock
           always ∅).
  reflexivity.
Defined.


Lemma rerun_keeps_required_columns_witness :
  has_required_columns
    (Pp.transactions
       (PpScript.rerun (λ s, s) upload_widgets
          (Some (Pp.SessionState two_entries 0))).1).
Proof.
  apply (rerun_keeps_required_columns (λ s, s) upload_widgets
           (Some (Pp.SessionState two_entries 0))).
  intros st [= <-]. apply two_entries_has_columns.
Defined.

Lemma upload_overrides_session_witness :
  PpScript.rerun (λ s, s) upload_widgets None
  = PpScript.rerun (λ s, s) upload_widgets
      (Some (Pp.SessionState PpScript.empty_frame 7))
  ∧ (PpScript.reset_clicked upload_widgets = false →
     Pp.records (Pp.transactions (PpScript.rerun (λ s, s) upload_widgets None).1)
     = Pp.records two_entries
       ++ match PpScript.submitted upload_widgets with
          | Some e => [PpScript.new_row (λ s, s) e]
          | None => []
          end).
Proof.
  apply (upload_overrides_session (λ s, s) upload_widgets two_entries None
           (Some (Pp.SessionState PpScript.empty_frame 7))).
  - reflexivity.
  - apply two_entries_has_columns.
Defined.
